(** * soar5: LLMLingua2 compression and MS MARCO evaluation scripts

    A shallow embedding of [llmlingua_compressor.py],
    [msmarco_evaluator.py] and [run_pipeline.py], and the properties of
    the specification proved (or refuted) on it.

    Conventions of the embedding.
    - A Python [str] is a [list ascii]: a sequence of code points below
      256 (Latin-1), on which [len], slicing, [lower], [strip], [split],
      [replace] and [in] are the functions of module [Py].
    - A Python [int] is a [Z]; a [dict] is a [gmap]; [None] is an option.
    - The record of an example is one dict from [str] keys to values
      ([jval]: null, bool, int, float, str, list, dict), as
      [process_example] builds it and as [json.load] returns it; the
      method entries share the keys with the fields of the example.
    - A Python [float] obtained by dividing two ints is represented by the
      exact rational quotient ([Q]); one obtained by [float(str)] by the
      decimal literal it denotes ([pyfloat]).  Python stores the binary64
      rounding of these values.
    - External collaborators (compression library, HTTP API, dataset,
      scorer subprocess) are functions carried by the objects that use
      them; an exception is a value of type [exn] in the [outcome] monad. *)

From Stdlib Require Import Ascii QArith.
From Stdlib Require String.
From stdpp Require Import gmap strings list fin_maps pretty.

Abbreviation str := (list ascii).

(** A string literal as a Python [str]. *)
Definition txt (s : string) : str := String.list_ascii_of_string s.

(** The line feed, written ['\n'] in Python. *)
Definition newline : ascii := "010"%char.

(* ===================================================================== *)
(** * Python built-ins used by the scripts                                *)
(* ===================================================================== *)

Module Py.

(** [c.isspace()] for a code point below 256. *)
Definition is_space (c : ascii) : bool :=
  let n := nat_of_ascii c in
  ((9 <=? n) && (n <=? 13)) || ((28 <=? n) && (n <=? 32))
  || (n =? 133) || (n =? 160).

(** [c.lower()] for a code point below 256: A-Z, and the Latin-1
    capitals U+00C0..U+00DE except the multiplication sign U+00D7. *)
Definition lower_char (c : ascii) : ascii :=
  let n := nat_of_ascii c in
  if ((65 <=? n) && (n <=? 90))
     || ((192 <=? n) && (n <=? 222) && negb (n =? 215))
  then ascii_of_nat (n + 32) else c.

Definition lower (s : str) : str := lower_char <$> s.

(** [s.lstrip()], [s.rstrip()], [s.strip()]. *)
Fixpoint lstrip (s : str) : str :=
  match s with
  | c :: s' => if is_space c then lstrip s' else s
  | [] => []
  end.
Definition rstrip (s : str) : str := reverse (lstrip (reverse s)).
Definition strip (s : str) : str := rstrip (lstrip s).

(** [s.split()]: the maximal runs of non-whitespace characters.
    [cur] is the run being read. *)
Fixpoint split_go (cur : str) (s : str) : list str :=
  match s with
  | [] => match cur with [] => [] | _ => [cur] end
  | c :: s' =>
      if is_space c
      then match cur with [] => [] | _ => [cur] end ++ split_go [] s'
      else split_go (cur ++ [c]) s'
  end.
Definition split (s : str) : list str := split_go [] s.

(** [s.split(sep)] for a one-character separator. *)
Fixpoint split_on (sep : ascii) (s : str) : list str :=
  match s with
  | [] => [[]]
  | c :: s' =>
      if decide (c = sep) then [] :: split_on sep s'
      else match split_on sep s' with
           | p :: ps => (c :: p) :: ps
           | [] => [[c]]
           end
  end.

(** [s.startswith(p)]. *)
Fixpoint starts_with (p s : str) : bool :=
  match p, s with
  | [], _ => true
  | a :: p', b :: s' => bool_decide (a = b) && starts_with p' s'
  | _ :: _, [] => false
  end.

(** [sub in s]. *)
Fixpoint contains (sub s : str) : bool :=
  starts_with sub s
  || match s with [] => false | _ :: s' => contains sub s' end.

(** [s.replace(old, new)]: the leftmost non-overlapping occurrences of
    [old]; [skip] counts the characters of a match still to drop.  An
    empty [old] matches before every character and at the end. *)
Fixpoint replace_go (old new : str) (skip : nat) (s : str) : str :=
  match s with
  | [] => []
  | c :: s' =>
      match skip with
      | S k => replace_go old new k s'
      | O => if starts_with old s
             then new ++ replace_go old new (length old - 1) s'
             else c :: replace_go old new 0 s'
      end
  end.
Definition replace (old new s : str) : str :=
  match old with
  | [] => new ++ flat_map (λ c, c :: new) s
  | _ :: _ => replace_go old new 0 s
  end.

(** [s[start:stop]] with Python's treatment of negative and
    out-of-range bounds. *)
Definition clamp_index (len i : Z) : Z :=
  if (i <? 0)%Z then Z.max (i + len) 0 else Z.min i len.
Definition slice {A} (s : list A) (start stop : Z) : list A :=
  let n := Z.of_nat (length s) in
  let lo := clamp_index n start in
  let hi := clamp_index n stop in
  take (Z.to_nat (hi - lo)) (drop (Z.to_nat lo) s).

(** [sep.join(parts)]. *)
Fixpoint join (sep : str) (parts : list str) : str :=
  match parts with
  | [] => []
  | [p] => p
  | p :: rest => p ++ sep ++ join sep rest
  end.

(** [len(s)] as a Python int. *)
Definition len {A} (l : list A) : Z := Z.of_nat (length l).

(** [str(n)] for an int. *)
Definition str_of_int (n : Z) : str := txt (pretty n).

(** The value of [float(s)]: a decimal literal
    [(-1)^neg * mant * 10^exp10], an infinity or a NaN.  Python keeps
    the binary64 number nearest to the literal. *)
Inductive pyfloat :=
| FNan
| FInf (neg : bool)
| FDec (neg : bool) (mant : N) (exp10 : Z).

Definition digit_val (c : ascii) : option N :=
  let n := N_of_ascii c in
  if ((48 <=? n) && (n <=? 57))%N then Some (n - 48)%N else None.

(** A run of digits, where single underscores may stand between two
    digits: the value read after [acc], the number of digits, and the
    rest of the text. *)
Fixpoint read_digits (acc : N) (cnt : nat) (s : str) : N * nat * str :=
  match s with
  | [] => (acc, cnt, s)
  | c :: s' =>
      match digit_val c with
      | Some d => read_digits (10 * acc + d)%N (S cnt) s'
      | None =>
          if bool_decide (c = "_"%char) && (0 <? cnt)%nat
          then match s' with
               | c2 :: s'' =>
                   match digit_val c2 with
                   | Some d => read_digits (10 * acc + d)%N (S cnt) s''
                   | None => (acc, cnt, s)
                   end
               | [] => (acc, cnt, s)
               end
          else (acc, cnt, s)
      end
  end.

(** An optional sign: whether it is a minus, and the rest. *)
Definition read_sign (s : str) : bool * str :=
  match s with
  | c :: s' =>
      if bool_decide (c = "-"%char) then (true, s')
      else if bool_decide (c = "+"%char) then (false, s')
      else (false, s)
  | [] => (false, s)
  end.

(** The exponent part, if any: [e] or [E], an optional sign and at
    least one digit, up to the end of the text. *)
Definition read_exponent (s : str) : option Z :=
  match s with
  | [] => Some 0%Z
  | c :: s' =>
      if bool_decide (c = "e"%char) || bool_decide (c = "E"%char)
      then let '(neg, s1) := read_sign s' in
           match read_digits 0 0 s1 with
           | (e, S _, []) =>
               Some (if neg then (- Z.of_N e)%Z else Z.of_N e)
           | _ => None
           end
      else None
  end.

(** The unsigned decimal: integer digits, an optional point with
    fraction digits, at least one digit in all, and the exponent. *)
Definition read_decimal (s : str) : option (N * Z) :=
  let '(ip, icnt, s1) := read_digits 0 0 s in
  let '(m, fcnt, s2) :=
    match s1 with
    | c :: s1' => if bool_decide (c = "."%char)
                  then read_digits ip 0 s1' else (ip, 0%nat, s1)
    | [] => (ip, 0%nat, s1)
    end in
  if (icnt + fcnt =? 0)%nat then None
  else e ← read_exponent s2; Some (m, (e - Z.of_nat fcnt)%Z).

(** [float(s)]; [None] stands for [ValueError]. *)
Definition float_of_str (s : str) : option pyfloat :=
  let '(neg, body) := read_sign (strip s) in
  let l := lower body in
  if bool_decide (l = txt "inf") || bool_decide (l = txt "infinity")
  then Some (FInf neg)
  else if bool_decide (l = txt "nan") then Some FNan
  else '(m, e) ← read_decimal body; Some (FDec neg m e).

(** [os.path.join(a, b)] on a POSIX system. *)
Definition path_join (a b : str) : str :=
  if starts_with (txt "/") b then b
  else match last a with
       | None => b
       | Some c => if decide (c = "/"%char) then a ++ b
                   else a ++ txt "/" ++ b
       end.

End Py.

(* ===================================================================== *)
(** * ContextTracker                                                      *)
(* ===================================================================== *)

Module ContextTracker.

(** The loop variables of [prepare_contexts_with_separators]. *)
Record prep_state := PrepState {
  combined_text : str;
  context_positions : gmap Z (Z * Z);
  current_pos : Z
}.

(** The text [f" {self.separator} "] put between two passages. *)
Definition joint (separator : str) : str :=
  txt " " ++ separator ++ txt " ".

(** One iteration of the loop, on the pair [(i, context)] of
    [enumerate(contexts)]. *)
Definition prepare_step (separator : str) (st : prep_state)
    (ic : nat * str) : prep_state :=
  let '(i, context) := ic in
  let combined := if (0 <? i)%nat then combined_text st ++ joint separator
                  else combined_text st in
  let pos := if (0 <? i)%nat
             then (current_pos st + Py.len (joint separator))%Z
             else current_pos st in
  let start_pos := pos in
  let end_pos := (pos + Py.len context)%Z in
  PrepState (combined ++ context)
            (<[Z.of_nat i := (start_pos, end_pos)]> (context_positions st))
            end_pos.

Definition enumerate {A} (l : list A) : list (nat * A) :=
  zip (seq 0 (length l)) l.

Definition prepare_contexts_with_separators (separator : str)
    (contexts : list str) : str * gmap Z (Z * Z) :=
  let st := foldl (prepare_step separator) (PrepState [] ∅ 0%Z)
                  (enumerate contexts) in
  (combined_text st, context_positions st).

(** One entry of the dict returned by [analyze_context_retention]. *)
Record context_stat := ContextStat {
  original_length : Z;
  retained_count : Z;
  retention_ratio : Q
}.

(** The inner loop: the words of the passage whose lower-case form is
    among the lower-cased words of the compressed text, counted with
    repetition. *)
Fixpoint count_retained (compressed_words original_words : list str) : Z :=
  match original_words with
  | [] => 0
  | word :: rest =>
      ((if bool_decide (Py.lower word ∈ Py.lower <$> compressed_words)
        then 1 else 0)
       + count_retained compressed_words rest)%Z
  end.

(** The body of the outer loop for one span. *)
Definition span_stat (original_text : str) (compressed_words : list str)
    (span : Z * Z) : context_stat :=
  let '(start, stop) := span in
  let original_context_text := Py.slice original_text start stop in
  let original_words := Py.split original_context_text in
  let retained := count_retained compressed_words original_words in
  ContextStat (Py.len original_words) retained
    (inject_Z retained / inject_Z (Z.max (Py.len original_words) 1))%Q.

Definition analyze_context_retention (separator : str)
    (original_text compressed_text : str)
    (context_positions : gmap Z (Z * Z)) : gmap Z context_stat :=
  let cleaned_compressed :=
    Py.strip (Py.replace separator (txt " ") compressed_text) in
  let compressed_words := Py.split cleaned_compressed in
  map_fold (λ context_id span context_stats,
              <[context_id := span_stat original_text compressed_words span]>
                context_stats)
           ∅ context_positions.

End ContextTracker.

(* ===================================================================== *)
(** * Values, exceptions and the collaborators                            *)
(* ===================================================================== *)

(** A value read from the configuration or returned by the compression
    library. *)
Inductive pyval :=
| VNone
| VInt (n : Z)
| VNum (q : Q)
| VStr (s : str).

(** The exceptions that the modelled code can meet. *)
Inductive exn :=
| UnboundLocalError (name : str)
| KeyError (key : str)
| IndexError
| AttributeError (name : str)
| TypeError (what : str)
| LibraryError (message : str).

(** [str(e)]. *)
Definition exn_message (e : exn) : str :=
  match e with
  | UnboundLocalError name =>
      txt "cannot access local variable '" ++ name
      ++ txt "' where it is not associated with a value"
  | KeyError key => txt "'" ++ key ++ txt "'"
  | IndexError => txt "list index out of range"
  | AttributeError name => txt "object has no attribute '" ++ name ++ txt "'"
  | TypeError what => what
  | LibraryError message => message
  end.

(** A computation that returns a value or raises. *)
Inductive outcome (A : Type) :=
| Ok (a : A)
| Raise (e : exn).
Arguments Ok {A} a.
Arguments Raise {A} e.

#[global] Instance outcome_ret : MRet outcome := λ A a, Ok a.
#[global] Instance outcome_fmap : FMap outcome := λ A B f m,
  match m with Ok a => Ok (f a) | Raise e => Raise e end.
#[global] Instance outcome_bind : MBind outcome := λ A B f m,
  match m with Ok a => f a | Raise e => Raise e end.

(** [d[key]] on a dict. *)
Definition getitem {V} (d : gmap str V) (key : str) : outcome V :=
  match d !! key with Some v => Ok v | None => Raise (KeyError key) end.

(* ===================================================================== *)
(** * ScaleDownAPI                                                        *)
(* ===================================================================== *)

Module ScaleDownAPI.

Record payload := Payload {
  p_context : str;
  p_model : str;
  p_scaledown_rate : Z;
  p_prompt : str
}.

(** The client; [post] stands for [requests.post] followed by
    [.json().get('full_response')]: the field, which may be null, or
    the exception of the transport or of the JSON decoder. *)
Record t := Client {
  api_key : str;
  base_url : str;
  model : str;
  post : str -> str -> payload -> outcome (option str)
}.

(** [get_response]: an exception is printed and the method falls off
    its end, returning [None]. *)
Definition get_response (self : t) (context prompt : str) : option str :=
  match post self (base_url self) (api_key self)
             (Payload context (model self) 0 prompt) with
  | Ok r => r
  | Raise _ => None
  end.

End ScaleDownAPI.

(* ===================================================================== *)
(** * LLMLingua2Compressor                                                *)
(* ===================================================================== *)

Module Compressor.
Import ContextTracker.

Record dataset_config := DatasetConfig {
  version : str;
  max_examples : Z;
  cfg_query_type : str;
  start : Z
}.

(** [config.json]; [compression_methods] keeps the order of the file. *)
Record config_t := Config {
  context_separator : str;
  dataset_cfg : dataset_config;
  compression_methods : list (str * gmap str pyval)
}.

(** One row of the MS MARCO validation split. *)
Record example := Example {
  ex_query_id : Z;
  ex_query : str;
  ex_query_type : str;
  ex_answers : list str;
  ex_passage_text : list str;
  ex_is_selected : list Z
}.

(** The keyword that selects the call shape of [compress_prompt]. *)
Inductive knob :=
| Rate (v : pyval)
| TargetToken (v : pyval)
| TargetContext (v : pyval).

Record compress_args := CompressArgs {
  arg_context : list str;
  arg_question : str;
  arg_knob : knob;
  arg_force_tokens : list str;
  arg_use_context_level_filter : bool;
  arg_use_token_level_filter : bool
}.

(** The instance after [__init__]: the configuration, the API client,
    [PromptCompressor.compress_prompt] (a dict, or an exception) and the
    validation split that [datasets.load_dataset] gives for a version. *)
Record t := Self {
  config : config_t;
  api_client : ScaleDownAPI.t;
  compress_prompt : compress_args -> outcome (gmap str pyval);
  ms_marco_validation : str -> list example
}.

Definition no_answer_markers : list str :=
  [txt "no answer"; txt "no answer present"; txt "no answer present."].

(** The loop of [load_dataset] over the rest of the split, with
    [numeric_example_count] and [filtered_examples]. *)
Fixpoint load_loop (cfg : dataset_config) (dataset : list example)
    (numeric_example_count : Z) (filtered_examples : list example)
    : list example :=
  match dataset with
  | [] => filtered_examples
  | ex :: rest =>
      if (max_examples cfg <=? Py.len filtered_examples)%Z
      then filtered_examples
      else if negb (bool_decide (ex_query_type ex = cfg_query_type cfg))
      then load_loop cfg rest numeric_example_count filtered_examples
      else match ex_answers ex with
      | [] | [] :: _ =>
          load_loop cfg rest numeric_example_count filtered_examples
      | answer :: _ =>
          if bool_decide (Py.strip (Py.lower answer) ∈ no_answer_markers)
          then load_loop cfg rest numeric_example_count filtered_examples
          else
            let count := (numeric_example_count + 1)%Z in
            if (count <? start cfg)%Z
            then load_loop cfg rest count filtered_examples
            else load_loop cfg rest count (filtered_examples ++ [ex])
      end
  end.

Definition load_dataset (self : t) : list example :=
  let cfg := dataset_cfg (config self) in
  load_loop cfg (ms_marco_validation self (version cfg)) 0 [].

Record compression_result := CompressionResult {
  compressed_prompt : str;
  compression_rate : pyval;
  compression_ratio : pyval;
  original_tokens : pyval;
  compressed_tokens : pyval;
  context_analysis : gmap Z context_stat;
  error : option str
}.

(** The library call of the [if]/[elif] chain; [None] when no branch is
    taken and [result] stays unbound. *)
Definition call_library (self : t) (contexts : list str) (query : str)
    (method_config : gmap str pyval) (combined_context : str)
    (force_tokens : list str) : outcome (option (gmap str pyval)) :=
  match method_config !! txt "rate" with
  | Some v =>
      Some <$> compress_prompt self
        (CompressArgs [combined_context] query (Rate v) force_tokens
                      false true)
  | None =>
  match method_config !! txt "target_token" with
  | Some v =>
      Some <$> compress_prompt self
        (CompressArgs [combined_context] query (TargetToken v) force_tokens
                      false true)
  | None =>
  match method_config !! txt "target_context" with
  | Some v =>
      Some <$> compress_prompt self
        (CompressArgs contexts query (TargetContext v) force_tokens
                      true true)
  | None => Ok None
  end end end.

(** The [try] block. *)
Definition compress_try (self : t) (contexts : list str) (query : str)
    (method_config : gmap str pyval) (combined_context : str)
    (context_positions : gmap Z (Z * Z)) : outcome compression_result :=
  let separator := context_separator (config self) in
  let force_tokens := [separator; [newline]; txt "."; txt "?"] in
  bound ← call_library self contexts query method_config combined_context
                       force_tokens;
  result ← match bound with
           | Some r => Ok r
           | None => Raise (UnboundLocalError (txt "result"))
           end;
  prompt ← getitem result (txt "compressed_prompt");
  analysis ← match prompt with
             | VStr compressed =>
                 Ok (analyze_context_retention separator combined_context
                       compressed context_positions, compressed)
             | _ => Raise (AttributeError (txt "replace"))
             end;
  rate ← getitem result (txt "rate");
  ratio ← getitem result (txt "ratio");
  origin ← getitem result (txt "origin_tokens");
  compressed ← getitem result (txt "compressed_tokens");
  Ok (CompressionResult analysis.2 rate ratio origin compressed
                        analysis.1 None).

(** The [except Exception] handler. *)
Definition compress_fallback (combined_context : str) (e : exn)
    : compression_result :=
  CompressionResult combined_context (VStr (txt "100%"))
    (VStr (txt "1.0x"))
    (VInt (Py.len (Py.split combined_context)))
    (VInt (Py.len (Py.split combined_context)))
    ∅ (Some (exn_message e)).

Definition compress_with_method (self : t) (contexts : list str)
    (query : str) (method_config : gmap str pyval) : compression_result :=
  let '(combined_context, context_positions) :=
    prepare_contexts_with_separators (context_separator (config self))
                                     contexts in
  match compress_try self contexts query method_config combined_context
                     context_positions with
  | Ok r => r
  | Raise e => compress_fallback combined_context e
  end.

(** A value held in the record of an example: what [json.dump] writes
    and [json.load] reads back (null, a bool, an int, a float as its
    decimal literal, a str, a list, a dict with str keys), and the dict
    that [compress_with_method] returns, kept as it is in memory. *)
#[warnings="-register-all"]
Inductive jval :=
| JNull
| JBool (b : bool)
| JInt (n : Z)
| JFloat (f : Py.pyfloat)
| JStr (s : str)
| JList (l : list jval)
| JDict (d : gmap str jval)
| JCompression (r : compression_result).

(** A [str] or [None] as a value. *)
Definition optional_str (x : option str) : jval :=
  match x with Some s => JStr s | None => JNull end.

(** The record of one example: one flat dict, in which the entries
    stored under ['original'] and under the method names share the keys
    with ['query_id'], ['query'], ['ground_truth'], ['contexts'] and
    ['is_selected']. *)
Abbreviation result_record := (gmap str jval).

Definition process_example (self : t) (ex : example)
    : outcome result_record :=
  let query := ex_query ex in
  let contexts := ex_passage_text ex in
  ground_truth ← match ex_answers ex with
                 | a :: _ => Ok a
                 | [] => Raise IndexError
                 end;
  let result : result_record :=
    {[ txt "query_id" := JInt (ex_query_id ex);
       txt "query" := JStr query;
       txt "ground_truth" := JStr ground_truth;
       txt "contexts" := JList (JStr <$> contexts);
       txt "is_selected" := JList (JInt <$> ex_is_selected ex) ]} in
  let original_context := Py.join [newline; newline] contexts in
  let original_response :=
    ScaleDownAPI.get_response (api_client self) original_context query in
  let result :=
    <[txt "original" :=
        JDict {[ txt "context" := JStr original_context;
                 txt "response" := optional_str original_response;
                 txt "token_count" :=
                   JInt (Py.len (Py.split original_context)) ]}]> result in
  let result :=
    foldl (λ result '(method_name, method_config),
             let compression_result :=
               compress_with_method self contexts query method_config in
             let compressed_context :=
               compressed_prompt compression_result in
             let compressed_response :=
               ScaleDownAPI.get_response (api_client self)
                                         compressed_context query in
             <[method_name :=
                 JDict {[ txt "compression_result" :=
                            JCompression compression_result;
                          txt "response" := optional_str compressed_response;
                          txt "context" := JStr compressed_context ]}]>
               result)
          result
          (compression_methods (config self)) in
  Ok result.

(** The names that attribute lookup finds on an instance: those that
    [__init__] assigns, and the methods of the class. *)
Definition instance_attributes : list str :=
  [txt "config"; txt "context_tracker"; txt "api_client";
   txt "compressor"].
Definition class_attributes : list str :=
  [txt "load_dataset"; txt "compress_with_method"; txt "process_example";
   txt "run_compression"; txt "save_results"].

(** [self.name], as far as whether it raises. *)
Definition getattr (name : str) : outcome unit :=
  if bool_decide (name ∈ instance_attributes ++ class_attributes)
  then Ok () else Raise (AttributeError name).

(** [self.load_dataset(...)] called with [nargs] arguments:
    [load_dataset(self)] takes none. *)
Definition call_load_dataset (self : t) (nargs : nat)
    : outcome (list example) :=
  if (nargs =? 0)%nat then Ok (load_dataset self)
  else Raise (TypeError
                (txt "load_dataset() takes 1 positional argument but "
                 ++ Py.str_of_int (Z.of_nat (S nargs))
                 ++ txt " were given")).

(** The loop of [run_compression]: a record for each example that
    [process] handles without raising. *)
Fixpoint process_all (process : example -> outcome result_record)
    (examples : list example) (results : list result_record)
    : list result_record :=
  match examples with
  | [] => results
  | ex :: rest =>
      match process ex with
      | Ok result => process_all process rest (results ++ [result])
      | Raise _ => process_all process rest results
      end
  end.

(** [run_compression(num_examples)]; [None] is the default. *)
Definition run_compression (self : t) (num_examples : option Z)
    : outcome (list result_record) :=
  _ ← getattr (txt "start");
  examples ← call_load_dataset self 1;
  let examples :=
    match num_examples with
    | Some n => if (n =? 0)%Z then examples else Py.slice examples 0 n
    | None => examples
    end in
  Ok (process_all (process_example self) examples []).

End Compressor.

(* ===================================================================== *)
(** * CorrectMSMARCOEvaluator                                             *)
(* ===================================================================== *)

Module Evaluator.
Import Compressor.

(** What [run_evaluation] returns: [{'metrics', 'raw_output',
    'success': True}] or [{'error', 'stderr', 'success': False}]. *)
Inductive eval_result :=
| EvalOk (metrics : gmap str Py.pyfloat) (raw_output : str)
| EvalFailed (error : str) (stderr : str).

Definition success (r : eval_result) : bool :=
  match r with EvalOk _ _ => true | EvalFailed _ _ => false end.

(** The JSON files that the evaluator writes, by their content. *)
Inductive file :=
| Predictions (data : gmap str jval)
| References (data : gmap str (list jval))
| Results (data : gmap str eval_result).

(** [subprocess.run(cmd, capture_output=True, text=True, check=True)]:
    the standard output of a run that exits with 0, or the
    [CalledProcessError] of one that does not, with [str(e)] and
    [e.stderr]. *)
Inductive completed :=
| Exited0 (stdout : str)
| CalledProcessError (message : str) (stderr : str).

(** The instance: the scorer script, [sys.executable], and the effect of
    running a command on the files present. *)
Record t := Self {
  eval_script : str;
  executable : str;
  subprocess_run : gmap str file -> list str -> completed
}.

(** What the evaluator changes: the files it has written, and the
    commands it has handed to [subprocess.run], in the order of the
    calls. *)
Record state := State {
  files : gmap str file;
  runs : list (list str)
}.

Definition no_answer : str := txt "No Answer Present.".

(** [bool(v)], the test that [v or ...] makes. *)
Definition truthy (v : jval) : bool :=
  match v with
  | JNull => false
  | JBool b => b
  | JInt n => negb (n =? 0)%Z
  | JFloat (Py.FDec _ mant _) => negb (mant =? 0)%N
  | JFloat _ => true
  | JStr s => match s with [] => false | _ :: _ => true end
  | JList l => match l with [] => false | _ :: _ => true end
  | JDict d => negb (bool_decide (dom d = ∅))
  | JCompression _ => true
  end.

(** ['response' in v]: a key test on a dict, a substring test on a str,
    a membership test on a list, and a [TypeError] on the values that
    are not containers (with the message of Python 3.11). *)
Definition has_response (v : jval) : outcome bool :=
  match v with
  | JDict d =>
      Ok (match d !! txt "response" with Some _ => true | None => false end)
  | JCompression _ => Ok false
  | JStr s => Ok (Py.contains (txt "response") s)
  | JList l =>
      Ok (existsb (λ x, match x with
                        | JStr s => bool_decide (s = txt "response")
                        | _ => false
                        end) l)
  | JNull =>
      Raise (TypeError (txt "argument of type 'NoneType' is not iterable"))
  | JBool _ =>
      Raise (TypeError (txt "argument of type 'bool' is not iterable"))
  | JInt _ =>
      Raise (TypeError (txt "argument of type 'int' is not iterable"))
  | JFloat _ =>
      Raise (TypeError (txt "argument of type 'float' is not iterable"))
  end.

(** [v['response']]. *)
Definition response_item (v : jval) : outcome jval :=
  match v with
  | JDict d => getitem d (txt "response")
  | JCompression _ => Raise (KeyError (txt "response"))
  | JStr _ => Raise (TypeError (txt "string indices must be integers"))
  | JList _ =>
      Raise (TypeError (txt "list indices must be integers or slices, not str"))
  | JNull => Raise (TypeError (txt "'NoneType' object is not subscriptable"))
  | JBool _ => Raise (TypeError (txt "'bool' object is not subscriptable"))
  | JInt _ => Raise (TypeError (txt "'int' object is not subscriptable"))
  | JFloat _ => Raise (TypeError (txt "'float' object is not subscriptable"))
  end.

(** [x or "No Answer Present."]: [x] itself when it is truthy. *)
Definition or_no_answer (x : jval) : jval :=
  if truthy x then x else JStr no_answer.

(** The response that the loop of [format_predictions] stores for one
    record: [method in result] is a key test on the whole record. *)
Definition prediction (method : str) (result : result_record)
    : outcome jval :=
  match result !! method with
  | Some entry =>
      present ← has_response entry;
      if present : bool
      then response ← response_item entry; Ok (or_no_answer response)
      else Ok (JStr no_answer)
  | None => Ok (JStr no_answer)
  end.

Section Str.
(** [str(v)] on a float, a list or a dict: the text that Python prints
    for it. *)
Variable repr : jval -> str.

(** [str(v)]. *)
Definition py_str (v : jval) : str :=
  match v with
  | JStr s => s
  | JInt n => Py.str_of_int n
  | JNull => txt "None"
  | JBool true => txt "True"
  | JBool false => txt "False"
  | _ => repr v
  end.

(** [str(result['query_id'])], the first statement of both loops. *)
Definition query_id_of (result : result_record) : outcome str :=
  py_str <$> getitem result (txt "query_id").

(** The loop of [format_predictions], from [formatted_data]. *)
Fixpoint format_loop (method : str) (results : list result_record)
    (formatted_data : gmap str jval) : outcome (gmap str jval) :=
  match results with
  | [] => Ok formatted_data
  | result :: rest =>
      query_id ← query_id_of result;
      response ← prediction method result;
      format_loop method rest (<[query_id := response]> formatted_data)
  end.

(** [format_predictions(results, method, output_file)]: the state after
    the file is written and the returned path; nothing is written when
    the loop raises. *)
Definition format_predictions (st : state)
    (results : list result_record) (method : str) (output_file : str)
    : outcome (state * str) :=
  formatted_data ← format_loop method results ∅;
  Ok (State (<[output_file := Predictions formatted_data]> (files st))
            (runs st),
      output_file).

(** The loop of [format_references], from [references]. *)
Fixpoint references_loop (results : list result_record)
    (references : gmap str (list jval)) : outcome (gmap str (list jval)) :=
  match results with
  | [] => Ok references
  | result :: rest =>
      query_id ← query_id_of result;
      ground_truth ← getitem result (txt "ground_truth");
      references_loop rest (<[query_id := [ground_truth]]> references)
  end.

Definition format_references (st : state)
    (results : list result_record) (output_file : str)
    : outcome (state * str) :=
  references ← references_loop results ∅;
  Ok (State (<[output_file := References references]> (files st)) (runs st),
      output_file).

End Str.

Definition metric_keywords : list str :=
  [txt "rouge"; txt "bleu"; txt "f1"; txt "exact"].

(** The test that guards the parsing of a line. *)
Definition is_metric_line (line : str) : bool :=
  Py.contains (txt ":") line
  && existsb (λ metric, Py.contains metric (Py.lower line)) metric_keywords.

(** The [try] block on one line: the key and the value to store, or
    [None] when an exception is swallowed by the bare [except]. *)
Definition parse_metric (line : str) : option (str * Py.pyfloat) :=
  let parts := Py.split_on ":"%char line in
  metric_name ← Py.strip <$> parts !! 0%nat;
  rhs ← parts !! 1%nat;
  metric_value ← Py.float_of_str (Py.strip rhs);
  Some (Py.replace (txt "-") (txt "_") (Py.lower metric_name),
        metric_value).

(** One iteration of the scraping loop. *)
Definition scrape_line (metrics : gmap str Py.pyfloat) (line : str)
    : gmap str Py.pyfloat :=
  if is_metric_line line
  then match parse_metric line with
       | Some (key, value) => <[key := value]> metrics
       | None => metrics
       end
  else metrics.

(** The scraping loop over the lines of [output]. *)
Definition scrape_metrics (output : str) : gmap str Py.pyfloat :=
  foldl scrape_line ∅ (Py.split_on newline output).

(** [run_evaluation(references_file, predictions_file)]: the returned
    dict and the state, in which the command is recorded as run. *)
Definition run_evaluation (self : t) (st : state)
    (references_file predictions_file : str) : eval_result * state :=
  let cmd := [executable self; eval_script self;
              references_file; predictions_file] in
  let st' := State (files st) (runs st ++ [cmd]) in
  match subprocess_run self (files st) cmd with
  | Exited0 stdout =>
      let output := Py.strip stdout in
      (EvalOk (scrape_metrics output) output, st')
  | CalledProcessError message stderr => (EvalFailed message stderr, st')
  end.

Definition method_names : list str :=
  [txt "original"; txt "method1_rate"; txt "method2_target_tokens";
   txt "method3_target_contexts"].

Definition predictions_path (output_dir method : str) : str :=
  Py.path_join output_dir (txt "predictions_" ++ method ++ txt ".json").

(** The loop of [evaluate_all_methods] over [methods], on the state and
    [all_results]. *)
Fixpoint evaluate_loop (repr : jval -> str) (self : t)
    (results : list result_record) (output_dir references_file : str)
    (methods : list str) (st : state) (all_results : gmap str eval_result)
    : outcome (gmap str eval_result * state) :=
  match methods with
  | [] => Ok (all_results, st)
  | method :: rest =>
      '(st, predictions_file) ←
        format_predictions repr st results method
                           (predictions_path output_dir method);
      let '(eval_result, st) :=
        run_evaluation self st references_file predictions_file in
      evaluate_loop repr self results output_dir references_file rest st
                    (<[method := eval_result]> all_results)
  end.

(** [evaluate_all_methods(results, output_dir)]: the returned
    [all_results] and the state afterwards.  Directories
    ([os.makedirs]) and what is printed are not part of the state. *)
Definition evaluate_all_methods (repr : jval -> str) (self : t)
    (st : state) (results : list result_record) (output_dir : str)
    : outcome (gmap str eval_result * state) :=
  '(st, references_file) ←
    format_references repr st results
                      (Py.path_join output_dir (txt "references.json"));
  '(all_results, st) ←
    evaluate_loop repr self results output_dir references_file method_names
                  st ∅;
  let results_file := Py.path_join output_dir (txt "msmarco_results.json") in
  Ok (all_results,
      State (<[results_file := Results all_results]> (files st)) (runs st)).

End Evaluator.


(* ===================================================================== *)
(** * Start-up checks and the pipeline runner                             *)
(* ===================================================================== *)

(** A step of a script: a value, or [sys.exit(code)]. *)
Inductive exits (A : Type) :=
| Returns (a : A)
| SysExit (code : Z).
Arguments Returns {A} a.
Arguments SysExit {A} code.

(** [[f for f in required_files if not os.path.exists(f)]]. *)
Definition missing_files (path_exists : str -> bool)
    (required_files : list str) : list str :=
  filter (λ f, path_exists f = false) required_files.

Module EvaluatorSetup.

Definition required_files : list str :=
  [txt "evaluation/ms_marco_eval.py"; txt "evaluation/rouge.py";
   txt "evaluation/bleu.py"].

(** [CorrectMSMARCOEvaluator.__init__] on the files that exist: the
    instance, or [sys.exit(1)] when a required file is missing. *)
Definition init (path_exists : str -> bool) (executable : str)
    (subprocess_run : gmap str Evaluator.file -> list str
                      -> Evaluator.completed)
    : exits Evaluator.t :=
  match missing_files path_exists required_files with
  | [] => Returns (Evaluator.Self (txt "evaluation/ms_marco_eval.py")
                                  executable subprocess_run)
  | _ :: _ => SysExit 1
  end.

End EvaluatorSetup.

Module Pipeline.

Definition required_files : list str :=
  [txt "config.json"; txt "llmlingua_compressor.py";
   txt "msmarco_evaluator.py"; txt "evaluation/ms_marco_eval.py";
   txt "evaluation/rouge.py"; txt "evaluation/bleu.py"].

(** [check_files()]. *)
Definition check_files (path_exists : str -> bool) : bool :=
  match missing_files path_exists required_files with
  | [] => true
  | _ :: _ => false
  end.

Inductive phase := Compression | Evaluation | Full.

(** The parsed command line; [--phase] defaults to [full]. *)
Record args := Args {
  arg_phase : phase;
  arg_num_examples : option Z;
  arg_compression_results : option str
}.

(** What the runner sees of the machine: what [parser.parse_args()]
    makes of a command line (the parsed arguments, or the exit of
    [argparse]: status 2 after a usage error, 0 after [--help]), which
    paths exist, the status that [os.system] returns for a command
    line, [sys.executable], and the text that
    [datetime.now().strftime('%Y%m%d_%H%M%S')] gives at the n-th reading
    of the clock. *)
Record world := World {
  parse_args : list str -> exits args;
  path_exists : str -> bool;
  os_system : str -> Z;
  executable : str;
  timestamp : nat -> str
}.

(** The state that the runner changes: the readings of the clock made
    so far and the command lines run so far, the last one first. *)
Record state := State {
  clock_reads : nat;
  commands : list str
}.

(** [run_compression(num_examples)]: the output file, or [sys.exit(1)]
    when the command returns a nonzero status. *)
Definition run_compression (w : world) (num_examples : option Z)
    (st : state) : exits str * state :=
  let output_file :=
    txt "compression_results_" ++ timestamp w (clock_reads st)
    ++ txt ".json" in
  let cmd := [executable w; txt "llmlingua_compressor.py"; txt "--output";
              output_file] in
  let cmd :=
    match num_examples with
    | Some n => if (n =? 0)%Z then cmd
                else cmd ++ [txt "--num_examples"; Py.str_of_int n]
    | None => cmd
    end in
  let line := Py.join (txt " ") cmd in
  let st := State (S (clock_reads st)) (line :: commands st) in
  if (os_system w line =? 0)%Z then (Returns output_file, st)
  else (SysExit 1, st).

(** [run_evaluation(compression_file)]: the output directory, or
    [sys.exit(1)]. *)
Definition run_evaluation (w : world) (compression_file : str)
    (st : state) : exits str * state :=
  let eval_dir := txt "msmarco_eval_" ++ timestamp w (clock_reads st) in
  let cmd := [executable w; txt "msmarco_evaluator.py";
              txt "--results_file"; compression_file;
              txt "--output_dir"; eval_dir] in
  let line := Py.join (txt " ") cmd in
  let st := State (S (clock_reads st)) (line :: commands st) in
  if (os_system w line =? 0)%Z then (Returns eval_dir, st)
  else (SysExit 1, st).

(** [main()] on the command line [argv]: the exit status of the process
    and the state at the end. *)
Definition main (w : world) (argv : list str) (st : state) : Z * state :=
  match parse_args w argv with
  | SysExit code => (code, st)
  | Returns a =>
  if negb (check_files (path_exists w)) then (1%Z, st)
  else match arg_phase a with
  | Compression =>
      match run_compression w (arg_num_examples a) st with
      | (Returns _, st) => (0%Z, st)
      | (SysExit code, st) => (code, st)
      end
  | Evaluation =>
      match arg_compression_results a with
      | None | Some [] => (1%Z, st)
      | Some file =>
          if negb (path_exists w file) then (1%Z, st)
          else match run_evaluation w file st with
               | (Returns _, st) => (0%Z, st)
               | (SysExit code, st) => (code, st)
               end
      end
  | Full =>
      match run_compression w (arg_num_examples a) st with
      | (Returns output_file, st) =>
          match run_evaluation w output_file st with
          | (Returns _, st) => (0%Z, st)
          | (SysExit code, st) => (code, st)
          end
      | (SysExit code, st) => (code, st)
      end
  end
  end.

End Pipeline.


(* ===================================================================== *)
(** * Specification vocabulary                                            *)
(* ===================================================================== *)

(** Where passage [i] starts in the text joined from [contexts]: after
    the first [i] passages and the joints between and after them. *)
Definition span_start (separator : str) (contexts : list str) (i : nat) : Z :=
  (Py.len (Py.join (ContextTracker.joint separator) (take i contexts))
   + match i with
     | O => 0
     | S _ => Py.len (ContextTracker.joint separator)
     end)%Z.

(** The span that [prepare_contexts_with_separators] is to record under
    the key [k]. *)
Definition span_of (separator : str) (contexts : list str) (k : Z)
    : option (Z * Z) :=
  if (k <? 0)%Z then None
  else (λ c, (span_start separator contexts (Z.to_nat k),
              (span_start separator contexts (Z.to_nat k) + Py.len c)%Z))
       <$> contexts !! Z.to_nat k.

(** A text without whitespace. *)
Definition nonspace (w : str) : Prop := Forall (λ c, Py.is_space c = false) w.

(** A text that is empty or starts with whitespace; one that is empty or
    ends with whitespace. *)
Definition space_headed (q : str) : Prop :=
  match q with [] => True | c :: _ => Py.is_space c = true end.
Definition space_ended (p : str) : Prop := space_headed (reverse p).

(** [w] stands in [s] as a whole word: a non-empty run without
    whitespace, with whitespace or an end of the text on either side. *)
Definition word_at (p w q : str) : Prop :=
  w ≠ [] ∧ nonspace w ∧ space_ended p ∧ space_headed q.

(* ===================================================================== *)
(** * Concrete inputs                                                     *)
(* ===================================================================== *)

Definition demo_api : ScaleDownAPI.t :=
  ScaleDownAPI.Client (txt "key") (txt "https://api.example/generate")
    (txt "gemini/gemini-2.0-flash") (λ _ _ _, Ok (Some (txt "an answer"))).

(** A compression library that fails on every call. *)
Definition failing_library (args : Compressor.compress_args)
    : outcome (gmap str pyval) :=
  Raise (LibraryError (txt "CUDA out of memory")).

(** A compression library that returns the prompt unchanged. *)
Definition echo_library (args : Compressor.compress_args)
    : outcome (gmap str pyval) :=
  Ok {[ txt "compressed_prompt" :=
          VStr (Py.join [newline; newline] (Compressor.arg_context args));
        txt "rate" := VStr (txt "100.0%");
        txt "ratio" := VStr (txt "1.0x");
        txt "origin_tokens" := VInt 4;
        txt "compressed_tokens" := VInt 4 ]}.

Definition demo_config (max_examples start : Z) : Compressor.config_t :=
  Compressor.Config (txt "<SEP>")
    (Compressor.DatasetConfig (txt "v2.1") max_examples (txt "description")
                              start)
    [(txt "method1_rate", {[ txt "rate" := VNum (1 # 2) ]});
     (txt "method2_target_tokens", {[ txt "target_token" := VInt 100 ]});
     (txt "method3_target_contexts", {[ txt "target_context" := VInt 2 ]})].

Definition demo_example (id : Z) (query_type answer : string)
    : Compressor.example :=
  Compressor.Example id (txt "what is soar") (txt query_type) [txt answer]
    [txt "first passage"; txt "second passage"] [0%Z; 1%Z].

(** Five raw examples; the first, third and fifth are descriptions with
    an answer. *)
Definition five_examples : list Compressor.example :=
  [demo_example 11 "description" "a glider flight";
   demo_example 12 "numeric" "42";
   demo_example 13 "description" "rising air";
   demo_example 14 "description" "No Answer Present.";
   demo_example 15 "description" "a thermal"].

Definition demo_self (max_examples start : Z)
    (library : Compressor.compress_args -> outcome (gmap str pyval))
    : Compressor.t :=
  Compressor.Self (demo_config max_examples start) demo_api library
                  (λ _, five_examples).

(** [str(v)] on floats, lists and dicts, for records whose ids are ints
    or strs. *)
Definition demo_repr (v : Compressor.jval) : str := txt "<object>".

(** The entry of a method with the given ['response']. *)
Definition demo_entry (response : Compressor.jval) : Compressor.jval :=
  Compressor.JDict {[ txt "context" := Compressor.JStr (txt "first passage");
                      txt "response" := response ]}.

(** A record with a response under ['original'] only. *)
Definition record_11 : Compressor.result_record :=
  {[ txt "query_id" := Compressor.JInt 11;
     txt "query" := Compressor.JStr (txt "what is soar");
     txt "ground_truth" := Compressor.JStr (txt "a glider flight");
     txt "contexts" := Compressor.JList [Compressor.JStr (txt "first passage")];
     txt "is_selected" := Compressor.JList [Compressor.JInt 1];
     txt "original" := demo_entry (Compressor.JStr (txt "gliding")) ]}.

(** A record whose ['method1_rate'] response is null. *)
Definition record_13 : Compressor.result_record :=
  {[ txt "query_id" := Compressor.JInt 13;
     txt "query" := Compressor.JStr (txt "why thermals");
     txt "ground_truth" := Compressor.JStr (txt "rising air");
     txt "contexts" := Compressor.JList [Compressor.JStr (txt "first passage")];
     txt "is_selected" := Compressor.JList [Compressor.JInt 1];
     txt "original" := demo_entry (Compressor.JStr (txt "warm air"));
     txt "method1_rate" := demo_entry Compressor.JNull ]}.


(** A record without ['query_id']. *)
Definition record_anonymous : Compressor.result_record :=
  {[ txt "ground_truth" := Compressor.JStr (txt "a glider flight");
     txt "original" := demo_entry (Compressor.JStr (txt "gliding")) ]}.

Definition scorer_stdout : str :=
  txt "ROUGE-L: 0.4523" ++ [newline] ++ txt "Notes: see above" ++ [newline].

(** A scorer that exits with status 1 on the predictions of
    ['method1_rate'] and prints its metrics on the others. *)
Definition demo_scorer (fs : gmap str Evaluator.file) (cmd : list str)
    : Evaluator.completed :=
  if bool_decide (cmd !! 3%nat
                  = Some (Evaluator.predictions_path (txt "out")
                                                     (txt "method1_rate")))
  then Evaluator.CalledProcessError
         (txt "Command returned non-zero exit status 1.") (txt "Traceback")
  else Evaluator.Exited0 scorer_stdout.

Definition demo_evaluator : Evaluator.t :=
  Evaluator.Self (txt "evaluation/ms_marco_eval.py") (txt "/usr/bin/python3")
                 demo_scorer.

(** The evaluator before it has written a file or run a command. *)
Definition fresh : Evaluator.state := Evaluator.State ∅ [].

Definition sep_tag : str := txt "<SEP>".

Definition two_passages : list str := [txt "ab cd"; txt "Ef"].

(** A passage list whose second passage is empty. *)
Definition empty_passage : list str := [txt "alpha"; []].

(** The result that [compress_with_method] builds in its handler for the
    message [msg], on the uncompressed text [combined]. *)
Definition is_fallback (r : Compressor.compression_result) (combined : str)
    (msg : str) : Prop :=
  Compressor.compressed_prompt r = combined
  ∧ Compressor.compression_rate r = VStr (txt "100%")
  ∧ Compressor.compression_ratio r = VStr (txt "1.0x")
  ∧ Compressor.error r = Some msg.

(** An example that [load_dataset] counts: its query type is the
    configured one and its first answer is a real answer. *)
Definition matching (cfg : Compressor.dataset_config)
    (ex : Compressor.example) : bool :=
  bool_decide (Compressor.ex_query_type ex = Compressor.cfg_query_type cfg)
  && match Compressor.ex_answers ex with
     | [] | [] :: _ => false
     | answer :: _ =>
         negb (bool_decide (Py.strip (Py.lower answer)
                            ∈ Compressor.no_answer_markers))
     end.

(** The rational number that a finite float literal denotes. *)
Definition float_value (f : Py.pyfloat) : option Q :=
  match f with
  | Py.FDec neg mant exp10 =>
      let m := inject_Z (if neg then - Z.of_N mant else Z.of_N mant) in
      Some (if (0 <=? exp10)%Z then m * inject_Z (10 ^ exp10)
            else m / inject_Z (10 ^ (- exp10)))%Q
  | _ => None
  end.

(** One iteration of the loop of [process_example] over the configured
    methods, on the record built so far. *)
Definition method_step (self : Compressor.t) (contexts : list str)
    (query : str) (result : Compressor.result_record)
    (nc : str * gmap str pyval) : Compressor.result_record :=
  let compression_result :=
    Compressor.compress_with_method self contexts query nc.2 in
  <[nc.1 :=
      Compressor.JDict
        {[ txt "compression_result" :=
             Compressor.JCompression compression_result;
           txt "response" :=
             Compressor.optional_str
               (ScaleDownAPI.get_response (Compressor.api_client self)
                  (Compressor.compressed_prompt compression_result) query);
           txt "context" :=
             Compressor.JStr
               (Compressor.compressed_prompt compression_result) ]}]> result.

(** The record of [process_example] before the loop over the configured
    methods: the five fields of the example and the entry of
    ['original']. *)
Definition base_record (self : Compressor.t) (ex : Compressor.example)
    (ground_truth : str) : Compressor.result_record :=
  let original_context :=
    Py.join [newline; newline] (Compressor.ex_passage_text ex) in
  <[txt "original" :=
      Compressor.JDict
        {[ txt "context" := Compressor.JStr original_context;
           txt "response" :=
             Compressor.optional_str
               (ScaleDownAPI.get_response (Compressor.api_client self)
                  original_context (Compressor.ex_query ex));
           txt "token_count" :=
             Compressor.JInt (Py.len (Py.split original_context)) ]}]>
    ({[ txt "query_id" := Compressor.JInt (Compressor.ex_query_id ex);
        txt "query" := Compressor.JStr (Compressor.ex_query ex);
        txt "ground_truth" := Compressor.JStr ground_truth;
        txt "contexts" :=
          Compressor.JList (Compressor.JStr <$> Compressor.ex_passage_text ex);
        txt "is_selected" :=
          Compressor.JList (Compressor.JInt <$> Compressor.ex_is_selected ex)
     ]} : Compressor.result_record).

(** A record that [format_predictions] reads without an exception for
    [method]: it has a ['query_id'], and what it holds under [method],
    if anything, is a dict. *)
Definition readable (method : str) (r : Compressor.result_record) : Prop :=
  is_Some (r !! txt "query_id")
  ∧ (r !! method = None ∨ ∃ d, r !! method = Some (Compressor.JDict d)).

(** A compression library whose dict lacks every key but
    ['compressed_prompt']. *)
Definition partial_library (args : Compressor.compress_args)
    : outcome (gmap str pyval) :=
  Ok {[ txt "compressed_prompt" := VStr (txt "ab") ]}.

(** An API whose request fails. *)
Definition dead_api : ScaleDownAPI.t :=
  ScaleDownAPI.Client (txt "key") (txt "https://api.example/generate")
    (txt "gemini/gemini-2.0-flash")
    (λ _ _ _, Raise (LibraryError (txt "connection refused"))).

Definition dead_self : Compressor.t :=
  Compressor.Self (demo_config 2 1) dead_api echo_library
                  (λ _, five_examples).

(** A command line reader that knows [--phase P] and [--num_examples 5],
    exits with 0 on [--help] and with 2 on anything else. *)
Definition demo_parser (argv : list str) : exits Pipeline.args :=
  if bool_decide (argv = []) then
    Returns (Pipeline.Args Pipeline.Full None None)
  else if bool_decide (argv = [txt "--num_examples"; txt "5"]) then
    Returns (Pipeline.Args Pipeline.Full (Some 5%Z) None)
  else if bool_decide (argv = [txt "--phase"; txt "evaluation"]) then
    Returns (Pipeline.Args Pipeline.Evaluation None None)
  else if bool_decide (argv = [txt "--help"]) then SysExit 0
  else SysExit 2.

(** A machine on which every file exists and the compressor fails. *)
Definition demo_world : Pipeline.world :=
  Pipeline.World demo_parser (λ _, true)
    (λ line, if Py.contains (txt "llmlingua_compressor.py") line
             then 256%Z else 0%Z)
    (txt "python3")
    (λ n, txt "20250101_00000" ++ Py.str_of_int (Z.of_nat n)).

(** A machine on which every file exists and every command succeeds. *)
Definition good_world : Pipeline.world :=
  Pipeline.World demo_parser (λ _, true) (λ _, 0%Z) (txt "python3")
    (λ n, txt "20250101_00000" ++ Py.str_of_int (Z.of_nat n)).

(** A machine without [config.json]. *)
Definition bare_world : Pipeline.world :=
  Pipeline.World demo_parser
    (λ f, negb (bool_decide (f = txt "config.json")))
    (λ _, 0%Z) (txt "python3") (λ _, txt "20250101_000000").

Example float_examples :
  Py.float_of_str <$> [txt "0.4523"; txt " -1_0.5e+2 "; txt "1."; txt ".5";
                       txt "-Infinity"; txt "."; txt "1__0"; txt "1e";
                       txt "see above"; txt ""; txt "1_"; txt "1 2"]
  = [Some (Py.FDec false 4523 (-4)); Some (Py.FDec true 105 1);
     Some (Py.FDec false 1 0); Some (Py.FDec false 5 (-1));
     Some (Py.FInf true); None; None; None; None; None; None; None].
Proof. reflexivity. Qed.

Example scrape_example :
  Evaluator.scrape_metrics
    (txt "ROUGE-L: 0.4523" ++ [newline] ++ txt "Notes: see above"
     ++ [newline] ++ txt "bleu_1 : 1e-1 : x" ++ [newline] ++ txt "F1: n/a")
  = {[ txt "rouge_l" := Py.FDec false 4523 (-4);
       txt "bleu_1" := Py.FDec false 1 (-1) ]}.
Proof. reflexivity. Qed.

Example split_example :
  Py.split (txt "  Hello  big world ") = [txt "Hello"; txt "big"; txt "world"].
Proof. reflexivity. Qed.

Example replace_example :
  Py.replace (txt "aa") (txt "-") (txt "aaab aa") = txt "-ab -".
Proof. reflexivity. Qed.

Example replace_empty_example :
  Py.replace [] (txt "-") (txt "abc") = txt "-a-b-c-".
Proof. reflexivity. Qed.

Example slice_example :
  Py.slice (txt "hello world") (-5) 100 = txt "world".
Proof. reflexivity. Qed.

Example prepare_example :
  ContextTracker.prepare_contexts_with_separators (txt "<SEP>")
    [txt "ab"; txt "c"]
  = (txt "ab <SEP> c", {[ 0%Z := (0, 2)%Z; 1%Z := (9, 10)%Z ]}).
Proof. reflexivity. Qed.


(* ===================================================================== *)
(** * Facts about the Python built-ins                                    *)
(* ===================================================================== *)

Section PyFacts.

Lemma len_app {A} (l1 l2 : list A) : Py.len (l1 ++ l2) = (Py.len l1 + Py.len l2)%Z.
Proof. unfold Py.len. rewrite length_app. lia. Qed.

Lemma len_nonneg {A} (l : list A) : (0 <= Py.len l)%Z.
Proof. unfold Py.len. lia. Qed.

Lemma join_snoc (sep : str) (l : list str) (x : str) :
  Py.join sep (l ++ [x])
  = match l with [] => x | _ => Py.join sep l ++ sep ++ x end.
Proof.
  induction l as [|a l IH]; [done|].
  destruct l as [|b l]; [done|].
  change (Py.join sep ((a :: b :: l) ++ [x]))
    with (a ++ sep ++ Py.join sep ((b :: l) ++ [x])).
  rewrite IH. change (Py.join sep (a :: b :: l))
    with (a ++ sep ++ Py.join sep (b :: l)).
  by rewrite <- !app_assoc.
Qed.

(** A slice at the bounds of a factor of the text is that factor. *)
Lemma slice_middle {A} (pre c post : list A) :
  Py.slice (pre ++ c ++ post) (Py.len pre) (Py.len pre + Py.len c) = c.
Proof.
  unfold Py.slice, Py.clamp_index, Py.len.
  rewrite !length_app.
  repeat match goal with
         | |- context [(?a <? ?b)%Z] => destruct (Z.ltb_spec a b); try lia
         end.
  replace (Z.to_nat (Z.min (Z.of_nat (length pre)) _)) with (length pre) by lia.
  rewrite drop_app_length.
  match goal with
  | |- take ?n _ = _ => replace n with (length c) by lia
  end.
  by rewrite take_app_length.
Qed.

End PyFacts.

(* ===================================================================== *)
(** * ContextTracker: spans                                               *)
(* ===================================================================== *)

Section Prepare.
Import ContextTracker.
Variable separator : str.
Let J := joint separator.

Lemma enumerate_snoc {A} (l : list A) (x : A) :
  enumerate (l ++ [x]) = enumerate l ++ [(length l, x)].
Proof.
  unfold enumerate. rewrite length_app, Nat.add_1_r, seq_S. simpl.
  rewrite zip_with_app by (by rewrite length_seq). done.
Qed.

Lemma span_start_snoc (l : list str) (x : str) (i : nat) :
  (i <= length l)%nat ->
  span_start separator (l ++ [x]) i = span_start separator l i.
Proof. intros Hi. unfold span_start. by rewrite take_app_le. Qed.

Lemma span_start_length (l : list str) :
  span_start separator l (length l)
  = (Py.len (Py.join J l)
     + match l with [] => 0 | _ => Py.len J end)%Z.
Proof. unfold span_start. rewrite firstn_all. by destruct l. Qed.

(** The state of the loop after the passages [l]. *)
Lemma prepare_loop_spec (l : list str) :
  let st := foldl (prepare_step separator) (PrepState [] ∅ 0%Z)
                  (enumerate l) in
  combined_text st = Py.join J l
  ∧ current_pos st = Py.len (Py.join J l)
  ∧ ∀ k, context_positions st !! k = span_of separator l k.
Proof.
  induction l as [|x l IH] using rev_ind.
  { simpl. split_and!; [done..|]. intros k. rewrite lookup_empty.
    unfold span_of. case_match; [done|]. by rewrite lookup_nil. }
  rewrite enumerate_snoc, foldl_app. cbn zeta in IH.
  destruct IH as (Hc & Hp & Hk). simpl.
  set (st := foldl _ _ _) in *.
  assert (Hjoin : (if (0 <? length l)%nat then combined_text st ++ J
                   else combined_text st) ++ x = Py.join J (l ++ [x])).
  { rewrite join_snoc, Hc. destruct l; simpl; [done|].
    by rewrite <- app_assoc. }
  split_and!.
  - exact Hjoin.
  - rewrite <- Hjoin, Hp, Hc. destruct l as [|a l].
    + simpl. unfold Py.len. simpl. lia.
    + change (0 <? length (a :: l))%nat with true. cbn iota.
      rewrite !len_app. fold J. lia.
  - intros k. unfold span_of.
    destruct (decide (k = Z.of_nat (length l))) as [->|Hne].
    + rewrite lookup_insert_eq.
      destruct (Z.ltb_spec (Z.of_nat (length l)) 0); [lia|].
      rewrite Nat2Z.id, list_lookup_middle by done. simpl.
      rewrite span_start_snoc, span_start_length, Hp by done.
      by destruct l.
    + rewrite lookup_insert_ne, Hk by done. unfold span_of.
      destruct (Z.ltb_spec k 0); [done|].
      destruct (decide (Z.to_nat k < length l)%nat) as [Hlt|Hge].
      * rewrite lookup_app_l, span_start_snoc by lia. done.
      * rewrite !lookup_ge_None_2; [done| |lia].
        rewrite length_app. simpl. lia.
Qed.

Lemma join_app (sep : str) (a b : list str) :
  Py.join sep (a ++ b)
  = match a, b with
    | [], _ => Py.join sep b
    | _, [] => Py.join sep a
    | _, _ => Py.join sep a ++ sep ++ Py.join sep b
    end.
Proof.
  induction a as [|x a IH]; [done|].
  destruct b as [|y b]; [by rewrite app_nil_r|].
  destruct a as [|x' a]; [done|].
  change (Py.join sep ((x :: x' :: a) ++ y :: b))
    with (x ++ sep ++ Py.join sep ((x' :: a) ++ y :: b)).
  rewrite IH.
  change (Py.join sep (x :: x' :: a)) with (x ++ sep ++ Py.join sep (x' :: a)).
  by rewrite <- !app_assoc.
Qed.

Lemma join_len_mono (sep : str) (a b : list str) :
  (Py.len (Py.join sep a) <= Py.len (Py.join sep (a ++ b)))%Z.
Proof.
  rewrite join_app. pose proof (len_nonneg sep).
  pose proof (len_nonneg (Py.join sep b)).
  destruct a as [|x a], b as [|y b]; rewrite ?len_app;
    change (Py.len (Py.join sep [])) with 0%Z; lia.
Qed.

Lemma join_cons (sep c : str) (r : list str) :
  Py.join sep (c :: r)
  = c ++ match r with [] => [] | _ => sep ++ Py.join sep r end.
Proof. destruct r; [by rewrite app_nil_r|done]. Qed.

(** The text splits at passage [i] into what precedes it, the passage
    and what follows it; the passage is set off by the spaces of the
    joints. *)
Lemma join_lookup_split (l : list str) (i : nat) (c : str) :
  l !! i = Some c ->
  Py.join J l
  = (Py.join J (take i l) ++ match i with O => [] | S _ => J end)
    ++ c ++ match drop (S i) l with [] => [] | r => J ++ Py.join J r end.
Proof.
  intros Hi. rewrite <- (take_drop_middle l i c Hi) at 1.
  assert (Hlen : (i < length l)%nat) by (by eapply lookup_lt_Some).
  destruct i as [|i].
  - rewrite take_0. change ([] ++ c :: drop 1 l) with (c :: drop 1 l).
    rewrite join_cons. by destruct (drop 1 l).
  - rewrite join_app. destruct (take (S i) l) eqn:Ht.
    { apply (f_equal length) in Ht. rewrite length_take in Ht.
      cbn [length] in Ht. lia. }
    rewrite !join_cons, <- !app_assoc. by destruct (drop (S (S i)) l).
Qed.

Lemma span_stop_eq (l : list str) (i : nat) (c : str) :
  l !! i = Some c ->
  (span_start separator l i + Py.len c)%Z
  = Py.len (Py.join J (take (S i) l)).
Proof.
  intros Hi. rewrite (take_S_r l i c Hi), join_snoc. unfold span_start.
  assert (Hlen : (i < length l)%nat) by (by eapply lookup_lt_Some).
  destruct i as [|i].
  - rewrite take_0. simpl. unfold Py.len at 1. simpl. lia.
  - destruct (take (S i) l) eqn:Ht.
    { apply (f_equal length) in Ht. rewrite length_take in Ht.
      cbn [length] in Ht. lia. }
    rewrite !len_app. fold J. lia.
Qed.

Lemma joint_len : (2 <= Py.len J)%Z.
Proof.
  unfold J, joint. rewrite !len_app. pose proof (len_nonneg separator).
  unfold Py.len at 1 3. simpl. lia.
Qed.

(** A span ends before any later one starts. *)
Lemma span_order (l : list str) (i j : nat) (c : str) :
  l !! i = Some c -> (i < j)%nat ->
  (span_start separator l i + Py.len c < span_start separator l j)%Z.
Proof.
  intros Hi Hij. rewrite (span_stop_eq l i c Hi).
  unfold span_start. destruct j as [|j]; [lia|]. fold J.
  pose proof joint_len.
  replace (take (S i) l) with (take (S i) (take (S j) l))
    by (rewrite take_take; f_equal; lia).
  pose proof (join_len_mono J (take (S i) (take (S j) l))
                (drop (S i) (take (S j) l))) as Hm.
  rewrite take_drop in Hm. lia.
Qed.

End Prepare.

(* ===================================================================== *)
(** * Words: [split], [strip] and [replace]                               *)
(* ===================================================================== *)

Section Words.

Lemma space_ended_nil : space_ended [].
Proof. done. Qed.

Lemma space_ended_snoc (p : str) (c : ascii) :
  space_ended (p ++ [c]) <-> Py.is_space c = true.
Proof. unfold space_ended. by rewrite reverse_snoc. Qed.

Lemma space_ended_app (p p' : str) :
  p' ≠ [] -> space_ended p' -> space_ended (p ++ p').
Proof.
  destruct p' as [|c p' _] using rev_ind; [done|]. intros _ H.
  rewrite app_assoc. apply space_ended_snoc. by apply space_ended_snoc in H.
Qed.

Lemma space_ended_inv (p : str) :
  space_ended p -> p = [] ∨ ∃ p' c, p = p' ++ [c] ∧ Py.is_space c = true.
Proof.
  destruct p as [|c p _] using rev_ind; [by left|]. intros H. right.
  exists p, c. split; [done|]. by apply space_ended_snoc in H.
Qed.

(** Leading whitespace is dropped when no word is being read. *)
Lemma split_go_app_space (cur p : str) (c : ascii) (rest : str) :
  Py.is_space c = true ->
  Py.split_go cur (p ++ c :: rest)
  = Py.split_go cur (p ++ [c]) ++ Py.split_go [] rest.
Proof.
  intros Hc. revert cur. induction p as [|a p IH]; intros cur; simpl.
  - rewrite Hc. by rewrite app_nil_r.
  - destruct (Py.is_space a).
    + by rewrite IH, app_assoc.
    + apply IH.
Qed.

Lemma split_go_nonspace (cur w q : str) :
  nonspace w -> Py.split_go cur (w ++ q) = Py.split_go (cur ++ w) q.
Proof.
  intros Hw. revert cur. induction Hw as [|a w Ha _ IH]; intros cur; simpl.
  - by rewrite app_nil_r.
  - rewrite Ha, IH. by rewrite <- app_assoc.
Qed.

Lemma split_go_head (cur q : str) :
  cur ≠ [] -> space_headed q -> cur ∈ Py.split_go cur q.
Proof.
  intros Hcur Hq. destruct q as [|c q]; simpl.
  - destruct cur; [done|]. apply list_elem_of_here.
  - simpl in Hq. rewrite Hq. destruct cur; [done|]. apply list_elem_of_here.
Qed.

(** A whole word of the text is one of its [split()] words. *)
Lemma word_at_split (p w q : str) :
  word_at p w q -> w ∈ Py.split (p ++ w ++ q).
Proof.
  intros (Hne & Hw & Hp & Hq). unfold Py.split.
  assert (Hin : w ∈ Py.split_go [] (w ++ q)).
  { rewrite split_go_nonspace by done. by apply split_go_head. }
  destruct (space_ended_inv p Hp) as [->|(p' & c & -> & Hc)]; [done|].
  rewrite <- app_assoc. simpl. rewrite split_go_app_space by done.
  apply elem_of_app. by right.
Qed.

(** Conversely, every [split()] word stands in the text as a whole word. *)
Lemma split_go_word_at (cur s w : str) :
  nonspace cur -> w ∈ Py.split_go cur s ->
  ∃ p q, cur ++ s = p ++ w ++ q ∧ word_at p w q.
Proof.
  revert cur. induction s as [|c s IH]; intros cur Hcur Hin; simpl in Hin.
  - destruct cur as [|a cur]; [by apply elem_of_nil in Hin|].
    apply list_elem_of_singleton in Hin as ->.
    exists [], []. by rewrite !app_nil_r.
  - destruct (Py.is_space c) eqn:Hc.
    + apply elem_of_app in Hin as [Hin|Hin].
      * destruct cur as [|a cur]; [by apply elem_of_nil in Hin|].
        apply list_elem_of_singleton in Hin as ->.
        exists [], (c :: s). split; [done|]. split_and!; try done.
      * destruct (IH [] (Forall_nil_2 _) Hin) as (p & q & Heq & Hne & Hw & Hp & Hq).
        simpl in Heq. destruct (space_ended_inv p Hp) as [->|(p' & c' & -> & Hc')].
        -- exists (cur ++ [c]), q. rewrite Heq, <- app_assoc. split; [done|].
           split_and!; try done. by apply space_ended_snoc.
        -- exists ((cur ++ c :: p') ++ [c']), q. split.
           { rewrite Heq, <- ?app_assoc. simpl. by rewrite <- ?app_assoc. }
           split_and!; try done. by apply space_ended_snoc.
    + destruct (IH (cur ++ [c])) as (p & q & Heq & Hwa); [|done|].
      { apply Forall_app. split; [done|]. by apply Forall_singleton. }
      exists p, q. split; [|done]. by rewrite <- Heq, <- app_assoc.
Qed.

Lemma split_word_at (s w : str) :
  w ∈ Py.split s -> ∃ p q, s = p ++ w ++ q ∧ word_at p w q.
Proof. intros Hin. by apply (split_go_word_at [] s w (Forall_nil_2 _)). Qed.

Lemma lstrip_split (s : str) :
  ∃ y, s = y ++ Py.lstrip s ∧ Forall (λ c, Py.is_space c = true) y.
Proof.
  induction s as [|c s (y & Hy & Hall)]; [by exists []|]. simpl.
  destruct (Py.is_space c) eqn:Hc.
  - exists (c :: y). split; [by rewrite Hy at 1|]. by constructor.
  - by exists [].
Qed.

Lemma split_go_spaces (cur t : str) :
  Forall (λ c, Py.is_space c = true) t ->
  Py.split_go cur t = match cur with [] => [] | _ => [cur] end.
Proof.
  intros Ht. revert cur. induction Ht as [|c t Hc _ IH]; intros cur; [done|].
  simpl. by rewrite Hc, IH, app_nil_r.
Qed.

Lemma split_go_trailing (cur s t : str) :
  Forall (λ c, Py.is_space c = true) t ->
  Py.split_go cur (s ++ t) = Py.split_go cur s.
Proof.
  intros Ht. revert cur. induction s as [|c s IH]; intros cur; simpl.
  - by apply split_go_spaces.
  - by rewrite !IH.
Qed.

(** Stripping a text does not change its words. *)
Lemma split_strip (s : str) : Py.split (Py.strip s) = Py.split s.
Proof.
  unfold Py.split, Py.strip, Py.rstrip.
  transitivity (Py.split_go [] (Py.lstrip s)).
  - destruct (lstrip_split (reverse (Py.lstrip s))) as (y & Hy & Hall).
    apply (f_equal reverse) in Hy. rewrite reverse_involutive, reverse_app in Hy.
    rewrite Hy at 2. rewrite split_go_trailing; [done|].
    by apply Forall_reverse.
  - induction s as [|c s IH]; [done|]. simpl.
    destruct (Py.is_space c) eqn:Hc; [done|]. simpl. by rewrite Hc.
Qed.

Lemma contains_cons (sub : str) (a : ascii) (s : str) :
  Py.contains sub (a :: s) = Py.starts_with sub (a :: s) || Py.contains sub s.
Proof. done. Qed.

Lemma starts_with_spec (old s : str) :
  Py.starts_with old s = true <-> ∃ r, s = old ++ r.
Proof.
  revert s. induction old as [|o old IH]; intros s; simpl.
  - split; [by exists s|done].
  - destruct s as [|a s].
    + split; [done|]. by intros (r & ?).
    + rewrite andb_true_iff, bool_decide_eq_true, IH. split.
      * intros (-> & r & ->). by exists r.
      * intros (r & Heq). injection Heq as -> ->. split; [done|]. by exists r.
Qed.

Lemma starts_with_app (old w q : str) :
  Py.starts_with old w = true -> Py.starts_with old (w ++ q) = true.
Proof.
  rewrite !starts_with_spec. intros (r & ->). exists (r ++ q).
  by rewrite app_assoc.
Qed.

Lemma contains_app_r (old w q : str) :
  Py.contains old w = true -> Py.contains old (w ++ q) = true.
Proof.
  induction w as [|a w IH].
  - destruct old; [|done]. by destruct q.
  - simpl app. rewrite !contains_cons, !orb_true_iff. intros [H|H].
    + left. by apply (starts_with_app old (a :: w) q).
    + right. by apply IH.
Qed.

Lemma contains_app_l (old p x : str) :
  Py.contains old x = true -> Py.contains old (p ++ x) = true.
Proof.
  intros H. induction p as [|a p IH]; [done|].
  simpl app. rewrite contains_cons, IH. apply orb_true_r.
Qed.

(** A text that does not hold [old] has no factor that does. *)
Lemma contains_factor (old p w q : str) :
  Py.contains old (p ++ w ++ q) = false -> Py.contains old w = false.
Proof.
  intros H. destruct (Py.contains old w) eqn:Hw; [|done].
  rewrite (contains_app_l old p (w ++ q)) in H; [done|].
  by apply contains_app_r.
Qed.

Section Replace.
Variables old new : str.
Hypothesis old_nonempty : old ≠ [].
Hypothesis old_nonspace : nonspace old.

Lemma starts_with_space (c : ascii) (rest : str) :
  Py.is_space c = true -> Py.starts_with old (c :: rest) = false.
Proof.
  intros Hc. destruct old as [|o old'] eqn:Ho; [done|]. simpl.
  apply Forall_cons in old_nonspace as [Hospace _].
  rewrite bool_decide_eq_false_2; [done|]. intros ->. congruence.
Qed.

(** A match of [old] that starts in a word ends in that word. *)
Lemma starts_with_restrict (o w q : str) :
  nonspace o -> space_headed q ->
  Py.starts_with o (w ++ q) = true -> Py.starts_with o w = true.
Proof.
  intros Ho Hq. revert w. induction Ho as [|a o Ha _ IH]; intros w; [done|].
  destruct w as [|b w]; simpl.
  - destruct q as [|c q]; [done|]. simpl in Hq.
    rewrite andb_true_iff, bool_decide_eq_true. intros [-> _]. congruence.
  - rewrite !andb_true_iff. intros [? ?]. split; [done|]. by apply IH.
Qed.

Lemma replace_go_space (c : ascii) (rest : str) :
  Py.is_space c = true ->
  Py.replace_go old new 0 (c :: rest) = c :: Py.replace_go old new 0 rest.
Proof. intros Hc. simpl. by rewrite (starts_with_space c rest Hc). Qed.

(** Whatever is matched before a whitespace character, that character is
    kept and the scan goes on after it with no match pending. *)
Lemma replace_go_upto_space (p : str) (skip : nat) (c : ascii) (rest : str) :
  Py.is_space c = true ->
  nonspace (take skip (p ++ c :: rest)) ->
  ∃ out, Py.replace_go old new skip (p ++ c :: rest)
         = out ++ c :: Py.replace_go old new 0 rest.
Proof.
  intros Hc. revert skip. induction p as [|a p IH]; intros skip Hskip.
  - destruct skip as [|k].
    + exists []. by apply replace_go_space.
    + simpl in Hskip. apply Forall_cons in Hskip as [? _]. congruence.
  - destruct skip as [|k].
    + simpl app. cbn [Py.replace_go].
      destruct (Py.starts_with old (a :: p ++ c :: rest)) eqn:Hst.
      * apply starts_with_spec in Hst as (r & Hr).
        destruct old as [|o old'] eqn:Ho; [done|].
        simpl in Hr. injection Hr as -> Hr.
        destruct (IH (length (o :: old') - 1)) as (out & Hout).
        { simpl. rewrite Nat.sub_0_r, Hr, take_app_length.
          by apply Forall_cons in old_nonspace as [_ ?]. }
        exists (new ++ out). by rewrite Hout, app_assoc.
      * destruct (IH 0) as (out & Hout); [by constructor|].
        exists (a :: out). by rewrite Hout.
    + simpl in *. apply Forall_cons in Hskip as [_ Hskip]. by apply IH.
Qed.

(** A word that does not hold [old] is copied. *)
Lemma replace_go_word (w q : str) :
  Py.contains old w = false -> space_headed q ->
  Py.replace_go old new 0 (w ++ q) = w ++ Py.replace_go old new 0 q.
Proof.
  intros Hw Hq. induction w as [|a w IH]; [done|].
  rewrite contains_cons in Hw. apply orb_false_iff in Hw as [Hst Hw].
  simpl app. cbn [Py.replace_go].
  destruct (Py.starts_with old (a :: w ++ q)) eqn:Hst'.
  - apply (starts_with_restrict old (a :: w) q) in Hst'; [congruence|done..].
  - by rewrite IH.
Qed.

Lemma replace_go_space_headed (q : str) :
  space_headed q -> space_headed (Py.replace_go old new 0 q).
Proof.
  destruct q as [|c q]; [done|]. intros Hc. by rewrite replace_go_space.
Qed.

(** A whole word of the text that does not hold [old] is still a whole
    word after the replacement. *)
Lemma replace_keeps_word (p w q : str) :
  word_at p w q -> Py.contains old w = false ->
  ∃ p' q', Py.replace old new (p ++ w ++ q) = p' ++ w ++ q'
           ∧ word_at p' w q'.
Proof.
  intros (Hne & Hw & Hp & Hq) Hold.
  assert (Hrep : ∀ s, Py.replace old new s = Py.replace_go old new 0 s).
  { intros s. unfold Py.replace. by destruct old. }
  rewrite Hrep.
  destruct (space_ended_inv p Hp) as [->|(p0 & c & -> & Hc)].
  - exists [], (Py.replace_go old new 0 q). simpl.
    rewrite replace_go_word by done. split; [done|].
    split_and!; try done. by apply replace_go_space_headed.
  - rewrite <- app_assoc. simpl.
    destruct (replace_go_upto_space p0 0 c (w ++ q) Hc) as (out & ->);
      [by constructor|].
    rewrite replace_go_word by done.
    exists (out ++ [c]), (Py.replace_go old new 0 q).
    rewrite <- app_assoc. split; [done|]. split_and!; try done.
    + by apply space_ended_snoc.
    + by apply replace_go_space_headed.
Qed.

End Replace.

End Words.

(* ===================================================================== *)
(** * ContextTracker: retention                                           *)
(* ===================================================================== *)

Section Retention.
Import ContextTracker.

(** The dict built by the loop over [context_positions.items()] has the
    statistics of each span under the key of the span. *)
Lemma analyze_lookup (separator original compressed : str)
    (positions : gmap Z (Z * Z)) (k : Z) :
  analyze_context_retention separator original compressed positions !! k
  = span_stat original
      (Py.split (Py.strip (Py.replace separator (txt " ") compressed)))
    <$> positions !! k.
Proof.
  unfold analyze_context_retention.
  set (words := Py.split _).
  apply (map_fold_weak_ind
           (λ r m, r !! k = span_stat original words <$> m !! k)).
  - by rewrite !lookup_empty.
  - intros i x m r Hi IH. destruct (decide (i = k)) as [->|Hne].
    + by rewrite !lookup_insert_eq.
    + by rewrite !lookup_insert_ne.
Qed.

Lemma count_retained_bounds (cw ow : list str) :
  (0 <= count_retained cw ow <= Py.len ow)%Z.
Proof.
  unfold Py.len. induction ow as [|w ow IH]; simpl; [lia|].
  case_bool_decide; lia.
Qed.

Lemma count_retained_none (cw ow : list str) :
  (∀ w, w ∈ ow -> Py.lower w ∉ Py.lower <$> cw) ->
  count_retained cw ow = 0%Z.
Proof.
  induction ow as [|w ow IH]; intros H; simpl; [done|].
  rewrite bool_decide_eq_false_2 by (apply H, list_elem_of_here).
  rewrite IH; [done|]. intros w' Hw'. by apply H, list_elem_of_further.
Qed.

Lemma count_retained_all (cw ow : list str) :
  (∀ w, w ∈ ow -> w ∈ cw) -> count_retained cw ow = Py.len ow.
Proof.
  unfold Py.len. induction ow as [|w ow IH]; intros H; simpl; [done|].
  rewrite bool_decide_eq_true_2
    by (apply list_elem_of_fmap_2, H, list_elem_of_here).
  rewrite IH; [lia|]. intros w' Hw'. by apply H, list_elem_of_further.
Qed.

Lemma ratio_bounds (r n : Z) :
  (0 <= r <= n)%Z ->
  (0 <= inject_Z r / inject_Z (Z.max n 1) <= 1)%Q.
Proof.
  intros Hr. assert (Hd : (0 < inject_Z (Z.max n 1))%Q).
  { change 0%Q with (inject_Z 0). rewrite <- Zlt_Qlt. lia. }
  split.
  - apply Qle_shift_div_l; [done|]. rewrite Qmult_0_l.
    change 0%Q with (inject_Z 0). rewrite <- Zle_Qle. lia.
  - apply Qle_shift_div_r; [done|]. rewrite Qmult_1_l.
    rewrite <- Zle_Qle. lia.
Qed.

Lemma ratio_zero (n : Z) : (inject_Z 0 / inject_Z (Z.max n 1) == 0)%Q.
Proof. unfold Qdiv. by rewrite Qmult_0_l. Qed.

Lemma ratio_one (n : Z) :
  (1 <= n)%Z -> (inject_Z n / inject_Z (Z.max n 1) == 1)%Q.
Proof.
  intros Hn. rewrite Z.max_l by lia. apply Qmult_inv_r.
  change 0%Q with (inject_Z 0). rewrite inject_Z_injective. lia.
Qed.

Lemma joint_space_ended (separator : str) : space_ended (joint separator).
Proof.
  unfold joint. rewrite app_assoc. by apply space_ended_snoc.
Qed.

(** Each word of a passage that does not hold the separator is a word of
    the cleaned combined text. *)
Lemma passage_words_kept (separator : str) (contexts : list str)
    (i : nat) (c w : str) :
  separator ≠ [] -> nonspace separator ->
  contexts !! i = Some c -> Py.contains separator c = false ->
  w ∈ Py.split c ->
  w ∈ Py.split (Py.strip (Py.replace separator (txt " ")
                            (Py.join (joint separator) contexts))).
Proof.
  intros Hne Hns Hi Hc Hw.
  destruct (split_word_at c w Hw) as (p & q & -> & Hw0 & Hws & Hp & Hq).
  rewrite (join_lookup_split separator contexts i _ Hi).
  match goal with
  | |- context [?P0 ++ (p ++ w ++ q) ++ ?Q0] => set (P := P0); set (Q := Q0)
  end.
  assert (HP : space_ended P).
  { subst P. destruct i; [done|].
    apply space_ended_app; [by destruct separator|].
    apply joint_space_ended. }
  assert (HQ : space_headed Q).
  { subst Q. by destruct (drop (S i) contexts). }
  replace (P ++ (p ++ w ++ q) ++ Q) with ((P ++ p) ++ w ++ (q ++ Q))
    by (by rewrite <- !app_assoc).
  assert (Hat : word_at (P ++ p) w (q ++ Q)).
  { split_and!; [done..| |].
    - destruct p as [|a p]; [by rewrite app_nil_r|].
      by apply space_ended_app.
    - by destruct q. }
  destruct (replace_keeps_word separator (txt " ") Hne Hns _ _ _ Hat)
    as (p' & q' & -> & Hat').
  { by apply (contains_factor separator p w q). }
  rewrite split_strip. by apply word_at_split.
Qed.

End Retention.

(* ===================================================================== *)
(** * Claims on ContextTracker                                            *)
(* ===================================================================== *)

Lemma span_of_lookup (separator : str) (contexts : list str) (i : nat)
    (c : str) :
  contexts !! i = Some c ->
  span_of separator contexts (Z.of_nat i)
  = Some (span_start separator contexts i,
          (span_start separator contexts i + Py.len c)%Z).
Proof.
  intros Hi. unfold span_of.
  destruct (Z.ltb_spec (Z.of_nat i) 0); [lia|]. by rewrite Nat2Z.id, Hi.
Qed.

Lemma span_start_nonneg (separator : str) (contexts : list str) (i : nat) :
  (0 <= span_start separator contexts i)%Z.
Proof.
  unfold span_start.
  pose proof (len_nonneg (Py.join (ContextTracker.joint separator)
                                  (take i contexts))).
  pose proof (len_nonneg (ContextTracker.joint separator)).
  destruct i; lia.
Qed.

(** The recorded span of passage [i] cuts the passage out of the joined
    text and lies within it. *)
Lemma slice_span (separator : str) (contexts : list str) (i : nat) (c : str) :
  contexts !! i = Some c ->
  Py.slice (Py.join (ContextTracker.joint separator) contexts)
           (span_start separator contexts i)
           (span_start separator contexts i + Py.len c) = c
  ∧ (span_start separator contexts i + Py.len c
     <= Py.len (Py.join (ContextTracker.joint separator) contexts))%Z.
Proof.
  intros Hi. rewrite (join_lookup_split separator contexts i c Hi).
  match goal with
  | |- context [?P0 ++ c ++ ?Q0] => set (P := P0); set (Q := Q0)
  end.
  assert (HP : span_start separator contexts i = Py.len P).
  { subst P. unfold span_start. rewrite len_app. by destruct i. }
  rewrite HP. split; [apply slice_middle|].
  rewrite !len_app. pose proof (len_nonneg Q). lia.
Qed.

(** C3: for every list of passages, [prepare_contexts_with_separators]
    returns the passages joined by [" <separator> "] and a mapping whose
    keys are exactly the indices [0..N-1]; the half-open span of each
    index lies in the combined text and slices its passage out of it, and
    a span of a smaller index ends before a span of a larger index
    starts, so the spans are ordered and pairwise disjoint. *)
Theorem prepare_contexts_spans (separator : str) (contexts : list str) :
  let combined :=
    (ContextTracker.prepare_contexts_with_separators separator contexts).1 in
  let positions :=
    (ContextTracker.prepare_contexts_with_separators separator contexts).2 in
  combined = Py.join (txt " " ++ separator ++ txt " ") contexts
  ∧ (∀ k, is_Some (positions !! k) <-> (0 <= k < Py.len contexts)%Z)
  ∧ (∀ i c, contexts !! i = Some c ->
       ∃ a b, positions !! Z.of_nat i = Some (a, b)
              ∧ (0 <= a <= b)%Z ∧ (b <= Py.len combined)%Z
              ∧ Py.slice combined a b = c)
  ∧ (∀ i j a b a' b', (i < j)%Z ->
       positions !! i = Some (a, b) -> positions !! j = Some (a', b') ->
       (a <= b)%Z ∧ (b < a')%Z ∧ (a' <= b')%Z).
Proof.
  unfold ContextTracker.prepare_contexts_with_separators. cbn zeta.
  destruct (prepare_loop_spec separator contexts) as (Hc & _ & Hk).
  cbn zeta in Hc, Hk. cbn [fst snd]. rewrite Hc.
  change (txt " " ++ separator ++ txt " ")
    with (ContextTracker.joint separator).
  split_and!.
  - done.
  - intros k. rewrite Hk. unfold span_of, Py.len.
    destruct (Z.ltb_spec k 0).
    + split; [by intros []|lia].
    + rewrite fmap_is_Some, lookup_lt_is_Some. lia.
  - intros i c Hi. rewrite Hk, (span_of_lookup _ _ _ _ Hi).
    destruct (slice_span separator contexts i c Hi) as [Hs Hle].
    pose proof (span_start_nonneg separator contexts i).
    pose proof (len_nonneg c).
    eexists _, _. split_and!; [done|lia..|done].
  - intros i j a b a' b' Hij. rewrite !Hk. unfold span_of.
    destruct (Z.ltb_spec i 0); [done|]. destruct (Z.ltb_spec j 0); [done|].
    destruct (contexts !! Z.to_nat i) as [ci|] eqn:Hi; [|done].
    destruct (contexts !! Z.to_nat j) as [cj|] eqn:Hj; [|done].
    simpl. intros [= <- <-] [= <- <-].
    pose proof (span_order separator contexts (Z.to_nat i) (Z.to_nat j) ci Hi).
    pose proof (len_nonneg ci). pose proof (len_nonneg cj). lia.
Qed.

Lemma prepare_contexts_spans_witness :
  ∃ a b,
    (ContextTracker.prepare_contexts_with_separators sep_tag two_passages).2
      !! 1%Z = Some (a, b)
    ∧ Py.slice
        (ContextTracker.prepare_contexts_with_separators sep_tag
                                                         two_passages).1
        a b = txt "Ef".
Proof.
  destruct (prepare_contexts_spans sep_tag two_passages)
    as (_ & _ & Hslice & _).
  destruct (Hslice 1%nat (txt "Ef") eq_refl) as (a & b & Hl & _ & _ & Hs).
  by exists a, b.
Defined.

(** C4 (amended): every retention ratio lies in [0, 1]; a passage none of
    whose words is, case-insensitively, among the words of the cleaned
    compressed text has ratio 0; and when the compressed text is the
    combined text built by [prepare_contexts_with_separators], analysed
    with the spans built there, and the separator has no whitespace and
    occurs in no passage, every passage with at least one word has
    ratio 1. *)
Theorem retention_ratio_range :
  (∀ separator original compressed positions k st,
     ContextTracker.analyze_context_retention separator original compressed
       positions !! k = Some st ->
     (0 <= ContextTracker.retention_ratio st <= 1)%Q)
  ∧ (∀ separator original compressed positions k start stop,
       positions !! k = Some (start, stop) ->
       Forall (λ w, Py.lower w ∉
                    Py.lower <$> Py.split (Py.strip (Py.replace separator
                                             (txt " ") compressed)))
              (Py.split (Py.slice original start stop)) ->
       ∃ st, ContextTracker.analyze_context_retention separator original
               compressed positions !! k = Some st
             ∧ (ContextTracker.retention_ratio st == 0)%Q)
  ∧ (∀ separator contexts i c,
       nonspace separator ->
       Forall (λ c', Py.contains separator c' = false) contexts ->
       contexts !! i = Some c -> Py.split c ≠ [] ->
       let prepared :=
         ContextTracker.prepare_contexts_with_separators separator contexts in
       ∃ st, ContextTracker.analyze_context_retention separator prepared.1
               prepared.1 prepared.2 !! Z.of_nat i = Some st
             ∧ (ContextTracker.retention_ratio st == 1)%Q).
Proof.
  split_and!.
  - intros separator original compressed positions k st.
    rewrite analyze_lookup. destruct (positions !! k) as [[a b]|]; [|done].
    intros [= <-]. simpl. apply ratio_bounds, count_retained_bounds.
  - intros separator original compressed positions k start stop Hk Hnone.
    rewrite analyze_lookup, Hk. eexists. split; [done|]. simpl.
    rewrite count_retained_none; [apply ratio_zero|].
    by apply Forall_forall.
  - intros separator contexts i c Hns Hfree Hi Hwords.
    unfold ContextTracker.prepare_contexts_with_separators. cbn zeta.
    destruct (prepare_loop_spec separator contexts) as (Hc & _ & Hk).
    cbn zeta in Hc, Hk. cbn [fst snd].
    rewrite analyze_lookup, Hk, (span_of_lookup _ _ _ _ Hi), Hc.
    eexists. split; [done|]. simpl.
    destruct (slice_span separator contexts i c Hi) as [-> _].
    assert (Hin : c ∈ contexts) by (by eapply list_elem_of_lookup_2).
    assert (Hcfree : Py.contains separator c = false).
    { by apply (proj1 (Forall_forall _ _) Hfree). }
    assert (Hne : separator ≠ []).
    { intros ->. by destruct c. }
    rewrite count_retained_all.
    + apply ratio_one. unfold Py.len. destruct (Py.split c); [done|].
      simpl. lia.
    + intros w Hw. by eapply passage_words_kept.
Qed.

Lemma retention_ratio_range_witness :
  (∃ st, ContextTracker.analyze_context_retention sep_tag
           (txt "ab cd <SEP> Ef") (txt "cd <SEP> ef")
           {[ 0%Z := (0, 5)%Z; 1%Z := (12, 14)%Z ]} !! 0%Z = Some st
         ∧ (0 <= ContextTracker.retention_ratio st <= 1)%Q)
  ∧ (∃ st, ContextTracker.analyze_context_retention sep_tag
             (txt "ab cd <SEP> Ef") (txt "xy <SEP> z")
             {[ 0%Z := (0, 5)%Z; 1%Z := (12, 14)%Z ]} !! 1%Z = Some st
           ∧ (ContextTracker.retention_ratio st == 0)%Q)
  ∧ (∃ st, ContextTracker.analyze_context_retention sep_tag
             (ContextTracker.prepare_contexts_with_separators sep_tag
                                                              two_passages).1
             (ContextTracker.prepare_contexts_with_separators sep_tag
                                                              two_passages).1
             (ContextTracker.prepare_contexts_with_separators sep_tag
                                                              two_passages).2
             !! 1%Z = Some st
           ∧ (ContextTracker.retention_ratio st == 1)%Q).
Proof.
  destruct retention_ratio_range as (H1 & H2 & H3). split_and!.
  - eexists. split; [reflexivity|].
    apply (H1 sep_tag (txt "ab cd <SEP> Ef") (txt "cd <SEP> ef")
              {[ 0%Z := (0, 5)%Z; 1%Z := (12, 14)%Z ]} 0%Z).
    reflexivity.
  - apply (H2 sep_tag (txt "ab cd <SEP> Ef") (txt "xy <SEP> z")
              {[ 0%Z := (0, 5)%Z; 1%Z := (12, 14)%Z ]} 1%Z 12%Z 14%Z);
      [reflexivity|].
    repeat constructor.
    apply (bool_decide_eq_false_1 _). reflexivity.
  - apply (H3 sep_tag two_passages 1%nat (txt "Ef")).
    + repeat constructor.
    + repeat constructor.
    + reflexivity.
    + discriminate.
Defined.

(** C4, refuted as stated: with the compressed text equal to the
    original, the ratio is 0 and not 1 for a passage without words, for
    a passage one of whose words holds the separator, for a span that
    cuts a word, and when a separator with whitespace matches across the
    end of a passage. *)
Lemma retention_identical_counterexample :
  ContextTracker.analyze_context_retention sep_tag
    (ContextTracker.prepare_contexts_with_separators sep_tag empty_passage).1
    (ContextTracker.prepare_contexts_with_separators sep_tag empty_passage).1
    (ContextTracker.prepare_contexts_with_separators sep_tag empty_passage).2
    !! 1%Z = Some (ContextTracker.ContextStat 0 0 0)
  ∧ ContextTracker.analyze_context_retention (txt "|")
      (ContextTracker.prepare_contexts_with_separators (txt "|")
                                                        [txt "a|b"]).1
      (ContextTracker.prepare_contexts_with_separators (txt "|")
                                                        [txt "a|b"]).1
      (ContextTracker.prepare_contexts_with_separators (txt "|")
                                                        [txt "a|b"]).2
      !! 0%Z = Some (ContextTracker.ContextStat 1 0 0)
  ∧ ContextTracker.analyze_context_retention sep_tag
      (txt "hello world") (txt "hello world") {[ 0%Z := (0, 3)%Z ]}
      !! 0%Z = Some (ContextTracker.ContextStat 1 0 0)
  ∧ ContextTracker.analyze_context_retention (txt "a a")
      (ContextTracker.prepare_contexts_with_separators (txt "a a")
                                                        [txt "ba"; txt "c"]).1
      (ContextTracker.prepare_contexts_with_separators (txt "a a")
                                                        [txt "ba"; txt "c"]).1
      (ContextTracker.prepare_contexts_with_separators (txt "a a")
                                                        [txt "ba"; txt "c"]).2
      !! 0%Z = Some (ContextTracker.ContextStat 1 0 0)
  ∧ ¬ (∀ separator original positions k st,
         ContextTracker.analyze_context_retention separator original original
           positions !! k = Some st ->
         (ContextTracker.retention_ratio st == 1)%Q).
Proof.
  split_and!; [reflexivity..|].
  intros H.
  specialize (H sep_tag (txt "hello world") {[ 0%Z := (0, 3)%Z ]} 0%Z
                (ContextTracker.ContextStat 1 0 0) eq_refl).
  discriminate H.
Qed.

(* ===================================================================== *)
(** * Claims on LLMLingua2Compressor                                      *)
(* ===================================================================== *)

Section CompressClaims.
Import Compressor.

(** The first component of the preparation is the joined text. *)
Lemma prepare_combined (separator : str) (contexts : list str) :
  (ContextTracker.prepare_contexts_with_separators separator contexts).1
  = Py.join (txt " " ++ separator ++ txt " ") contexts.
Proof.
  unfold ContextTracker.prepare_contexts_with_separators.
  apply (prepare_loop_spec separator contexts).
Qed.

Lemma compress_with_method_unfold (self : t) (contexts : list str)
    (query : str) (method_config : gmap str pyval) :
  let prepared :=
    ContextTracker.prepare_contexts_with_separators
      (context_separator (config self)) contexts in
  compress_with_method self contexts query method_config
  = match compress_try self contexts query method_config prepared.1
                       prepared.2 with
    | Ok r => r
    | Raise e => compress_fallback prepared.1 e
    end.
Proof.
  cbn zeta. unfold compress_with_method.
  by destruct (ContextTracker.prepare_contexts_with_separators _ _).
Qed.

Lemma compress_try_raise (self : t) (contexts : list str) (query : str)
    (method_config : gmap str pyval) (combined : str)
    (positions : gmap Z (Z * Z)) (e : exn) :
  call_library self contexts query method_config combined
    [context_separator (config self); [newline]; txt "."; txt "?"] = Raise e ->
  compress_try self contexts query method_config combined positions = Raise e.
Proof. intros H. unfold compress_try. by rewrite H. Qed.

Lemma compress_try_unbound (self : t) (contexts : list str) (query : str)
    (method_config : gmap str pyval) (combined : str)
    (positions : gmap Z (Z * Z)) :
  method_config !! txt "rate" = None ->
  method_config !! txt "target_token" = None ->
  method_config !! txt "target_context" = None ->
  compress_try self contexts query method_config combined positions
  = Raise (UnboundLocalError (txt "result")).
Proof.
  intros H1 H2 H3. unfold compress_try, call_library.
  by rewrite H1, H2, H3.
Qed.

End CompressClaims.

(** C1: [compress_with_method] is a total function of its arguments and
    of what the library does.  When the method config has none of the
    keys ['rate'], ['target_token'], ['target_context'], when the library
    call raises, and when anything else in the [try] block raises, the
    result is the fallback dict: its ['compressed_prompt'] is the
    passages joined by [" <separator> "], its rate and ratio are ["100%"]
    and ["1.0x"], and ['error'] holds the message of the exception. *)
Theorem compress_with_method_never_raises (self : Compressor.t)
    (contexts : list str) (query : str) (method_config : gmap str pyval) :
  let separator := Compressor.context_separator (Compressor.config self) in
  let combined := Py.join (txt " " ++ separator ++ txt " ") contexts in
  let r := Compressor.compress_with_method self contexts query
                                           method_config in
  (method_config !! txt "rate" = None ->
   method_config !! txt "target_token" = None ->
   method_config !! txt "target_context" = None ->
   is_fallback r combined (exn_message (UnboundLocalError (txt "result"))))
  ∧ (∀ e, Compressor.call_library self contexts query method_config combined
            [separator; [newline]; txt "."; txt "?"] = Raise e ->
          is_fallback r combined (exn_message e))
  ∧ (∀ e, Compressor.compress_try self contexts query method_config combined
            (ContextTracker.prepare_contexts_with_separators separator
                                                             contexts).2
          = Raise e ->
          is_fallback r combined (exn_message e)).
Proof.
  cbn zeta. rewrite compress_with_method_unfold. cbn zeta.
  rewrite prepare_combined. split_and!.
  - intros H1 H2 H3. by rewrite compress_try_unbound.
  - intros e He. by rewrite (compress_try_raise _ _ _ _ _ _ e He).
  - intros e He. by rewrite He.
Qed.

Lemma compress_with_method_never_raises_witness :
  is_fallback
    (Compressor.compress_with_method (demo_self 2 1 echo_library)
       two_passages (txt "what is soar") {[ txt "ratio" := VInt 3 ]})
    (txt "ab cd <SEP> Ef")
    (exn_message (UnboundLocalError (txt "result")))
  ∧ is_fallback
      (Compressor.compress_with_method (demo_self 2 1 failing_library)
         two_passages (txt "what is soar") {[ txt "rate" := VNum (1 # 2) ]})
      (txt "ab cd <SEP> Ef") (txt "CUDA out of memory").
Proof.
  split.
  - pose proof (compress_with_method_never_raises
                  (demo_self 2 1 echo_library) two_passages
                  (txt "what is soar") {[ txt "ratio" := VInt 3 ]}) as H.
    cbn zeta in H. destruct H as [H _]. apply H; reflexivity.
  - pose proof (compress_with_method_never_raises
                  (demo_self 2 1 failing_library) two_passages
                  (txt "what is soar") {[ txt "rate" := VNum (1 # 2) ]}) as H.
    cbn zeta in H. destruct H as (_ & H & _).
    apply (H (LibraryError (txt "CUDA out of memory"))). reflexivity.
Defined.

(** C9: whenever the [try] block of [compress_with_method] raises, the
    returned record has an empty ['context_analysis'], and its
    ['original_tokens'] and ['compressed_tokens'] are both the number of
    whitespace-separated words of the uncompressed combined context. *)
Theorem compress_fallback_counts (self : Compressor.t)
    (contexts : list str) (query : str) (method_config : gmap str pyval)
    (e : exn) :
  let prepared :=
    ContextTracker.prepare_contexts_with_separators
      (Compressor.context_separator (Compressor.config self)) contexts in
  let r := Compressor.compress_with_method self contexts query
                                           method_config in
  Compressor.compress_try self contexts query method_config prepared.1
                          prepared.2 = Raise e ->
  Compressor.context_analysis r = ∅
  ∧ Compressor.original_tokens r = VInt (Py.len (Py.split prepared.1))
  ∧ Compressor.compressed_tokens r = VInt (Py.len (Py.split prepared.1))
  ∧ Compressor.original_tokens r = Compressor.compressed_tokens r.
Proof.
  cbn zeta. intros He. rewrite compress_with_method_unfold. cbn zeta.
  by rewrite He.
Qed.

Lemma compress_fallback_counts_witness :
  Compressor.original_tokens
    (Compressor.compress_with_method (demo_self 2 1 failing_library)
       two_passages (txt "what is soar") {[ txt "rate" := VNum (1 # 2) ]})
  = VInt 4.
Proof.
  apply (compress_fallback_counts (demo_self 2 1 failing_library)
           two_passages (txt "what is soar") {[ txt "rate" := VNum (1 # 2) ]}
           (LibraryError (txt "CUDA out of memory"))).
  reflexivity.
Defined.

(* ===================================================================== *)
(** * Claims on the dataset filter and the batch loop                     *)
(* ===================================================================== *)

Section LoadDataset.
Import Compressor.

Lemma load_loop_skip (cfg : dataset_config) (ex : example)
    (rest acc : list example) (count : Z) :
  (Py.len acc < max_examples cfg)%Z -> matching cfg ex = false ->
  load_loop cfg (ex :: rest) count acc = load_loop cfg rest count acc.
Proof.
  intros Hlen Hm. simpl. destruct (Z.leb_spec (max_examples cfg) (Py.len acc));
    [lia|].
  unfold matching in Hm.
  destruct (bool_decide (ex_query_type ex = cfg_query_type cfg)); [|done].
  simpl in *. destruct (ex_answers ex) as [|[|a0 a] answers]; [done..|].
  apply negb_false_iff in Hm. by rewrite Hm.
Qed.

Lemma load_loop_count (cfg : dataset_config) (ex : example)
    (rest acc : list example) (count : Z) :
  (Py.len acc < max_examples cfg)%Z -> matching cfg ex = true ->
  load_loop cfg (ex :: rest) count acc
  = if (count + 1 <? start cfg)%Z
    then load_loop cfg rest (count + 1) acc
    else load_loop cfg rest (count + 1) (acc ++ [ex]).
Proof.
  intros Hlen Hm. simpl. destruct (Z.leb_spec (max_examples cfg) (Py.len acc));
    [lia|].
  unfold matching in Hm. apply andb_true_iff in Hm as [Hq Hm].
  rewrite Hq. simpl. destruct (ex_answers ex) as [|[|a0 a] answers]; [done..|].
  apply negb_true_iff in Hm. by rewrite Hm.
Qed.

(** The loop from any state: what is still to be skipped is
    [start - 1 - count] matching examples. *)
Lemma load_loop_spec (cfg : dataset_config) (dataset acc : list example)
    (count : Z) :
  (Py.len acc <= Z.max (max_examples cfg) 0)%Z ->
  (acc ≠ [] -> start cfg - 1 - count <= 0)%Z ->
  load_loop cfg dataset count acc
  = take (Z.to_nat (max_examples cfg))
      (acc ++ drop (Z.to_nat (start cfg - 1 - count))
                   (filter (λ ex, matching cfg ex = true) dataset)).
Proof.
  revert acc count. induction dataset as [|ex rest IH]; intros acc count Hlen Hacc.
  - change (load_loop cfg [] count acc) with acc.
    rewrite filter_nil, drop_nil, app_nil_r, take_ge; [done|].
    unfold Py.len in Hlen. lia.
  - destruct (Z.leb_spec (max_examples cfg) (Py.len acc)) as [Hfull|Hroom].
    + assert (Hstop : load_loop cfg (ex :: rest) count acc = acc).
      { simpl. by destruct (Z.leb_spec (max_examples cfg) (Py.len acc)); [|lia]. }
      rewrite Hstop, take_app_le, take_ge; [done|unfold Py.len in *; lia..].
    + destruct (matching cfg ex) eqn:Hm.
      * rewrite load_loop_count, filter_cons_True by done.
        destruct (Z.ltb_spec (count + 1) (start cfg)) as [Hskip|Htake].
        -- rewrite IH; [|done|intros Hne; specialize (Hacc Hne); lia].
           replace (Z.to_nat (start cfg - 1 - count))
             with (S (Z.to_nat (start cfg - 1 - (count + 1)))) by lia.
           done.
        -- rewrite IH.
           ++ replace (Z.to_nat (start cfg - 1 - count)) with 0%nat by lia.
              replace (Z.to_nat (start cfg - 1 - (count + 1))) with 0%nat by lia.
              by rewrite !drop_0, <- app_assoc.
           ++ rewrite len_app. unfold Py.len in *. simpl. lia.
           ++ intros _. lia.
      * rewrite load_loop_skip, filter_cons_False by (done || congruence).
        by apply IH.
Qed.

End LoadDataset.

(** C2 (amended): [load_dataset] returns, in their original order, the
    matching examples from the one of rank [start] on (counting from 1),
    at most [max_examples] of them: it skips [start - 1] matching
    examples, and none when [start] is 1 or less. *)
Theorem load_dataset_window (self : Compressor.t) :
  let cfg := Compressor.dataset_cfg (Compressor.config self) in
  Compressor.load_dataset self
  = take (Z.to_nat (Compressor.max_examples cfg))
      (drop (Z.to_nat (Compressor.start cfg - 1))
         (filter (λ ex, matching cfg ex = true)
            (Compressor.ms_marco_validation self (Compressor.version cfg)))).
Proof.
  cbn zeta. unfold Compressor.load_dataset.
  rewrite load_loop_spec; [|unfold Py.len; simpl; lia|done].
  by rewrite Z.sub_0_r.
Qed.

(** C2, refuted as stated: with [max_examples = 2] and [start = 1], over
    five raw examples of which the first, third and fifth match, the
    result is the first and the third, not the third and the fifth; with
    [start = 2] the first matching example is skipped. *)
Lemma load_dataset_start_counterexample :
  Compressor.load_dataset (demo_self 2 1 echo_library)
  = [demo_example 11 "description" "a glider flight";
     demo_example 13 "description" "rising air"]
  ∧ Compressor.load_dataset (demo_self 2 1 echo_library)
    ≠ [demo_example 13 "description" "rising air";
       demo_example 15 "description" "a thermal"]
  ∧ Compressor.load_dataset (demo_self 2 2 echo_library)
    = [demo_example 13 "description" "rising air";
       demo_example 15 "description" "a thermal"].
Proof. split_and!; [reflexivity|discriminate|reflexivity]. Qed.

(** The loop of [run_compression] keeps, in order, the records of the
    examples that [process] handles without raising. *)
Lemma process_all_spec (process : Compressor.example ->
                                  outcome Compressor.result_record)
    (examples : list Compressor.example)
    (results : list Compressor.result_record) :
  Compressor.process_all process examples results
  = results ++ omap (λ ex, match process ex with
                           | Ok r => Some r
                           | Raise _ => None
                           end) examples.
Proof.
  revert results. induction examples as [|ex rest IH]; intros results; simpl.
  - by rewrite app_nil_r.
  - destruct (process ex); rewrite IH; [|done]. by rewrite <- app_assoc.
Qed.

(** C5, as the code has it: [run_compression] raises [AttributeError] on
    its first statement, for [self.start] is assigned nowhere, whatever
    the instance, the limit and the examples; no list is returned. *)
Theorem run_compression_raises (self : Compressor.t)
    (num_examples : option Z) :
  Compressor.run_compression self num_examples
  = Raise (AttributeError (txt "start")).
Proof. reflexivity. Qed.

(* ===================================================================== *)
(** * Claims on CorrectMSMARCOEvaluator                                   *)
(* ===================================================================== *)

Section FormatPredictions.
Import Compressor Evaluator.
Variable repr : jval -> str.

Lemma txt_inj (a b : string) : txt a = txt b -> a = b.
Proof.
  unfold txt. intros H. apply (f_equal String.string_of_list_ascii) in H.
  by rewrite !String.string_of_list_ascii_of_string in H.
Qed.

Lemma str_of_int_inj (a b : Z) : Py.str_of_int a = Py.str_of_int b -> a = b.
Proof. unfold Py.str_of_int. intros H%txt_inj. by apply (inj pretty). Qed.

Lemma bind_ok {A B} (m : outcome A) (f : A -> outcome B) (b : B) :
  m ≫= f = Ok b -> ∃ a, m = Ok a ∧ f a = Ok b.
Proof. destruct m as [a|e]; [|done]. intros H. by exists a. Qed.

Lemma format_loop_cons (method : str) (r : result_record)
    (rest : list result_record) (data out : gmap str jval) :
  format_loop repr method (r :: rest) data = Ok out ->
  ∃ id v, query_id_of repr r = Ok id ∧ prediction method r = Ok v
          ∧ format_loop repr method rest (<[id := v]> data) = Ok out.
Proof.
  cbn [format_loop]. intros (id & Hid & H)%bind_ok.
  apply bind_ok in H as (v & Hv & H). by exists id, v.
Qed.

Lemma format_loop_step (method : str) (r : result_record)
    (rest : list result_record) (data : gmap str jval) (id : str) (v : jval) :
  query_id_of repr r = Ok id -> prediction method r = Ok v ->
  format_loop repr method (r :: rest) data
  = format_loop repr method rest (<[id := v]> data).
Proof. intros Hid Hv. cbn [format_loop]. by rewrite Hid, Hv. Qed.

Lemma format_loop_app (method : str) (pre post : list result_record)
    (data : gmap str jval) :
  format_loop repr method (pre ++ post) data
  = format_loop repr method pre data ≫= format_loop repr method post.
Proof.
  revert data. induction pre as [|r pre IH]; intros data; [done|].
  cbn [app format_loop].
  destruct (query_id_of repr r) as [id|e]; [|done].
  destruct (prediction method r) as [v|e]; [|done]. apply IH.
Qed.

Lemma format_loop_dom (method : str) (results : list result_record)
    (data out : gmap str jval) :
  format_loop repr method results data = Ok out ->
  ∃ ids, Forall2 (λ r id, query_id_of repr r = Ok id) results ids
         ∧ dom out = dom data ∪ list_to_set ids.
Proof.
  revert data. induction results as [|r results IH]; intros data H.
  - injection H as <-. exists []. split; [constructor|].
    simpl. by rewrite (right_id_L ∅ (∪)).
  - apply format_loop_cons in H as (id & v & Hid & Hv & H).
    apply IH in H as (ids & Hids & Hdom). exists (id :: ids).
    split; [by constructor|].
    rewrite Hdom, dom_insert_L, list_to_set_cons.
    rewrite (comm_L (∪) {[id]} (dom data)). by rewrite (assoc_L (∪)).
Qed.

(** Records with other identifiers leave the entry of [id] alone. *)
Lemma format_loop_other (method : str) (post : list result_record)
    (data out : gmap str jval) (id : str) :
  Forall (λ r', query_id_of repr r' ≠ Ok id) post ->
  format_loop repr method post data = Ok out ->
  out !! id = data !! id.
Proof.
  intros Hpost. revert data. induction Hpost as [|r post Hr _ IH];
    intros data H.
  - by injection H as <-.
  - apply format_loop_cons in H as (id' & v & Hid & Hv & H).
    rewrite (IH _ H), lookup_insert_ne; [done|]. congruence.
Qed.


Lemma prediction_absent (method : str) (r : result_record) :
  r !! method = None -> prediction method r = Ok (JStr no_answer).
Proof. intros H. unfold prediction. by rewrite H. Qed.

Lemma prediction_dict (method : str) (r : result_record)
    (d : gmap str jval) :
  r !! method = Some (JDict d) ->
  prediction method r
  = Ok (match d !! txt "response" with
        | Some v => or_no_answer v
        | None => JStr no_answer
        end).
Proof.
  intros H. unfold prediction. rewrite H. cbn [has_response response_item].
  unfold getitem. by destruct (d !! txt "response").
Qed.


Lemma prediction_readable (method : str) (r : result_record) :
  readable method r ->
  ∃ id v, query_id_of repr r = Ok id ∧ prediction method r = Ok v.
Proof.
  intros [[q Hq] Hm]. exists (py_str repr q). unfold query_id_of, getitem.
  rewrite Hq. destruct Hm as [Hm|[d Hm]].
  - eexists. split; [done|]. by apply prediction_absent.
  - eexists. split; [done|]. by apply prediction_dict.
Qed.

Lemma format_loop_returns (method : str) (results : list result_record)
    (data : gmap str jval) :
  Forall (readable method) results ->
  ∃ out, format_loop repr method results data = Ok out.
Proof.
  intros H. revert data. induction H as [|r results Hr _ IH]; intros data.
  - by exists data.
  - destruct (prediction_readable method r Hr) as (id & v & Hid & Hv).
    rewrite (format_loop_step _ _ _ _ id v) by done. apply IH.
Qed.

End FormatPredictions.

(** C6, as the code has it.  A record without the method key gets
    ["No Answer Present."] from the loop: the missing key raises
    nothing.  On a results list in which every record has a ['query_id']
    and holds nothing or a dict under the method name,
    [format_predictions] returns and writes a mapping whose keys are
    exactly the stringified query_ids of the records; for a record
    without the method key the loop stores ["No Answer Present."] under
    its id, and that is the final value when no later record has the
    same stringified id. *)
Theorem format_predictions_sentinel (repr : Compressor.jval -> str)
    (st : Evaluator.state) (results : list Compressor.result_record)
    (method output_file : str) :
  (∀ r : Compressor.result_record,
     r !! method = None ->
     Evaluator.prediction method r
     = Ok (Compressor.JStr (txt "No Answer Present.")))
  ∧ (Forall (readable method) results ->
     ∃ data ids,
       Evaluator.format_predictions repr st results method output_file
       = Ok (Evaluator.State
               (<[output_file := Evaluator.Predictions data]>
                  (Evaluator.files st))
               (Evaluator.runs st),
             output_file)
       ∧ Forall2 (λ r id, Evaluator.query_id_of repr r = Ok id) results ids
       ∧ dom data = list_to_set ids
       ∧ ∀ pre r post id,
           results = pre ++ r :: post ->
           r !! method = None ->
           Evaluator.query_id_of repr r = Ok id ->
           (∃ data',
              Evaluator.format_loop repr method (pre ++ [r]) ∅ = Ok data'
              ∧ data' !! id
                = Some (Compressor.JStr (txt "No Answer Present.")))
           ∧ (Forall (λ r', Evaluator.query_id_of repr r' ≠ Ok id) post ->
              data !! id
              = Some (Compressor.JStr (txt "No Answer Present.")))).
Proof.
  split; [intros r Hr; by apply prediction_absent|].
  intros Hok.
  destruct (format_loop_returns repr method results ∅ Hok) as [data Hdata].
  destruct (format_loop_dom repr _ _ _ _ Hdata) as (ids & Hids & Hdom).
  exists data, ids. split_and!.
  - unfold Evaluator.format_predictions. by rewrite Hdata.
  - done.
  - by rewrite Hdom, dom_empty_L, (left_id_L ∅ (∪)).
  - intros pre r post id -> Hr Hid.
    rewrite format_loop_app in Hdata.
    apply bind_ok in Hdata as (before & Hpre & Hdata).
    rewrite (format_loop_step repr _ _ _ _ id _ Hid
               (prediction_absent method r Hr)) in Hdata.
    split.
    + exists (<[id := Compressor.JStr Evaluator.no_answer]> before).
      rewrite format_loop_app, Hpre. split; [|apply lookup_insert_eq].
      cbn [mbind outcome_bind].
      by rewrite (format_loop_step repr _ _ _ _ id _ Hid
                    (prediction_absent method r Hr)).
    + intros Hpost.
      rewrite (format_loop_other repr _ _ _ _ _ Hpost Hdata).
      apply lookup_insert_eq.
Qed.

Lemma format_predictions_sentinel_witness :
  ∃ data,
    Evaluator.format_predictions demo_repr fresh [record_11; record_13]
      (txt "method1_rate") (txt "out/predictions.json")
    = Ok (Evaluator.State
            (<[txt "out/predictions.json" := Evaluator.Predictions data]> ∅)
            [],
          txt "out/predictions.json")
    ∧ data !! txt "11" = Some (Compressor.JStr (txt "No Answer Present.")).
Proof.
  assert (Hok : Forall (readable (txt "method1_rate"))
                       [record_11; record_13]).
  { apply Forall_cons_2; [|apply Forall_cons_2; [|apply Forall_nil_2]].
    - split; [eexists; reflexivity|left; reflexivity].
    - split; [eexists; reflexivity|right; eexists; reflexivity]. }
  destruct (proj2 (format_predictions_sentinel demo_repr fresh
                     [record_11; record_13] (txt "method1_rate")
                     (txt "out/predictions.json")) Hok)
    as (data & ids & Hrun & _ & _ & H).
  exists data. split; [exact Hrun|].
  destruct (H [] record_11 [record_13] (txt "11") eq_refl eq_refl eq_refl)
    as [_ Hfinal].
  apply Hfinal. apply Forall_cons_2; [discriminate|apply Forall_nil_2].
Defined.

(** C6, the claim as stated fails: [method in result] is a key test on
    the whole record, so with the method name ['query_id'] the record
    that [process_example] builds makes [format_predictions] raise
    [TypeError]; and a record without ['query_id'] makes it raise
    [KeyError], whether or not it has the method key. *)
Lemma format_predictions_raises_counterexample :
  (∃ r, Compressor.process_example (demo_self 2 1 echo_library)
          (demo_example 11 "description" "a glider flight") = Ok r
        ∧ r !! txt "query_id" = Some (Compressor.JInt 11)
        ∧ ∃ message,
            Evaluator.format_predictions demo_repr fresh [r] (txt "query_id")
              (txt "out/predictions.json")
            = Raise (TypeError message))
  ∧ record_anonymous !! txt "method1_rate" = None
  ∧ Evaluator.format_predictions demo_repr fresh [record_anonymous]
      (txt "method1_rate") (txt "out/predictions.json")
    = Raise (KeyError (txt "query_id"))
  ∧ ¬ (∀ results method,
         ∃ written,
           Evaluator.format_predictions demo_repr fresh results method
             (txt "out/predictions.json") = Ok written).
Proof.
  split_and!.
  - eexists. split_and!; [reflexivity|reflexivity|].
    eexists. reflexivity.
  - reflexivity.
  - reflexivity.
  - intros H. destruct (H [record_11] (txt "query_id")) as [written Hw].
    discriminate Hw.
Qed.




Section Scrape.
Import Evaluator.

Lemma scrape_line_cases (metrics : gmap str Py.pyfloat) (line : str) :
  (is_metric_line line = true
   ∧ ∃ key value, parse_metric line = Some (key, value)
                  ∧ scrape_line metrics line = <[key := value]> metrics)
  ∨ ((is_metric_line line = false ∨ parse_metric line = None)
     ∧ scrape_line metrics line = metrics).
Proof.
  unfold scrape_line. destruct (is_metric_line line); [|right; auto].
  destruct (parse_metric line) as [[key value]|]; [|right; auto].
  left. split; [done|]. by exists key, value.
Qed.

(** An entry of the scraped metrics comes from a metric line. *)
Lemma scrape_fold_source (lines : list str) (acc : gmap str Py.pyfloat)
    (key : str) (value : Py.pyfloat) :
  foldl scrape_line acc lines !! key = Some value ->
  acc !! key = Some value
  ∨ ∃ line, line ∈ lines ∧ is_metric_line line = true
            ∧ parse_metric line = Some (key, value).
Proof.
  revert acc. induction lines as [|line lines IH]; intros acc; simpl.
  - by left.
  - intros [H|(l & Hl & Hm & Hp)]%IH.
    + destruct (scrape_line_cases acc line)
        as [(Hm & k & v & Hp & Heq)|[_ Heq]]; rewrite Heq in H.
      * rewrite lookup_insert in H. case_decide as Hk; [|by left].
        injection H as <-. subst k. right. exists line.
        split; [apply list_elem_of_here|done].
      * by left.
    + right. exists l. split; [by apply list_elem_of_further|done].
Qed.

End Scrape.

(** C7: the scraping loop maps the line ["ROUGE-L: 0.4523"] to the key
    ["rouge_l"] with the value that [float("0.4523")] denotes, 4523/10000,
    and leaves the metrics as they are on ["Notes: see above"].  A line
    changes the metrics only if it contains [":"] and one of the keywords
    rouge, bleu, f1, exact; a line whose text after the first colon is
    not a float is dropped; and every entry of the result comes from a
    line of the output that passed both tests. *)
Theorem scrape_metrics_lines :
  Evaluator.scrape_metrics (txt "ROUGE-L: 0.4523")
  = {[ txt "rouge_l" := Py.FDec false 4523 (-4) ]}
  ∧ (∃ q, float_value (Py.FDec false 4523 (-4)) = Some q
          ∧ (q == 4523 # 10000)%Q)
  ∧ (∀ metrics, Evaluator.scrape_line metrics (txt "Notes: see above")
                = metrics)
  ∧ (∀ metrics line,
       Evaluator.scrape_line metrics line ≠ metrics ->
       Py.contains (txt ":") line = true
       ∧ ∃ keyword, keyword ∈ [txt "rouge"; txt "bleu"; txt "f1"; txt "exact"]
                    ∧ Py.contains keyword (Py.lower line) = true)
  ∧ (∀ metrics line rhs,
       Py.split_on ":"%char line !! 1%nat = Some rhs ->
       Py.float_of_str (Py.strip rhs) = None ->
       Evaluator.scrape_line metrics line = metrics)
  ∧ (∀ output key value,
       Evaluator.scrape_metrics output !! key = Some value ->
       ∃ line, line ∈ Py.split_on newline output
               ∧ Evaluator.is_metric_line line = true
               ∧ Evaluator.parse_metric line = Some (key, value)).
Proof.
  split_and!.
  - reflexivity.
  - eexists. split; [reflexivity|reflexivity].
  - intros metrics. reflexivity.
  - intros metrics line Hne.
    destruct (scrape_line_cases metrics line)
      as [(Hm & _)|[_ Heq]]; [|done].
    unfold Evaluator.is_metric_line in Hm.
    apply andb_true_iff in Hm as [Hc Hk]. split; [done|].
    apply existsb_exists in Hk as (kw & Hin & Hkw).
    exists kw. split; [|done]. by apply list_elem_of_In.
  - intros metrics line rhs Hrhs Hfloat.
    destruct (scrape_line_cases metrics line)
      as [(_ & k & v & Hp & _)|[_ Heq]]; [|done].
    unfold Evaluator.parse_metric in Hp. rewrite Hrhs in Hp.
    destruct (Py.split_on ":" line !! 0%nat); simpl in Hp; [|done].
    by rewrite Hfloat in Hp.
  - intros output key value H.
    destruct (scrape_fold_source _ _ _ _ H) as [H0|H1]; [|done].
    by rewrite lookup_empty in H0.
Qed.

Lemma scrape_metrics_lines_witness :
  Evaluator.scrape_line {[ txt "bleu_1" := Py.FDec false 1 (-1) ]}
                        (txt "F1: n/a")
  = {[ txt "bleu_1" := Py.FDec false 1 (-1) ]}
  ∧ ∃ line, line ∈ Py.split_on newline scorer_stdout
            ∧ Evaluator.is_metric_line line = true
            ∧ Evaluator.parse_metric line
              = Some (txt "rouge_l", Py.FDec false 4523 (-4)).
Proof.
  destruct scrape_metrics_lines as (_ & _ & _ & _ & H5 & H6). split.
  - apply (H5 _ (txt "F1: n/a") (txt " n/a")); reflexivity.
  - apply (H6 scorer_stdout). reflexivity.
Defined.

Section EvaluateAll.
Import Compressor Evaluator.
Variable repr : jval -> str.
Variable self : Evaluator.t.
Variable results : list result_record.
Variable output_dir : str.

(** A relative name is appended to a prefix that depends on the
    directory only. *)
Lemma path_join_prefix :
  ∃ pre, ∀ name, Py.starts_with (txt "/") name = false ->
                 Py.path_join output_dir name = pre ++ name.
Proof.
  unfold Py.path_join. destruct (last output_dir) as [c|].
  - destruct (decide (c = "/"%char)).
    + exists output_dir. by intros name ->.
    + exists (output_dir ++ txt "/"). intros name ->.
      by rewrite <- app_assoc.
  - exists []. by intros name ->.
Qed.

Lemma predictions_path_not_references (method : str) :
  predictions_path output_dir method
  ≠ Py.path_join output_dir (txt "references.json").
Proof.
  destruct path_join_prefix as (pre & Hpre). unfold predictions_path.
  rewrite !Hpre by done. intros H%app_inv_head. discriminate H.
Qed.

Lemma predictions_path_inj (m m' : str) :
  predictions_path output_dir m = predictions_path output_dir m' -> m = m'.
Proof.
  destruct path_join_prefix as (pre & Hpre).
  unfold predictions_path. rewrite !Hpre by done.
  intros H%app_inv_head%app_inv_head. by apply app_inv_tail in H.
Qed.

Lemma predictions_path_not_results (method : str) :
  predictions_path output_dir method
  ≠ Py.path_join output_dir (txt "msmarco_results.json").
Proof.
  destruct path_join_prefix as (pre & Hpre).
  unfold predictions_path. rewrite !Hpre by done.
  intros H%app_inv_head. discriminate H.
Qed.

Lemma references_not_results :
  Py.path_join output_dir (txt "references.json")
  ≠ Py.path_join output_dir (txt "msmarco_results.json").
Proof.
  destruct path_join_prefix as (pre & Hpre).
  rewrite !Hpre by done. intros H%app_inv_head. discriminate H.
Qed.

(** One iteration of the loop over the method names. *)
Lemma evaluate_loop_cons (references_file method : str) (ms : list str)
    (st : state) (acc : gmap str eval_result) (data : gmap str jval) :
  format_loop repr method results ∅ = Ok data ->
  let written :=
    State (<[predictions_path output_dir method := Predictions data]>
             (files st)) (runs st) in
  evaluate_loop repr self results output_dir references_file (method :: ms)
                st acc
  = evaluate_loop repr self results output_dir references_file ms
      (run_evaluation self written references_file
                      (predictions_path output_dir method)).2
      (<[method := (run_evaluation self written references_file
                      (predictions_path output_dir method)).1]> acc).
Proof.
  intros Hdata. cbn zeta. cbn [evaluate_loop]. unfold format_predictions.
  rewrite Hdata. cbn [mbind outcome_bind].
  by destruct (run_evaluation _ _ _ _).
Qed.

Lemma evaluate_loop_inv (references_file method : str) (ms : list str)
    (st : state) (acc : gmap str eval_result)
    (out : gmap str eval_result * state) :
  evaluate_loop repr self results output_dir references_file (method :: ms)
                st acc = Ok out ->
  ∃ data, format_loop repr method results ∅ = Ok data.
Proof.
  cbn [evaluate_loop]. unfold format_predictions.
  destruct (format_loop repr method results ∅) as [data|]; [|done].
  by exists data.
Qed.

(** What [run_evaluation] returns and does to the state. *)
Lemma run_evaluation_spec (st : state) (references_file predictions_file : str) :
  run_evaluation self st references_file predictions_file
  = (match subprocess_run self (files st)
             [executable self; eval_script self; references_file;
              predictions_file] with
     | Exited0 stdout =>
         EvalOk (scrape_metrics (Py.strip stdout)) (Py.strip stdout)
     | CalledProcessError message stderr => EvalFailed message stderr
     end,
     State (files st)
           (runs st ++ [[executable self; eval_script self; references_file;
                         predictions_file]])).
Proof. unfold run_evaluation. by destruct (subprocess_run _ _ _). Qed.

Let references_file := Py.path_join output_dir (txt "references.json").
Let command (method : str) : list str :=
  [executable self; eval_script self; references_file;
   predictions_path output_dir method].

(** The loop over the method names, from any state whose files hold the
    references: it returns when the predictions of each method can be
    formatted, whatever the scorer does. *)
Lemma evaluate_loop_spec (refs : file) (ms : list str)
    (st : state) (acc : gmap str eval_result) :
  files st !! references_file = Some refs ->
  (∀ m, m ∈ ms -> ∃ data, format_loop repr m results ∅ = Ok data) ->
  ∃ all st',
    evaluate_loop repr self results output_dir references_file ms st acc
    = Ok (all, st')
    ∧ files st' !! references_file = Some refs
    ∧ runs st' = runs st ++ (command <$> ms)
    ∧ dom all = dom acc ∪ list_to_set ms
    ∧ (∀ m, m ∉ ms -> all !! m = acc !! m)
    ∧ ∀ m, m ∈ ms ->
        ∃ fs_m data,
          fs_m !! references_file = Some refs
          ∧ format_loop repr m results ∅ = Ok data
          ∧ fs_m !! predictions_path output_dir m = Some (Predictions data)
          ∧ all !! m
            = Some (match subprocess_run self fs_m (command m) with
                    | Exited0 stdout =>
                        EvalOk (scrape_metrics (Py.strip stdout))
                               (Py.strip stdout)
                    | CalledProcessError message stderr =>
                        EvalFailed message stderr
                    end).
Proof.
  revert st acc. induction ms as [|m ms IH]; intros st acc Hrefs Hfmt.
  - exists acc, st. split_and!; [done|done| | |done|].
    + simpl. by rewrite app_nil_r.
    + simpl. by rewrite (right_id_L ∅ (∪)).
    + by intros m ?%elem_of_nil.
  - destruct (Hfmt m) as [data Hdata]; [apply list_elem_of_here|].
    rewrite (evaluate_loop_cons _ _ _ _ _ data Hdata). cbn zeta.
    rewrite run_evaluation_spec. cbn [fst snd files runs].
    set (fs_m := <[predictions_path output_dir m := Predictions data]>
                   (files st)).
    fold (command m).
    set (er := match subprocess_run self fs_m (command m) with
               | Exited0 stdout =>
                   EvalOk (scrape_metrics (Py.strip stdout)) (Py.strip stdout)
               | CalledProcessError message stderr =>
                   EvalFailed message stderr
               end).
    assert (Hrefs' : fs_m !! references_file = Some refs).
    { subst fs_m. rewrite lookup_insert_ne; [done|].
      apply predictions_path_not_references. }
    destruct (IH (State fs_m (runs st ++ [command m])) (<[m := er]> acc))
      as (all & st' & Hrun & Hr & Hruns & Hdom & Hother & Hall).
    { done. }
    { intros m' Hm'. apply Hfmt. by apply list_elem_of_further. }
    exists all, st'. split_and!.
    + done.
    + done.
    + rewrite Hruns. cbn [runs fmap list_fmap]. by rewrite <- app_assoc.
    + rewrite Hdom, dom_insert_L, list_to_set_cons.
      rewrite (comm_L (∪) {[m]} (dom acc)). by rewrite (assoc_L (∪)).
    + intros m' [Hne Hm']%not_elem_of_cons.
      by rewrite Hother, lookup_insert_ne.
    + intros m' Hm'. destruct (decide (m' ∈ ms)) as [Hin|Hout].
      * by apply Hall.
      * apply elem_of_cons in Hm' as [->|Hm']; [|done].
        exists fs_m, data. split_and!; [done|done|apply lookup_insert_eq|].
        by rewrite Hother, lookup_insert_eq.
Qed.

(** The files after the loop over the method names. *)
Lemma evaluate_loop_files (ms : list str) (st st' : state)
    (acc all : gmap str eval_result) :
  evaluate_loop repr self results output_dir references_file ms st acc
  = Ok (all, st') ->
  (∀ m, m ∈ ms ->
     ∃ data, format_loop repr m results ∅ = Ok data
             ∧ files st' !! predictions_path output_dir m
               = Some (Predictions data))
  ∧ (∀ p, (∀ m, m ∈ ms -> p ≠ predictions_path output_dir m) ->
          files st' !! p = files st !! p).
Proof.
  revert st acc. induction ms as [|m ms IH]; intros st acc Hrun.
  - injection Hrun as <- <-. split; [by intros m ?%elem_of_nil|done].
  - destruct (evaluate_loop_inv _ _ _ _ _ _ Hrun) as [data Hdata].
    rewrite (evaluate_loop_cons _ _ _ _ _ data Hdata) in Hrun.
    cbn zeta in Hrun. rewrite run_evaluation_spec in Hrun.
    cbn [fst snd files runs] in Hrun.
    apply IH in Hrun as [Hin Hout]. cbn [files] in Hout. split.
    + intros m' Hm'. destruct (decide (m' ∈ ms)) as [Hin'|Hout'].
      * by apply Hin.
      * apply elem_of_cons in Hm' as [->|Hm']; [|done].
        exists data. split; [done|]. rewrite Hout.
        -- apply lookup_insert_eq.
        -- intros m' Hm' Heq%predictions_path_inj. by subst.
    + intros p Hp. rewrite Hout.
      * rewrite lookup_insert_ne; [done|].
        intros Heq. by apply (Hp m); [apply list_elem_of_here|].
      * intros m' Hm'. apply Hp. by apply list_elem_of_further.
Qed.

End EvaluateAll.

(** C8: when the references and the predictions of each method can be
    formatted, [evaluate_all_methods] returns, whatever the scorer does.
    It hands to [subprocess.run] one command for each of ['original'],
    ['method1_rate'], ['method2_target_tokens'] and
    ['method3_target_contexts'], in this order and each on the
    predictions file of its method; the mapping it returns and saves has
    exactly these four names as keys; and the entry of a method is the
    failure ([success] false, with the error and stderr) when the scorer
    exits with a nonzero status on that command, and the metrics scraped
    from its output otherwise.  So a failure on one method changes
    neither the commands run for the others nor their entries. *)
Theorem evaluate_all_methods_independent (repr : Compressor.jval -> str)
    (self : Evaluator.t) (st : Evaluator.state)
    (results : list Compressor.result_record) (output_dir : str) :
  let references_file := Py.path_join output_dir (txt "references.json") in
  let command method :=
    [Evaluator.executable self; Evaluator.eval_script self; references_file;
     Evaluator.predictions_path output_dir method] in
  let names := [txt "original"; txt "method1_rate";
                txt "method2_target_tokens"; txt "method3_target_contexts"] in
  (∃ references, Evaluator.references_loop repr results ∅ = Ok references) ->
  (∀ method, method ∈ names ->
     ∃ data, Evaluator.format_loop repr method results ∅ = Ok data) ->
  ∃ all_results st',
    Evaluator.evaluate_all_methods repr self st results output_dir
    = Ok (all_results, st')
    ∧ Evaluator.runs st' = Evaluator.runs st ++ (command <$> names)
    ∧ dom all_results = list_to_set names
    ∧ Evaluator.files st'
        !! Py.path_join output_dir (txt "msmarco_results.json")
      = Some (Evaluator.Results all_results)
    ∧ ∀ method,
        method ∈ names ->
        ∃ fs_m data,
          is_Some (fs_m !! references_file)
          ∧ Evaluator.format_loop repr method results ∅ = Ok data
          ∧ fs_m !! Evaluator.predictions_path output_dir method
            = Some (Evaluator.Predictions data)
          ∧ all_results !! method
            = Some (match Evaluator.subprocess_run self fs_m
                            (command method) with
                    | Evaluator.Exited0 stdout =>
                        Evaluator.EvalOk
                          (Evaluator.scrape_metrics (Py.strip stdout))
                          (Py.strip stdout)
                    | Evaluator.CalledProcessError message stderr =>
                        Evaluator.EvalFailed message stderr
                    end)
          ∧ (Evaluator.success <$> all_results !! method
             = Some (match Evaluator.subprocess_run self fs_m
                             (command method) with
                     | Evaluator.Exited0 _ => true
                     | Evaluator.CalledProcessError _ _ => false
                     end)).
Proof.
  cbn zeta. intros [refs Hrefs] Hfmt.
  unfold Evaluator.evaluate_all_methods, Evaluator.format_references.
  rewrite Hrefs. cbn [mbind outcome_bind].
  set (references_file := Py.path_join output_dir (txt "references.json")).
  destruct (evaluate_loop_spec repr self results output_dir
              (Evaluator.References refs) Evaluator.method_names
              (Evaluator.State
                 (<[references_file := Evaluator.References refs]>
                    (Evaluator.files st))
                 (Evaluator.runs st)) ∅)
    as (all & st' & Hrun & _ & Hruns & Hdom & _ & Hall).
  { apply lookup_insert_eq. }
  { exact Hfmt. }
  fold references_file in Hrun. rewrite Hrun. cbn [mbind outcome_bind].
  eexists _, _. split; [reflexivity|]. cbn [Evaluator.runs Evaluator.files].
  split_and!.
  - exact Hruns.
  - by rewrite Hdom, dom_empty_L, (left_id_L ∅ (∪)).
  - apply lookup_insert_eq.
  - intros method Hm.
    destruct (Hall method Hm) as (fs_m & data & H1 & H2 & H3 & H4).
    exists fs_m, data. split_and!; [by eexists|done|done|done|].
    rewrite H4. cbn. by destruct (Evaluator.subprocess_run _ _ _).
Qed.

Lemma evaluate_all_methods_independent_witness :
  ∃ all_results st',
    Evaluator.evaluate_all_methods demo_repr demo_evaluator fresh
      [record_11; record_13] (txt "out") = Ok (all_results, st')
    ∧ length (Evaluator.runs st') = 4%nat
    ∧ dom all_results
      = list_to_set [txt "original"; txt "method1_rate";
                     txt "method2_target_tokens";
                     txt "method3_target_contexts"].
Proof.
  assert (Hrefs : ∃ references,
            Evaluator.references_loop demo_repr [record_11; record_13] ∅
            = Ok references).
  { eexists. reflexivity. }
  assert (Hfmt : ∀ method,
            method ∈ [txt "original"; txt "method1_rate";
                      txt "method2_target_tokens";
                      txt "method3_target_contexts"] ->
            ∃ data,
              Evaluator.format_loop demo_repr method [record_11; record_13] ∅
              = Ok data).
  { intros method Hm.
    repeat (apply elem_of_cons in Hm as [->|Hm]);
      [eexists; reflexivity..|by apply elem_of_nil in Hm]. }
  destruct (evaluate_all_methods_independent demo_repr demo_evaluator fresh
              [record_11; record_13] (txt "out") Hrefs Hfmt)
    as (all & st' & Hrun & Hruns & Hdom & _).
  exists all, st'. split_and!; [exact Hrun| |exact Hdom].
  rewrite Hruns. reflexivity.
Defined.

(** A run of [run_evaluation] on a scorer that prints one metric line and
    one note. *)
Example run_evaluation_demo :
  Evaluator.run_evaluation demo_evaluator fresh (txt "out/references.json")
                           (txt "out/predictions_original.json")
  = (Evaluator.EvalOk {[ txt "rouge_l" := Py.FDec false 4523 (-4) ]}
       (txt "ROUGE-L: 0.4523" ++ [newline] ++ txt "Notes: see above"),
     Evaluator.State ∅
       [[txt "/usr/bin/python3"; txt "evaluation/ms_marco_eval.py";
         txt "out/references.json"; txt "out/predictions_original.json"]]).
Proof. reflexivity. Qed.

(** The run of the witness: the scorer fails on ['method1_rate'] and the
    three other methods are scored all the same. *)
Example evaluate_all_methods_demo :
  ∃ all_results st',
    Evaluator.evaluate_all_methods demo_repr demo_evaluator fresh
      [record_11; record_13] (txt "out") = Ok (all_results, st')
    ∧ Evaluator.success <$> all_results
      = {[ txt "original" := true; txt "method1_rate" := false;
           txt "method2_target_tokens" := true;
           txt "method3_target_contexts" := true ]}.
Proof. eexists _, _. split; reflexivity. Qed.

(* ===================================================================== *)
(** * Further properties of ContextTracker                                *)
(* ===================================================================== *)

(** X1: the spans tile the combined text.  The first span starts at 0,
    the last one ends at the end of the text, and between the end of a
    span and the start of the next lies exactly the joint
    [" <separator> "]. *)
Theorem prepare_spans_tile (separator : str) (contexts : list str) :
  let combined :=
    (ContextTracker.prepare_contexts_with_separators separator contexts).1 in
  let positions :=
    (ContextTracker.prepare_contexts_with_separators separator contexts).2 in
  (∀ a b, positions !! 0%Z = Some (a, b) -> a = 0%Z)
  ∧ (∀ a b, positions !! (Py.len contexts - 1)%Z = Some (a, b) ->
            b = Py.len combined)
  ∧ (∀ i a b a' b',
       positions !! Z.of_nat i = Some (a, b) ->
       positions !! Z.of_nat (S i) = Some (a', b') ->
       a' = (b + Py.len separator + 2)%Z
       ∧ Py.slice combined b a' = txt " " ++ separator ++ txt " ").
Proof.
  unfold ContextTracker.prepare_contexts_with_separators. cbn zeta.
  destruct (prepare_loop_spec separator contexts) as (Hc & _ & Hk).
  cbn zeta in Hc, Hk. cbn [fst snd]. rewrite Hc.
  set (J := ContextTracker.joint separator) in *.
  split_and!.
  - intros a b. rewrite Hk. unfold span_of. simpl.
    change (Z.to_nat 0) with 0%nat.
    destruct (contexts !! 0%nat); simpl; [|done]. intros [= <- _].
    reflexivity.
  - intros a b. rewrite Hk. unfold span_of.
    destruct (Z.ltb_spec (Py.len contexts - 1) 0); [done|].
    destruct (contexts !! _) as [c|] eqn:Hi; simpl; [|done].
    intros [= <- <-]. rewrite (span_stop_eq separator contexts _ c Hi).
    fold J. rewrite firstn_all2; [done|]. unfold Py.len in *. lia.
  - intros i a b a' b'. rewrite !Hk. unfold span_of.
    destruct (Z.ltb_spec (Z.of_nat i) 0); [lia|].
    destruct (Z.ltb_spec (Z.of_nat (S i)) 0); [lia|].
    rewrite !Nat2Z.id.
    destruct (contexts !! i) as [c|] eqn:Hi; simpl; [|done].
    destruct (contexts !! S i) as [c'|] eqn:Hi'; simpl; [|done].
    intros [= <- <-] [= <- <-].
    rewrite (span_stop_eq separator contexts i c Hi). fold J.
    assert (HJ : Py.len J = (Py.len separator + 2)%Z).
    { unfold J, ContextTracker.joint. rewrite !len_app.
      unfold Py.len at 1 3. simpl. lia. }
    split; [unfold span_start; fold J; lia|].
    unfold span_start. fold J.
    rewrite <- (take_drop (S i) contexts) at 1.
    rewrite join_app.
    assert (Hlen : (S i < length contexts)%nat) by (by eapply lookup_lt_Some).
    destruct (take (S i) contexts) as [|x xs] eqn:Ht.
    { apply (f_equal length) in Ht. rewrite length_take in Ht.
      cbn [length] in Ht. lia. }
    destruct (drop (S i) contexts) as [|y ys] eqn:Hd.
    { apply (f_equal length) in Hd. rewrite length_drop in Hd.
      cbn [length] in Hd. lia. }
    pose proof (slice_middle (Py.join J (x :: xs)) J (Py.join J (y :: ys)))
      as Hs.
    exact Hs.
Qed.

Lemma prepare_spans_tile_witness :
  Py.slice
    (ContextTracker.prepare_contexts_with_separators sep_tag two_passages).1
    5 12 = txt " <SEP> ".
Proof.
  pose proof (prepare_spans_tile sep_tag two_passages) as H.
  cbn zeta in H. destruct H as (_ & _ & H).
  apply (H 0%nat 0%Z 5%Z 12%Z 14%Z); reflexivity.
Defined.

(** X2: the statistics have exactly the keys of the span mapping; each
    [original_length] is the number of words of the slice and
    [retained_count] lies between 0 and [original_length]. *)
Theorem analyze_counts (separator original compressed : str)
    (positions : gmap Z (Z * Z)) :
  let stats :=
    ContextTracker.analyze_context_retention separator original compressed
                                             positions in
  dom stats = dom positions
  ∧ ∀ k st, stats !! k = Some st ->
      ∃ start stop,
        positions !! k = Some (start, stop)
        ∧ ContextTracker.original_length st
          = Py.len (Py.split (Py.slice original start stop))
        ∧ (0 <= ContextTracker.retained_count st
           <= ContextTracker.original_length st)%Z.
Proof.
  cbn zeta. split.
  - apply set_eq. intros k. rewrite !elem_of_dom, analyze_lookup.
    by rewrite fmap_is_Some.
  - intros k st. rewrite analyze_lookup.
    destruct (positions !! k) as [[start stop]|]; [|done].
    intros [= <-]. exists start, stop. split_and!; [done..| |];
      apply count_retained_bounds.
Qed.

Lemma analyze_counts_witness :
  ∃ start stop,
    ({[ 0%Z := (0, 5)%Z ]} : gmap Z (Z * Z)) !! 0%Z = Some (start, stop)
    ∧ 2%Z = Py.len (Py.split (Py.slice (txt "ab cd <SEP> Ef") start stop))
    ∧ (0 <= 1 <= 2)%Z.
Proof.
  pose proof (analyze_counts sep_tag (txt "ab cd <SEP> Ef")
                (txt "cd <SEP> ef") {[ 0%Z := (0, 5)%Z ]}) as H.
  cbn zeta in H. destruct H as [_ H].
  apply (H 0%Z (ContextTracker.ContextStat 2 1 (1 # 2))). reflexivity.
Defined.

Lemma slice_empty {A} (s : list A) (start stop : Z) :
  (Py.len s <= start ∨ 0 <= stop <= start)%Z -> Py.slice s start stop = [].
Proof.
  unfold Py.slice, Py.clamp_index, Py.len. intros H.
  repeat match goal with
         | |- context [(?a <? ?b)%Z] => destruct (Z.ltb_spec a b)
         end; try lia;
    match goal with
    | |- take ?n (drop ?m _) = _ =>
        destruct (decide (n = 0%nat)) as [->|];
        [done|rewrite drop_ge by lia; apply take_nil]
    end.
Qed.

(** X3: a span that starts at or after the end of the text, or that ends
    at or before its start, gives no exception but an entry with no
    words, nothing retained and ratio 0. *)
Theorem analyze_span_outside (separator original compressed : str)
    (positions : gmap Z (Z * Z)) (k start stop : Z) :
  positions !! k = Some (start, stop) ->
  (Py.len original <= start ∨ 0 <= stop <= start)%Z ->
  ContextTracker.analyze_context_retention separator original compressed
    positions !! k
  = Some (ContextTracker.ContextStat 0 0 0).
Proof.
  intros Hk Hout. rewrite analyze_lookup, Hk. simpl.
  by rewrite (slice_empty original start stop Hout).
Qed.

Lemma analyze_span_outside_witness :
  ContextTracker.analyze_context_retention sep_tag (txt "hello world")
    (txt "hello") {[ 7%Z := (40, 50)%Z ]} !! 7%Z
  = Some (ContextTracker.ContextStat 0 0 0).
Proof.
  apply (analyze_span_outside sep_tag (txt "hello world") (txt "hello")
           {[ 7%Z := (40, 50)%Z ]} 7%Z 40%Z 50%Z).
  - reflexivity.
  - left. unfold Py.len. simpl. lia.
Defined.

(** X4: with an empty compressed text every passage has
    [retained_count] 0 and ratio 0, whatever the separator (also the
    empty one, which [replace] turns into a single space). *)
Theorem analyze_empty_compressed (separator original : str)
    (positions : gmap Z (Z * Z)) (k : Z) (st : ContextTracker.context_stat) :
  ContextTracker.analyze_context_retention separator original [] positions
    !! k = Some st ->
  ContextTracker.retained_count st = 0%Z
  ∧ (ContextTracker.retention_ratio st == 0)%Q.
Proof.
  rewrite analyze_lookup.
  assert (Hw : Py.split (Py.strip (Py.replace separator (txt " ") [])) = []).
  { by destruct separator. }
  rewrite Hw. destruct (positions !! k) as [[start stop]|]; [|done].
  intros [= <-]. simpl.
  rewrite count_retained_none; [split; [done|apply ratio_zero]|].
  intros w _. simpl. apply not_elem_of_nil.
Qed.

Lemma analyze_empty_compressed_witness :
  ContextTracker.retained_count (ContextTracker.ContextStat 1 0 0) = 0%Z
  ∧ (ContextTracker.retention_ratio (ContextTracker.ContextStat 1 0 0) == 0)%Q.
Proof.
  apply (analyze_empty_compressed sep_tag (txt "hello world")
           {[ 0%Z := (0, 5)%Z ]} 0%Z (ContextTracker.ContextStat 1 0 0)).
  reflexivity.
Defined.


(* ===================================================================== *)
(** * Further properties of LLMLingua2Compressor                          *)
(* ===================================================================== *)

(** X5: [load_dataset] returns at most [max_examples] examples (none
    when [max_examples] is 0 or negative), in the order of the split,
    and each of them has the configured query type and a non-empty first
    answer that is not, lower-cased and stripped, one of the three
    no-answer markers. *)
Theorem load_dataset_sound (self : Compressor.t) :
  let cfg := Compressor.dataset_cfg (Compressor.config self) in
  let loaded := Compressor.load_dataset self in
  (Py.len loaded <= Z.max (Compressor.max_examples cfg) 0)%Z
  ∧ loaded `sublist_of`
      Compressor.ms_marco_validation self (Compressor.version cfg)
  ∧ Forall (λ ex,
              Compressor.ex_query_type ex = Compressor.cfg_query_type cfg
              ∧ ∃ answer rest,
                  Compressor.ex_answers ex = answer :: rest
                  ∧ answer ≠ []
                  ∧ Py.strip (Py.lower answer)
                    ∉ [txt "no answer"; txt "no answer present";
                       txt "no answer present."])
           loaded.
Proof.
  cbn zeta. unfold Compressor.load_dataset.
  rewrite load_loop_spec; [|unfold Py.len; simpl; lia|done].
  cbn [app]. split_and!.
  - unfold Py.len. rewrite length_take. lia.
  - etrans; [apply sublist_take|]. etrans; [apply sublist_drop|].
    apply sublist_filter.
  - apply Forall_take, Forall_drop, Forall_forall.
    intros ex [Hm _]%list_elem_of_filter. unfold matching in Hm.
    apply andb_true_iff in Hm as [Hq Hm].
    apply bool_decide_eq_true in Hq. split; [done|].
    destruct (Compressor.ex_answers ex) as [|[|c answer] rest]; [done..|].
    exists (c :: answer), rest. split_and!; [done..|].
    apply negb_true_iff, bool_decide_eq_false in Hm. exact Hm.
Qed.

Section CompressMore.
Import Compressor.

Lemma analysis_keys (separator : str) (contexts : list str)
    (compressed : str) (k : Z) :
  let prepared :=
    ContextTracker.prepare_contexts_with_separators separator contexts in
  is_Some (ContextTracker.analyze_context_retention separator prepared.1
             compressed prepared.2 !! k)
  <-> (0 <= k < Py.len contexts)%Z.
Proof.
  cbn zeta. unfold ContextTracker.prepare_contexts_with_separators.
  destruct (prepare_loop_spec separator contexts) as (_ & _ & Hk).
  cbn zeta in Hk. cbn [fst snd].
  rewrite analyze_lookup, fmap_is_Some, Hk. unfold span_of, Py.len.
  destruct (Z.ltb_spec k 0).
  - split; [by intros []|lia].
  - rewrite fmap_is_Some, lookup_lt_is_Some. lia.
Qed.

End CompressMore.

(** X6: when the library returns a dict whose ['compressed_prompt'] is a
    string and that has the keys ['rate'], ['ratio'], ['origin_tokens']
    and ['compressed_tokens'], the result carries these five values, has
    no ['error'], and its ['context_analysis'] has an entry for exactly
    the passage indices [0..N-1]. *)
Theorem compress_with_method_success (self : Compressor.t)
    (contexts : list str) (query : str) (method_config : gmap str pyval)
    (d : gmap str pyval) (prompt : str) (rate ratio origin compressed : pyval) :
  let separator := Compressor.context_separator (Compressor.config self) in
  let prepared :=
    ContextTracker.prepare_contexts_with_separators separator contexts in
  let r := Compressor.compress_with_method self contexts query
                                           method_config in
  Compressor.call_library self contexts query method_config prepared.1
    [separator; [newline]; txt "."; txt "?"] = Ok (Some d) ->
  d !! txt "compressed_prompt" = Some (VStr prompt) ->
  d !! txt "rate" = Some rate ->
  d !! txt "ratio" = Some ratio ->
  d !! txt "origin_tokens" = Some origin ->
  d !! txt "compressed_tokens" = Some compressed ->
  Compressor.compressed_prompt r = prompt
  ∧ Compressor.compression_rate r = rate
  ∧ Compressor.compression_ratio r = ratio
  ∧ Compressor.original_tokens r = origin
  ∧ Compressor.compressed_tokens r = compressed
  ∧ Compressor.error r = None
  ∧ ∀ k, is_Some (Compressor.context_analysis r !! k)
         <-> (0 <= k < Py.len contexts)%Z.
Proof.
  cbn zeta. intros Hcall Hp Hrate Hratio Horigin Hcompressed.
  rewrite compress_with_method_unfold. cbn zeta.
  unfold Compressor.compress_try, getitem. rewrite Hcall. cbn -[txt].
  rewrite Hp. cbn -[txt]. rewrite Hrate. cbn -[txt].
  rewrite Hratio. cbn -[txt]. rewrite Horigin. cbn -[txt].
  rewrite Hcompressed. cbn -[txt]. split_and!; [done..|].
  intros k. apply analysis_keys.
Qed.

Lemma compress_with_method_success_witness :
  Compressor.compressed_prompt
    (Compressor.compress_with_method (demo_self 2 1 echo_library)
       two_passages (txt "what is soar") {[ txt "rate" := VNum (1 # 2) ]})
  = txt "ab cd <SEP> Ef".
Proof.
  pose proof (compress_with_method_success (demo_self 2 1 echo_library)
                two_passages (txt "what is soar")
                {[ txt "rate" := VNum (1 # 2) ]}
                {[ txt "compressed_prompt" := VStr (txt "ab cd <SEP> Ef");
                   txt "rate" := VStr (txt "100.0%");
                   txt "ratio" := VStr (txt "1.0x");
                   txt "origin_tokens" := VInt 4;
                   txt "compressed_tokens" := VInt 4 ]}
                (txt "ab cd <SEP> Ef") (VStr (txt "100.0%"))
                (VStr (txt "1.0x")) (VInt 4) (VInt 4)) as H.
  cbn zeta in H. apply H; reflexivity.
Defined.

(** X7: when the dict that the library returns lacks one of the five
    keys, or its ['compressed_prompt'] is not a string, the [KeyError]
    or [AttributeError] is caught like a failure of the library: the
    result is the fallback dict with the uncompressed text and ['error']
    set. *)
Theorem compress_with_method_malformed (self : Compressor.t)
    (contexts : list str) (query : str) (method_config : gmap str pyval)
    (d : gmap str pyval) :
  let separator := Compressor.context_separator (Compressor.config self) in
  let combined := Py.join (txt " " ++ separator ++ txt " ") contexts in
  let r := Compressor.compress_with_method self contexts query
                                           method_config in
  Compressor.call_library self contexts query method_config combined
    [separator; [newline]; txt "."; txt "?"] = Ok (Some d) ->
  (∃ key, key ∈ [txt "compressed_prompt"; txt "rate"; txt "ratio";
                 txt "origin_tokens"; txt "compressed_tokens"]
          ∧ d !! key = None)
  ∨ (∃ v, d !! txt "compressed_prompt" = Some v ∧ ∀ s, v ≠ VStr s) ->
  ∃ msg, is_fallback r combined msg.
Proof.
  cbn zeta. intros Hcall Hbad.
  rewrite compress_with_method_unfold. cbn zeta. rewrite prepare_combined.
  unfold Compressor.compress_try, getitem. rewrite Hcall. cbn -[txt].
  assert (Hfb : ∀ e, ∃ msg,
            is_fallback
              (Compressor.compress_fallback
                 (Py.join (txt " " ++ Compressor.context_separator
                                        (Compressor.config self) ++ txt " ")
                          contexts) e)
              (Py.join (txt " " ++ Compressor.context_separator
                                     (Compressor.config self) ++ txt " ")
                       contexts) msg).
  { intros e. by exists (exn_message e). }
  destruct (d !! txt "compressed_prompt") as [v|] eqn:Hp; cbn -[txt];
    [|apply Hfb].
  destruct v as [| | |prompt]; cbn -[txt]; try apply Hfb.
  destruct (d !! txt "rate") eqn:Hrate; cbn -[txt]; [|apply Hfb].
  destruct (d !! txt "ratio") eqn:Hratio; cbn -[txt]; [|apply Hfb].
  destruct (d !! txt "origin_tokens") eqn:Horigin; cbn -[txt]; [|apply Hfb].
  destruct (d !! txt "compressed_tokens") eqn:Hcompressed; cbn -[txt];
    [|apply Hfb].
  exfalso. destruct Hbad as [(key & Hkey & Hnone)|(v & Hv & Hns)].
  - repeat (apply elem_of_cons in Hkey as [->|Hkey]; [congruence|]).
    by apply elem_of_nil in Hkey.
  - injection Hv as <-. by apply (Hns prompt).
Qed.


Lemma compress_with_method_malformed_witness :
  ∃ msg,
    is_fallback
      (Compressor.compress_with_method (demo_self 2 1 partial_library)
         two_passages (txt "what is soar") {[ txt "rate" := VNum (1 # 2) ]})
      (txt "ab cd <SEP> Ef") msg.
Proof.
  apply (compress_with_method_malformed (demo_self 2 1 partial_library)
           two_passages (txt "what is soar") {[ txt "rate" := VNum (1 # 2) ]}
           {[ txt "compressed_prompt" := VStr (txt "ab") ]}).
  - reflexivity.
  - left. exists (txt "rate"). split; [|reflexivity].
    apply list_elem_of_further, list_elem_of_here.
Defined.

Section ProcessExample.
Import Compressor.
Variable self : Compressor.t.

Lemma foldl_pointwise {A B} (f g : A -> B -> A) (l : list B) (a : A) :
  (∀ a b, f a b = g a b) -> foldl f a l = foldl g a l.
Proof.
  intros H. revert a. induction l as [|b l IH]; intros a; [done|].
  simpl. by rewrite H, IH.
Qed.

Lemma process_example_unfold (ex : example) :
  process_example self ex
  = match ex_answers ex with
    | [] => Raise IndexError
    | answer :: _ =>
        Ok (foldl (method_step self (ex_passage_text ex) (ex_query ex))
                  (base_record self ex answer)
                  (compression_methods (config self)))
    end.
Proof.
  unfold process_example. destruct (ex_answers ex); [done|].
  cbn -[txt]. f_equal. apply foldl_pointwise. by intros result [name mc].
Qed.

Lemma method_loop_dom (contexts : list str) (query : str)
    (ms : list (str * gmap str pyval)) (init : result_record) :
  dom (foldl (method_step self contexts query) init ms)
  = dom init ∪ list_to_set ms.*1.
Proof.
  revert init. induction ms as [|[name mc] ms IH]; intros init; simpl.
  - by rewrite (right_id_L ∅ (∪)).
  - rewrite IH. unfold method_step. simpl. rewrite dom_insert_L.
    rewrite (comm_L (∪) {[name]} (dom init)). by rewrite (assoc_L (∪)).
Qed.

Lemma method_loop_other (contexts : list str) (query : str)
    (ms : list (str * gmap str pyval)) (init : result_record)
    (name : str) :
  name ∉ ms.*1 ->
  foldl (method_step self contexts query) init ms !! name = init !! name.
Proof.
  revert init. induction ms as [|[name' mc] ms IH]; intros init Hn; [done|].
  simpl in *. apply not_elem_of_cons in Hn as [Hne Hn].
  rewrite IH by done. unfold method_step. simpl.
  by rewrite lookup_insert_ne.
Qed.

(** Every configured name holds a dict with a ['response'], which is
    null when the API gives no response. *)
Lemma method_loop_responses (contexts : list str) (query : str)
    (ms : list (str * gmap str pyval)) (init : result_record)
    (name : str) :
  (∀ c q, ScaleDownAPI.get_response (api_client self) c q = None) ->
  name ∈ ms.*1 ->
  ∃ d, foldl (method_step self contexts query) init ms !! name
       = Some (JDict d)
       ∧ d !! txt "response" = Some JNull.
Proof.
  intros Hapi. revert init. induction ms as [|[name' mc] ms IH];
    intros init Hn; [by apply elem_of_nil in Hn|].
  cbn [foldl]. destruct (decide (name ∈ ms.*1)) as [Hin|Hout].
  - by apply IH.
  - cbn [fmap list_fmap fst] in Hn.
    apply elem_of_cons in Hn as [->|Hn]; [|done].
    rewrite method_loop_other by done. unfold method_step. cbn [fst snd].
    rewrite lookup_insert_eq. eexists. split; [done|].
    rewrite Hapi. reflexivity.
Qed.

Lemma base_record_dom (ex : example) (answer : str) :
  dom (base_record self ex answer)
  = list_to_set [txt "query_id"; txt "query"; txt "ground_truth";
                 txt "contexts"; txt "is_selected"; txt "original"].
Proof.
  unfold base_record. cbn zeta. rewrite !dom_insert_L, dom_singleton_L.
  apply set_eq. intros k. rewrite !elem_of_union, !elem_of_list_to_set.
  rewrite !elem_of_singleton. rewrite !elem_of_cons, elem_of_nil. tauto.
Qed.

End ProcessExample.

(** X8: [process_example] raises [IndexError] on an example without
    answers; on any other example it returns a record whose keys are
    exactly ['query_id'], ['query'], ['ground_truth'], ['contexts'],
    ['is_selected'], ['original'] and the configured method names.  All
    keys live in one dict: each of the six fixed keys holds the value
    taken from the example (the id, the query, the first answer, the
    passages, the selection flags, the entry of the uncompressed
    prompt) unless a configured method has that very name, in which case
    the entry of the method has replaced it. *)
Theorem process_example_record (self : Compressor.t)
    (ex : Compressor.example) :
  let names :=
    (Compressor.compression_methods (Compressor.config self)).*1 in
  let original_context :=
    Py.join [newline; newline] (Compressor.ex_passage_text ex) in
  (Compressor.ex_answers ex = [] ->
   Compressor.process_example self ex = Raise IndexError)
  ∧ (∀ answer rest,
       Compressor.ex_answers ex = answer :: rest ->
       ∃ r, Compressor.process_example self ex = Ok r
            ∧ dom r
              = list_to_set [txt "query_id"; txt "query"; txt "ground_truth";
                             txt "contexts"; txt "is_selected";
                             txt "original"]
                ∪ list_to_set names
            ∧ (txt "query_id" ∉ names ->
               r !! txt "query_id"
               = Some (Compressor.JInt (Compressor.ex_query_id ex)))
            ∧ (txt "query" ∉ names ->
               r !! txt "query"
               = Some (Compressor.JStr (Compressor.ex_query ex)))
            ∧ (txt "ground_truth" ∉ names ->
               r !! txt "ground_truth" = Some (Compressor.JStr answer))
            ∧ (txt "contexts" ∉ names ->
               r !! txt "contexts"
               = Some (Compressor.JList
                         (Compressor.JStr <$> Compressor.ex_passage_text ex)))
            ∧ (txt "is_selected" ∉ names ->
               r !! txt "is_selected"
               = Some (Compressor.JList
                         (Compressor.JInt <$> Compressor.ex_is_selected ex)))
            ∧ (txt "original" ∉ names ->
               r !! txt "original"
               = Some (Compressor.JDict
                         {[ txt "context" := Compressor.JStr original_context;
                            txt "response" :=
                              Compressor.optional_str
                                (ScaleDownAPI.get_response
                                   (Compressor.api_client self)
                                   original_context (Compressor.ex_query ex));
                            txt "token_count" :=
                              Compressor.JInt
                                (Py.len (Py.split original_context)) ]}))
            ∧ (∀ name, name ∈ names ->
                 ∃ d, r !! name = Some (Compressor.JDict d)
                      ∧ dom d = list_to_set [txt "compression_result";
                                             txt "response"; txt "context"])).
Proof.
  cbn zeta. rewrite process_example_unfold. split.
  - by intros ->.
  - intros answer rest ->. eexists. split; [done|].
    split; [by rewrite method_loop_dom, base_record_dom|].
    split_and!; try (intros Hn; by rewrite method_loop_other by done).
    intros name Hn.
    generalize (base_record self ex answer).
    induction (Compressor.compression_methods (Compressor.config self))
      as [|[name' mc] ms IH]; intros init; [by apply elem_of_nil in Hn|].
    cbn [foldl]. destruct (decide (name ∈ ms.*1)) as [Hin|Hout].
    + by apply IH.
    + cbn [fmap list_fmap fst] in Hn.
      apply elem_of_cons in Hn as [->|Hn]; [|done].
      rewrite method_loop_other by done. unfold method_step. cbn [fst snd].
      rewrite lookup_insert_eq. eexists. split; [done|].
      rewrite !dom_insert_L, dom_singleton_L.
      apply set_eq. intros k. rewrite !elem_of_union, !elem_of_list_to_set.
      rewrite !elem_of_singleton. rewrite !elem_of_cons, elem_of_nil. tauto.
Qed.

Lemma process_example_record_witness :
  Compressor.process_example (demo_self 2 1 echo_library)
    (Compressor.Example 9 (txt "q") (txt "description") [] [txt "p"] [0%Z])
  = Raise IndexError
  ∧ ∃ r, Compressor.process_example (demo_self 2 1 echo_library)
           (demo_example 11 "description" "a glider flight") = Ok r
         ∧ r !! txt "ground_truth"
           = Some (Compressor.JStr (txt "a glider flight")).
Proof.
  split.
  - apply (process_example_record (demo_self 2 1 echo_library)). reflexivity.
  - destruct (process_example_record (demo_self 2 1 echo_library)
                (demo_example 11 "description" "a glider flight")) as [_ H].
    destruct (H (txt "a glider flight") [] eq_refl)
      as (r & Hr & _ & _ & _ & Hg & _).
    exists r. split; [exact Hr|]. apply Hg.
    intros Hin. repeat (apply elem_of_cons in Hin as [Hin|Hin];
                        [discriminate Hin|]).
    by apply elem_of_nil in Hin.
Defined.

(** X9: in the record of [process_example], the entry of a configured
    method (the last one of that name, when a name is configured twice)
    holds the result of [compress_with_method] for its config, the
    compressed prompt as context, and the API response for that
    prompt. *)
Theorem process_example_method_entry (self : Compressor.t)
    (ex : Compressor.example) (r : Compressor.result_record)
    (pre post : list (str * gmap str pyval)) (name : str)
    (method_config : gmap str pyval) :
  Compressor.process_example self ex = Ok r ->
  Compressor.compression_methods (Compressor.config self)
  = pre ++ (name, method_config) :: post ->
  name ∉ post.*1 ->
  let cr := Compressor.compress_with_method self
              (Compressor.ex_passage_text ex) (Compressor.ex_query ex)
              method_config in
  r !! name
  = Some (Compressor.JDict
            {[ txt "compression_result" := Compressor.JCompression cr;
               txt "response" :=
                 Compressor.optional_str
                   (ScaleDownAPI.get_response (Compressor.api_client self)
                      (Compressor.compressed_prompt cr)
                      (Compressor.ex_query ex));
               txt "context" :=
                 Compressor.JStr (Compressor.compressed_prompt cr) ]}).
Proof.
  rewrite process_example_unfold. intros Hr Hms Hname. cbn zeta.
  destruct (Compressor.ex_answers ex); [done|]. injection Hr as <-.
  rewrite Hms, foldl_app. cbn [foldl].
  rewrite method_loop_other by done. unfold method_step. cbn [fst snd].
  by rewrite lookup_insert_eq.
Qed.

Lemma process_example_method_entry_witness :
  ∃ r, Compressor.process_example (demo_self 2 1 failing_library)
         (demo_example 11 "description" "a glider flight") = Ok r
       ∧ ∃ d, r !! txt "method2_target_tokens" = Some (Compressor.JDict d)
              ∧ d !! txt "context"
                = Some (Compressor.JStr
                          (txt "first passage <SEP> second passage")).
Proof.
  eexists. split; [reflexivity|]. eexists. split.
  - apply (process_example_method_entry (demo_self 2 1 failing_library)
             (demo_example 11 "description" "a glider flight") _
             [(txt "method1_rate", {[ txt "rate" := VNum (1 # 2) ]})]
             [(txt "method3_target_contexts",
               {[ txt "target_context" := VInt 2 ]})]
             (txt "method2_target_tokens")
             {[ txt "target_token" := VInt 100 ]} eq_refl eq_refl).
    intros [H|H]%elem_of_cons; [discriminate H|by apply elem_of_nil in H].
  - reflexivity.
Defined.

(** X10: the loop of [run_compression] keeps, in input order, exactly
    the records of the examples that are processed without an exception;
    it returns no more records than there are examples, and one for each
    example when none raises. *)
Theorem run_loop_keeps_successes
    (process : Compressor.example -> outcome Compressor.result_record)
    (examples : list Compressor.example) :
  let kept := Compressor.process_all process examples [] in
  kept = omap (λ ex, match process ex with
                     | Ok r => Some r
                     | Raise _ => None
                     end) examples
  ∧ (length kept <= length examples)%nat
  ∧ (Forall (λ ex, ∃ r, process ex = Ok r) examples ->
     Forall2 (λ ex r, process ex = Ok r) examples kept).
Proof.
  cbn zeta. rewrite process_all_spec. cbn [app]. split_and!.
  - done.
  - induction examples as [|ex examples IH]; [done|].
    cbn [omap list_omap length] in *. destruct (process ex); cbn [length]; lia.
  - induction 1 as [|ex examples (r & Hr) _ IH]; simpl; [constructor|].
    rewrite Hr. by constructor.
Qed.

Lemma run_loop_keeps_successes_witness :
  Forall2 (λ ex r, Compressor.process_example (demo_self 2 1 echo_library) ex
                   = Ok r)
    [demo_example 11 "description" "a glider flight"]
    (Compressor.process_all
       (Compressor.process_example (demo_self 2 1 echo_library))
       [demo_example 11 "description" "a glider flight"] []).
Proof.
  apply (run_loop_keeps_successes
           (Compressor.process_example (demo_self 2 1 echo_library))
           [demo_example 11 "description" "a glider flight"]).
  repeat constructor. eexists. reflexivity.
Defined.

(** X11: no example that [load_dataset] returns makes [process_example]
    raise, so the loop of [run_compression], run on the loaded examples,
    drops none of them: it yields, in the same order, the record of
    [process_example] for each; and the records carry the ids of the
    examples unless a method is configured under the name
    ['query_id']. *)
Theorem loaded_examples_all_processed (self : Compressor.t) :
  let records :=
    Compressor.process_all (Compressor.process_example self)
                           (Compressor.load_dataset self) [] in
  Forall2 (λ ex r, Compressor.process_example self ex = Ok r)
          (Compressor.load_dataset self) records
  ∧ (txt "query_id"
     ∉ (Compressor.compression_methods (Compressor.config self)).*1 ->
     (λ r : Compressor.result_record, r !! txt "query_id") <$> records
     = (λ ex, Some (Compressor.JInt (Compressor.ex_query_id ex)))
       <$> Compressor.load_dataset self).
Proof.
  cbn zeta. rewrite process_all_spec. cbn [app].
  assert (Hall : Forall (λ ex, Compressor.ex_answers ex ≠ [])
                        (Compressor.load_dataset self)).
  { unfold Compressor.load_dataset.
    rewrite load_loop_spec; [|unfold Py.len; simpl; lia|done]. cbn [app].
    apply Forall_take, Forall_drop, Forall_forall.
    intros ex [Hm _]%list_elem_of_filter. unfold matching in Hm.
    apply andb_true_iff in Hm as [_ Hm]. by destruct (Compressor.ex_answers ex). }
  generalize dependent (Compressor.load_dataset self). intros l Hall. split.
  - induction Hall as [|ex l Hex _ IH]; [constructor|].
    cbn [omap list_omap]. rewrite process_example_unfold.
    destruct (Compressor.ex_answers ex) as [|answer rest] eqn:Ha; [done|].
    constructor; [|exact IH]. by rewrite process_example_unfold, Ha.
  - intros Hn. induction Hall as [|ex l Hex _ IH]; [done|].
    cbn [omap list_omap]. rewrite process_example_unfold.
    destruct (Compressor.ex_answers ex) as [|answer rest] eqn:Ha; [done|].
    cbn [fmap list_fmap]. f_equal; [|exact IH].
    by rewrite method_loop_other by done.
Qed.

Lemma loaded_examples_all_processed_witness :
  (λ r : Compressor.result_record, r !! txt "query_id")
  <$> Compressor.process_all
        (Compressor.process_example (demo_self 2 1 echo_library))
        (Compressor.load_dataset (demo_self 2 1 echo_library)) []
  = [Some (Compressor.JInt 11); Some (Compressor.JInt 13)].
Proof.
  refine (eq_trans
            (proj2 (loaded_examples_all_processed
                      (demo_self 2 1 echo_library)) _) _).
  - intros Hin. repeat (apply elem_of_cons in Hin as [Hin|Hin];
                        [discriminate Hin|]).
    by apply elem_of_nil in Hin.
  - reflexivity.
Defined.

(** X12: when the API gives no response (the request fails or
    ['full_response'] is null), [process_example] still returns its
    record, and [format_predictions] stores ["No Answer Present."] for
    it under every configured method name and under every name that is
    not one of the five fields of the example, ['original'] among
    them. *)
Theorem api_failure_gives_sentinel (self : Compressor.t)
    (ex : Compressor.example) (r : Compressor.result_record) (method : str) :
  (∀ context prompt,
     ScaleDownAPI.get_response (Compressor.api_client self) context prompt
     = None) ->
  Compressor.process_example self ex = Ok r ->
  method ∈ (Compressor.compression_methods (Compressor.config self)).*1
  ∨ method ∉ [txt "query_id"; txt "query"; txt "ground_truth";
              txt "contexts"; txt "is_selected"] ->
  Evaluator.prediction method r
  = Ok (Compressor.JStr (txt "No Answer Present.")).
Proof.
  intros Hapi. rewrite process_example_unfold.
  destruct (Compressor.ex_answers ex) as [|answer rest]; [done|].
  intros [= <-] Hm.
  destruct (decide (method
                    ∈ (Compressor.compression_methods
                         (Compressor.config self)).*1)) as [Hin|Hout].
  - destruct (method_loop_responses self (Compressor.ex_passage_text ex)
                (Compressor.ex_query ex) _ (base_record self ex answer)
                method Hapi Hin) as (d & Hd & Hresp).
    rewrite (prediction_dict method _ d Hd), Hresp. reflexivity.
  - destruct Hm as [Hm|Hm]; [done|].
    destruct (decide (method = txt "original")) as [->|Hne].
    + rewrite (prediction_dict (txt "original") _
                 {[ txt "context" :=
                      Compressor.JStr
                        (Py.join [newline; newline]
                                 (Compressor.ex_passage_text ex));
                    txt "response" := Compressor.JNull;
                    txt "token_count" :=
                      Compressor.JInt
                        (Py.len (Py.split
                                   (Py.join [newline; newline]
                                      (Compressor.ex_passage_text ex)))) ]}).
      * reflexivity.
      * rewrite method_loop_other by done. unfold base_record. cbn zeta.
        by rewrite lookup_insert_eq, Hapi.
    + apply prediction_absent. rewrite method_loop_other by done.
      apply not_elem_of_dom. rewrite base_record_dom.
      rewrite elem_of_list_to_set. intros Hin.
      rewrite !elem_of_cons, elem_of_nil in Hin.
      rewrite !elem_of_cons, elem_of_nil in Hm. tauto.
Qed.

Lemma api_failure_gives_sentinel_witness :
  ∃ r, Compressor.process_example dead_self
         (demo_example 11 "description" "a glider flight") = Ok r
       ∧ Evaluator.prediction (txt "original") r
         = Ok (Compressor.JStr (txt "No Answer Present.")).
Proof.
  eexists. split; [reflexivity|].
  apply (api_failure_gives_sentinel dead_self
           (demo_example 11 "description" "a glider flight"));
    [reflexivity|reflexivity|].
  right. intros Hin.
  repeat (apply elem_of_cons in Hin as [Hin|Hin]; [discriminate Hin|]).
  by apply elem_of_nil in Hin.
Defined.

(* ===================================================================== *)
(** * Further properties of CorrectMSMARCOEvaluator                       *)
(* ===================================================================== *)

Section FormatMore.
Import Compressor Evaluator.
Variable repr : jval -> str.

Lemma references_loop_cons (r : result_record) (rest : list result_record)
    (refs out : gmap str (list jval)) :
  references_loop repr (r :: rest) refs = Ok out ->
  ∃ id g, query_id_of repr r = Ok id ∧ r !! txt "ground_truth" = Some g
          ∧ references_loop repr rest (<[id := [g]]> refs) = Ok out.
Proof.
  cbn [references_loop]. intros (id & Hid & H)%bind_ok.
  apply bind_ok in H as (g & Hg & H). exists id, g. split_and!; [done| |done].
  unfold getitem in Hg. destruct (r !! txt "ground_truth"); [|done].
  by injection Hg as ->.
Qed.

Lemma references_loop_app (pre post : list result_record)
    (refs : gmap str (list jval)) :
  references_loop repr (pre ++ post) refs
  = references_loop repr pre refs ≫= references_loop repr post.
Proof.
  revert refs. induction pre as [|r pre IH]; intros refs; [done|].
  cbn [app references_loop].
  destruct (query_id_of repr r) as [id|e]; [|done].
  destruct (getitem r (txt "ground_truth")) as [g|e]; [|done]. apply IH.
Qed.

Lemma references_loop_dom (results : list result_record)
    (refs out : gmap str (list jval)) :
  references_loop repr results refs = Ok out ->
  ∃ ids, Forall2 (λ r id, query_id_of repr r = Ok id) results ids
         ∧ dom out = dom refs ∪ list_to_set ids.
Proof.
  revert refs. induction results as [|r results IH]; intros refs H.
  - injection H as <-. exists []. split; [constructor|].
    simpl. by rewrite (right_id_L ∅ (∪)).
  - apply references_loop_cons in H as (id & g & Hid & Hg & H).
    apply IH in H as (ids & Hids & Hdom). exists (id :: ids).
    split; [by constructor|].
    rewrite Hdom, dom_insert_L, list_to_set_cons.
    rewrite (comm_L (∪) {[id]} (dom refs)). by rewrite (assoc_L (∪)).
Qed.

Lemma references_loop_other (post : list result_record)
    (refs out : gmap str (list jval)) (id : str) :
  Forall (λ r', query_id_of repr r' ≠ Ok id) post ->
  references_loop repr post refs = Ok out ->
  out !! id = refs !! id.
Proof.
  intros Hpost. revert refs. induction Hpost as [|r post Hr _ IH];
    intros refs H.
  - by injection H as <-.
  - apply references_loop_cons in H as (id' & g & Hid & Hg & H).
    rewrite (IH _ H), lookup_insert_ne; [done|]. congruence.
Qed.

(** The ids that a list of records has are determined by the records. *)
Lemma query_ids_unique (results : list result_record) (ids ids' : list str) :
  Forall2 (λ r id, query_id_of repr r = Ok id) results ids ->
  Forall2 (λ r id, query_id_of repr r = Ok id) results ids' ->
  ids = ids'.
Proof.
  intros H. revert ids'. induction H as [|r id results ids Hr _ IH];
    intros ids' H'; inversion H' as [|? id' ? ids'' Hr' Hrest]; subst;
    [done|].
  f_equal; [congruence|by apply IH].
Qed.

End FormatMore.

(** X13: for every results list and method, the predictions file and the
    references file that are written have the same keys, so the scorer
    finds a reference for every prediction and a prediction for every
    reference. *)
Theorem predictions_and_references_same_keys (repr : Compressor.jval -> str)
    (st st' written written' : Evaluator.state)
    (results : list Compressor.result_record)
    (method predictions_file references_file path path' : str)
    (predictions : gmap str Compressor.jval)
    (references : gmap str (list Compressor.jval)) :
  Evaluator.format_predictions repr st results method predictions_file
  = Ok (written, path) ->
  Evaluator.files written !! predictions_file
  = Some (Evaluator.Predictions predictions) ->
  Evaluator.format_references repr st' results references_file
  = Ok (written', path') ->
  Evaluator.files written' !! references_file
  = Some (Evaluator.References references) ->
  dom predictions = dom references.
Proof.
  unfold Evaluator.format_predictions, Evaluator.format_references.
  intros (data & Hdata & [= <- <-])%bind_ok. cbn [Evaluator.files].
  rewrite lookup_insert_eq. intros [= <-].
  intros (refs & Hrefs & [= <- <-])%bind_ok. cbn [Evaluator.files].
  rewrite lookup_insert_eq. intros [= <-].
  apply format_loop_dom in Hdata as (ids & Hids & ->).
  apply references_loop_dom in Hrefs as (ids' & Hids' & ->).
  by rewrite (query_ids_unique repr results ids ids'), !dom_empty_L.
Qed.

Lemma predictions_and_references_same_keys_witness :
  dom ({[ txt "11" := Compressor.JStr (txt "No Answer Present.");
          txt "13" := Compressor.JStr (txt "No Answer Present.") ]}
       : gmap str Compressor.jval)
  = dom ({[ txt "11" := [Compressor.JStr (txt "a glider flight")];
            txt "13" := [Compressor.JStr (txt "rising air")] ]}
         : gmap str (list Compressor.jval)).
Proof.
  eapply (predictions_and_references_same_keys demo_repr fresh fresh _ _
            [record_11; record_13]
            (txt "method1_rate") (txt "p.json") (txt "r.json"));
    reflexivity.
Defined.

(** X14: a record that no later record shares its stringified id with is
    found again in both files under that id: the references hold the
    one-element list of its ground truth, and the predictions hold its
    response whenever its entry for the method has a non-empty string as
    response. *)
Theorem format_lookup_record (repr : Compressor.jval -> str)
    (results pre post : list Compressor.result_record)
    (r : Compressor.result_record) (method id : str) :
  results = pre ++ r :: post ->
  Evaluator.query_id_of repr r = Ok id ->
  Forall (λ r', Evaluator.query_id_of repr r' ≠ Ok id) post ->
  (∀ st out written path refs,
     Evaluator.format_references repr st results out = Ok (written, path) ->
     Evaluator.files written !! out = Some (Evaluator.References refs) ->
     ∃ ground_truth,
       r !! txt "ground_truth" = Some ground_truth
       ∧ refs !! id = Some [ground_truth])
  ∧ (∀ d c s data,
       r !! method = Some (Compressor.JDict d) ->
       d !! txt "response" = Some (Compressor.JStr (c :: s)) ->
       Evaluator.format_loop repr method results ∅ = Ok data ->
       data !! id = Some (Compressor.JStr (c :: s))).
Proof.
  intros -> Hid Hpost. split.
  - intros st out written path refs.
    unfold Evaluator.format_references.
    intros (refs' & Hrefs & [= <- <-])%bind_ok. cbn [Evaluator.files].
    rewrite lookup_insert_eq. intros [= <-].
    rewrite references_loop_app in Hrefs.
    apply bind_ok in Hrefs as (before & _ & Hrefs).
    apply references_loop_cons in Hrefs as (id' & g & Hid' & Hg & Hrefs).
    assert (id' = id) as -> by congruence.
    exists g. split; [done|].
    rewrite (references_loop_other repr _ _ _ _ Hpost Hrefs).
    apply lookup_insert_eq.
  - intros d c s data Hentry Hresp Hdata.
    rewrite format_loop_app in Hdata.
    apply bind_ok in Hdata as (before & _ & Hdata).
    rewrite (format_loop_step repr _ _ _ _ id (Compressor.JStr (c :: s)))
      in Hdata; [|done|].
    + rewrite (format_loop_other repr _ _ _ _ _ Hpost Hdata).
      apply lookup_insert_eq.
    + by rewrite (prediction_dict method r d Hentry), Hresp.
Qed.

Lemma format_lookup_record_witness :
  ∃ data,
    Evaluator.format_loop demo_repr (txt "original") [record_11; record_13] ∅
    = Ok data
    ∧ data !! txt "11" = Some (Compressor.JStr (txt "gliding")).
Proof.
  destruct (format_lookup_record demo_repr [record_11; record_13] []
              [record_13] record_11 (txt "original") (txt "11")
              eq_refl eq_refl) as [_ H].
  - apply Forall_cons_2; [discriminate|apply Forall_nil_2].
  - eexists. split; [reflexivity|].
    apply (H {[ txt "context" := Compressor.JStr (txt "first passage");
                txt "response" := Compressor.JStr (txt "gliding") ]}
             "g"%char (txt "liding")); reflexivity.
Defined.

Section ScrapeMore.
Import Evaluator.

Lemma lower_char_idemp (c : ascii) :
  Py.lower_char (Py.lower_char c) = Py.lower_char c.
Proof. destruct c as [[] [] [] [] [] [] [] []]; reflexivity. Qed.

Lemma lower_idemp (s : str) : Py.lower (Py.lower s) = Py.lower s.
Proof.
  unfold Py.lower. rewrite <- list_fmap_compose. apply list_fmap_ext.
  intros _ c _. apply lower_char_idemp.
Qed.

(** Replacing one character by another is a map over the text. *)
Lemma replace_char (a b : ascii) (s : str) :
  Py.replace [a] [b] s = (λ c, if decide (a = c) then b else c) <$> s.
Proof.
  unfold Py.replace. induction s as [|c s IH]; [done|].
  cbn [Py.replace_go Py.starts_with length Nat.sub fmap list_fmap].
  rewrite andb_true_r. destruct (decide (a = c)) as [->|Hne].
  - rewrite bool_decide_eq_true_2 by done. simpl. by rewrite IH.
  - rewrite bool_decide_eq_false_2 by done. by rewrite IH.
Qed.

Lemma split_on_nonempty (c : ascii) (s : str) : Py.split_on c s ≠ [].
Proof.
  induction s as [|x s IH]; [done|]. simpl.
  destruct (decide (x = c)); [done|]. by destruct (Py.split_on c s).
Qed.

Lemma split_on_app (c : ascii) (a b : str) :
  Py.split_on c (a ++ c :: b) = Py.split_on c a ++ Py.split_on c b.
Proof.
  induction a as [|x a IH]; simpl.
  - by destruct (decide (c = c)).
  - destruct (decide (x = c)); [by rewrite IH|]. rewrite IH.
    pose proof (split_on_nonempty c a). by destruct (Py.split_on c a).
Qed.

Lemma split_on_absent (c : ascii) (s : str) :
  c ∉ s -> Py.split_on c s = [s].
Proof.
  induction s as [|x s IH]; [done|]. intros [Hx Hs]%not_elem_of_cons.
  simpl. destruct (decide (x = c)); [congruence|]. by rewrite IH.
Qed.

Lemma parse_metric_inv (line key : str) (value : Py.pyfloat) :
  Evaluator.parse_metric line = Some (key, value) ->
  ∃ name rhs,
    Py.split_on ":" line !! 0%nat = Some name
    ∧ Py.split_on ":" line !! 1%nat = Some rhs
    ∧ Py.float_of_str (Py.strip rhs) = Some value
    ∧ key = Py.replace (txt "-") (txt "_") (Py.lower (Py.strip name)).
Proof.
  unfold Evaluator.parse_metric.
  destruct (Py.split_on ":" line !! 0%nat) as [name|];
    cbn [fmap option_fmap option_map mbind option_bind]; [|done].
  destruct (Py.split_on ":" line !! 1%nat) as [rhs|];
    cbn [fmap option_fmap option_map mbind option_bind]; [|done].
  destruct (Py.float_of_str (Py.strip rhs)) as [v|] eqn:Hf;
    cbn [fmap option_fmap option_map mbind option_bind]; [|done].
  intros [= <- <-]. by exists name, rhs.
Qed.

End ScrapeMore.

(** X15: every key of the scraped metrics is in the form that the loop
    gives it: lower-case and without a hyphen. *)
Theorem scrape_metrics_key_form (output key : str) (value : Py.pyfloat) :
  Evaluator.scrape_metrics output !! key = Some value ->
  ("-"%char ∉ key) ∧ Py.lower key = key.
Proof.
  intros H. destruct (scrape_fold_source _ _ _ _ H) as [H0|(line & _ & _ & Hp)].
  { by rewrite lookup_empty in H0. }
  destruct (parse_metric_inv _ _ _ Hp) as (name & rhs & _ & _ & _ & ->).
  change (txt "-") with ("-"%char :: []).
  change (txt "_") with ("_"%char :: []).
  rewrite replace_char. split.
  - intros (c & Hc & _)%list_elem_of_fmap. by case_decide.
  - unfold Py.lower. rewrite <- !list_fmap_compose. apply list_fmap_ext.
    intros i c _. simpl. case_decide; [reflexivity|apply lower_char_idemp].
Qed.

Lemma scrape_metrics_key_form_witness :
  ("-"%char ∉ txt "rouge_l") ∧ Py.lower (txt "rouge_l") = txt "rouge_l".
Proof.
  apply (scrape_metrics_key_form (txt "ROUGE-L: 0.4523") (txt "rouge_l")
           (Py.FDec false 4523 (-4))).
  reflexivity.
Defined.

(** X16: when the last line of the output is a metric line that parses,
    its value is the one kept under its key, whatever earlier lines
    stored there. *)
Theorem scrape_metrics_last_wins (earlier line key : str)
    (value : Py.pyfloat) :
  newline ∉ line ->
  Evaluator.is_metric_line line = true ->
  Evaluator.parse_metric line = Some (key, value) ->
  Evaluator.scrape_metrics (earlier ++ newline :: line) !! key = Some value.
Proof.
  intros Hnl Hm Hp. unfold Evaluator.scrape_metrics.
  rewrite split_on_app, (split_on_absent newline line Hnl), foldl_app.
  simpl. unfold Evaluator.scrape_line at 1. rewrite Hm, Hp.
  apply lookup_insert_eq.
Qed.

Lemma scrape_metrics_last_wins_witness :
  Evaluator.scrape_metrics
    (txt "rouge-l: 0.1" ++ newline :: txt "ROUGE-L: 0.4523")
    !! txt "rouge_l" = Some (Py.FDec false 4523 (-4)).
Proof.
  apply (scrape_metrics_last_wins (txt "rouge-l: 0.1")
           (txt "ROUGE-L: 0.4523")).
  - apply (bool_decide_eq_false_1 (newline ∈ txt "ROUGE-L: 0.4523")).
    reflexivity.
  - reflexivity.
  - reflexivity.
Defined.

(** X17: only the text before the first colon and the text between the
    first and the second colon are read: what follows a second colon
    changes neither the key nor the value. *)
Theorem parse_metric_ignores_rest (name rhs rest : str) :
  ":"%char ∉ name -> ":"%char ∉ rhs ->
  Evaluator.parse_metric (name ++ ":"%char :: rhs ++ ":"%char :: rest)
  = Evaluator.parse_metric (name ++ ":"%char :: rhs).
Proof.
  intros Hname Hrhs. unfold Evaluator.parse_metric.
  rewrite !split_on_app, (split_on_absent _ name Hname),
    (split_on_absent _ rhs Hrhs).
  reflexivity.
Qed.

Lemma parse_metric_ignores_rest_witness :
  Evaluator.parse_metric (txt "F1: 0.5: on 3 runs")
  = Some (txt "f1", Py.FDec false 5 (-1)).
Proof.
  refine (eq_trans (parse_metric_ignores_rest (txt "F1") (txt " 0.5")
                      (txt " on 3 runs") _ _) _).
  - apply (bool_decide_eq_false_1 (":"%char ∈ txt "F1")). reflexivity.
  - apply (bool_decide_eq_false_1 (":"%char ∈ txt " 0.5")). reflexivity.
  - reflexivity.
Defined.

(** X18: [evaluate_all_methods] returns when the references and the
    predictions of the four methods can be formatted.  After it has
    returned, the predictions file of each of the four methods holds the
    predictions of that method (no file of one method is overwritten by
    another), the references file holds the references, and no path
    other than these five and the results file is changed. *)
Theorem evaluate_all_methods_files (repr : Compressor.jval -> str)
    (self : Evaluator.t) (st : Evaluator.state)
    (results : list Compressor.result_record) (output_dir : str) :
  let names := [txt "original"; txt "method1_rate";
                txt "method2_target_tokens"; txt "method3_target_contexts"] in
  ((∃ references, Evaluator.references_loop repr results ∅ = Ok references) ->
   (∀ method, method ∈ names ->
      ∃ data, Evaluator.format_loop repr method results ∅ = Ok data) ->
   ∃ returned,
     Evaluator.evaluate_all_methods repr self st results output_dir
     = Ok returned)
  ∧ ∀ all_results st',
      Evaluator.evaluate_all_methods repr self st results output_dir
      = Ok (all_results, st') ->
      let saved := Evaluator.files st' in
      (∀ method,
         method ∈ names ->
         ∃ data,
           Evaluator.format_loop repr method results ∅ = Ok data
           ∧ saved !! Evaluator.predictions_path output_dir method
             = Some (Evaluator.Predictions data))
      ∧ (∃ references ids,
           saved !! Py.path_join output_dir (txt "references.json")
           = Some (Evaluator.References references)
           ∧ Forall2 (λ r id, Evaluator.query_id_of repr r = Ok id)
                     results ids
           ∧ dom references = list_to_set ids)
      ∧ (∀ path,
           path ≠ Py.path_join output_dir (txt "references.json") ->
           path ≠ Py.path_join output_dir (txt "msmarco_results.json") ->
           (∀ method, method ∈ names ->
                      path ≠ Evaluator.predictions_path output_dir method) ->
           saved !! path = Evaluator.files st !! path).
Proof.
  cbn zeta. split.
  { intros [refs Hrefs] Hfmt.
    unfold Evaluator.evaluate_all_methods, Evaluator.format_references.
    rewrite Hrefs. cbn [mbind outcome_bind].
    destruct (evaluate_loop_spec repr self results output_dir
                (Evaluator.References refs) Evaluator.method_names
                (Evaluator.State
                   (<[Py.path_join output_dir (txt "references.json")
                      := Evaluator.References refs]> (Evaluator.files st))
                   (Evaluator.runs st)) ∅)
      as (all & st' & Hrun & _); [apply lookup_insert_eq|exact Hfmt|].
    rewrite Hrun. by eexists. }
  intros all_results st'.
  unfold Evaluator.evaluate_all_methods, Evaluator.format_references.
  intros (written & Hw & Hrun)%bind_ok.
  apply bind_ok in Hw as (refs & Hrefs & [= <-]).
  apply bind_ok in Hrun as ([all after] & Hloop & [= <- <-]).
  set (references_file := Py.path_join output_dir (txt "references.json"))
    in *.
  destruct (evaluate_loop_files repr self results output_dir _ _ _ _ _ Hloop)
    as [Hin Hout].
  cbn [Evaluator.files] in *. split_and!.
  - intros method Hm. destruct (Hin method Hm) as (data & Hdata & Hfile).
    exists data. split; [done|]. rewrite lookup_insert_ne; [done|].
    intros Heq. by apply (predictions_path_not_results output_dir method).
  - apply references_loop_dom in Hrefs as (ids & Hids & Hdom).
    exists refs, ids. split_and!.
    + rewrite lookup_insert_ne by (apply not_eq_sym, references_not_results).
      rewrite Hout; [apply lookup_insert_eq|].
      intros m _ Heq.
      by apply (predictions_path_not_references output_dir m).
    + done.
    + by rewrite Hdom, dom_empty_L, (left_id_L ∅ (∪)).
  - intros path Hr Hres Hp. rewrite lookup_insert_ne by done.
    rewrite Hout by done. by rewrite lookup_insert_ne.
Qed.

Lemma evaluate_all_methods_files_witness :
  ∃ all_results st' data,
    Evaluator.evaluate_all_methods demo_repr demo_evaluator fresh
      [record_11; record_13] (txt "out") = Ok (all_results, st')
    ∧ Evaluator.format_loop demo_repr (txt "method1_rate")
                            [record_11; record_13] ∅ = Ok data
    ∧ Evaluator.files st'
        !! Evaluator.predictions_path (txt "out") (txt "method1_rate")
      = Some (Evaluator.Predictions data).
Proof.
  eexists _, _.
  assert (Hrun : Evaluator.evaluate_all_methods demo_repr demo_evaluator fresh
                   [record_11; record_13] (txt "out") = Ok (_, _))
    by reflexivity.
  pose proof (proj2 (evaluate_all_methods_files demo_repr demo_evaluator
                       fresh [record_11; record_13] (txt "out"))
                _ _ Hrun) as H.
  cbn zeta in H. destruct H as (H & _ & _).
  destruct (H (txt "method1_rate")) as (data & Hdata & Hfile).
  { apply list_elem_of_further, list_elem_of_here. }
  exists data. split_and!; [exact Hrun|exact Hdata|exact Hfile].
Defined.

(* ===================================================================== *)
(** * Properties of the start-up checks and of the pipeline runner        *)
(* ===================================================================== *)

Lemma missing_files_nil (path_exists : str -> bool) (required : list str) :
  missing_files path_exists required = []
  <-> Forall (λ f, path_exists f = true) required.
Proof.
  unfold missing_files. induction required as [|f required IH].
  - split; [constructor|done].
  - destruct (path_exists f) eqn:Hf.
    + rewrite filter_cons_False by congruence. rewrite IH. split.
      * by constructor.
      * by intros [_ ?]%Forall_cons.
    + rewrite filter_cons_True by done. split; [done|].
      intros [? _]%Forall_cons. congruence.
Qed.

(** X19: the evaluator is built exactly when its three required files
    exist; when one of them is missing the constructor exits with
    status 1. *)
Theorem evaluator_init_checks (path_exists : str -> bool) (executable : str)
    (run : gmap str Evaluator.file -> list str -> Evaluator.completed) :
  (Forall (λ f, path_exists f = true)
          [txt "evaluation/ms_marco_eval.py"; txt "evaluation/rouge.py";
           txt "evaluation/bleu.py"] ->
   EvaluatorSetup.init path_exists executable run
   = Returns (Evaluator.Self (txt "evaluation/ms_marco_eval.py") executable
                             run))
  ∧ (∀ f, f ∈ [txt "evaluation/ms_marco_eval.py"; txt "evaluation/rouge.py";
               txt "evaluation/bleu.py"] ->
          path_exists f = false ->
          EvaluatorSetup.init path_exists executable run = SysExit 1).
Proof.
  unfold EvaluatorSetup.init. split.
  - intros H%missing_files_nil.
    change EvaluatorSetup.required_files
      with [txt "evaluation/ms_marco_eval.py"; txt "evaluation/rouge.py";
            txt "evaluation/bleu.py"].
    by rewrite H.
  - intros f Hf Hmissing.
    destruct (missing_files path_exists EvaluatorSetup.required_files)
      eqn:Hm; [|done].
    apply missing_files_nil in Hm.
    apply (proj1 (Forall_forall _ _) Hm) in Hf. congruence.
Qed.

Lemma evaluator_init_checks_witness :
  EvaluatorSetup.init (λ f, negb (bool_decide (f = txt "evaluation/rouge.py")))
    (txt "python3") demo_scorer = SysExit 1
  ∧ ∃ ev, EvaluatorSetup.init (λ _, true) (txt "python3") demo_scorer
          = Returns ev.
Proof.
  split.
  - apply (evaluator_init_checks _ (txt "python3") demo_scorer)
      with (f := txt "evaluation/rouge.py"); [|reflexivity].
    apply list_elem_of_further, list_elem_of_here.
  - eexists.
    apply (evaluator_init_checks (λ _, true) (txt "python3") demo_scorer).
    repeat constructor.
Defined.

Section PipelineFacts.
Import Pipeline.

Lemma check_files_true (exists_ : str -> bool) :
  check_files exists_ = true
  <-> Forall (λ f, exists_ f = true) required_files.
Proof.
  unfold check_files. rewrite <- missing_files_nil.
  by destruct (missing_files exists_ required_files).
Qed.

(** Each phase reads the clock once, runs one command line, and goes on
    exactly when that command returned status 0. *)
Lemma run_compression_effect (w : world) (num_examples : option Z)
    (st : state) :
  ∃ line out,
    run_compression w num_examples st
    = (if (os_system w line =? 0)%Z then Returns out else SysExit 1,
       State (S (clock_reads st)) (line :: commands st)).
Proof.
  unfold run_compression. cbv zeta. eexists _, _.
  destruct (os_system w _ =? 0)%Z eqn:H; rewrite H; reflexivity.
Qed.

Lemma run_evaluation_effect (w : world) (compression_file : str)
    (st : state) :
  ∃ line out,
    run_evaluation w compression_file st
    = (if (os_system w line =? 0)%Z then Returns out else SysExit 1,
       State (S (clock_reads st)) (line :: commands st)).
Proof.
  unfold run_evaluation. cbv zeta. eexists _, _.
  destruct (os_system w _ =? 0)%Z eqn:H; rewrite H; reflexivity.
Qed.

End PipelineFacts.

(** X20: the runner runs no command when [parse_args] ends the process
    (a usage error or [--help]): it exits with the status of
    [argparse].  With the command line parsed, it runs no command and
    exits with status 1 when one of its six required files is missing
    and, in the evaluation phase, when [--compression_results] is
    absent, empty or names a file that does not exist. *)
Theorem pipeline_refuses_without_inputs (w : Pipeline.world)
    (argv : list str) (st : Pipeline.state) :
  (∀ code, Pipeline.parse_args w argv = SysExit code ->
           Pipeline.main w argv st = (code, st))
  ∧ (∀ a, Pipeline.parse_args w argv = Returns a ->
       (∀ f, f ∈ [txt "config.json"; txt "llmlingua_compressor.py";
                  txt "msmarco_evaluator.py";
                  txt "evaluation/ms_marco_eval.py";
                  txt "evaluation/rouge.py"; txt "evaluation/bleu.py"] ->
             Pipeline.path_exists w f = false ->
             Pipeline.main w argv st = (1%Z, st))
       ∧ (Pipeline.arg_phase a = Pipeline.Evaluation ->
          match Pipeline.arg_compression_results a with
          | None | Some [] => True
          | Some file => Pipeline.path_exists w file = false
          end ->
          Pipeline.main w argv st = (1%Z, st))).
Proof.
  unfold Pipeline.main. split.
  - by intros code ->.
  - intros a ->. split.
    + intros f Hf Hmissing.
      destruct (Pipeline.check_files (Pipeline.path_exists w)) eqn:Hc;
        [|done].
      apply check_files_true in Hc.
      apply (proj1 (Forall_forall _ _) Hc) in Hf. congruence.
    + intros -> Hfile.
      destruct (Pipeline.check_files (Pipeline.path_exists w)); [|done].
      simpl. destruct (Pipeline.arg_compression_results a) as [[|c file]|];
        [done| |done].
      by rewrite Hfile.
Qed.

Lemma pipeline_refuses_without_inputs_witness :
  Pipeline.main bare_world [] (Pipeline.State 0 [])
  = (1%Z, Pipeline.State 0 [])
  ∧ Pipeline.main good_world [txt "--phase"; txt "evaluation"]
      (Pipeline.State 0 [])
    = (1%Z, Pipeline.State 0 [])
  ∧ Pipeline.main good_world [txt "--phase"] (Pipeline.State 0 [])
    = (2%Z, Pipeline.State 0 []).
Proof.
  split_and!.
  - apply (proj2 (pipeline_refuses_without_inputs bare_world [] _)
             (Pipeline.Args Pipeline.Full None None) eq_refl)
      with (f := txt "config.json"); [apply list_elem_of_here|reflexivity].
  - apply (proj2 (pipeline_refuses_without_inputs good_world
                    [txt "--phase"; txt "evaluation"] _)
             (Pipeline.Args Pipeline.Evaluation None None) eq_refl);
      [reflexivity|exact I].
  - apply (proj1 (pipeline_refuses_without_inputs good_world
                    [txt "--phase"] _)). reflexivity.
Defined.

(** X21: the runner runs at most two commands.  When [parse_args] ends
    the process it runs none and exits with the status of [argparse].
    Otherwise it exits with status 0 or 1, and with 0 only if the six
    required files exist, at least one command was run, and every
    command that was run returned status 0. *)
Theorem pipeline_exit_status (w : Pipeline.world) (argv : list str)
    (st : Pipeline.state) :
  let final := Pipeline.main w argv st in
  ∃ run,
    Pipeline.commands final.2 = run ++ Pipeline.commands st
    ∧ (length run <= 2)%nat
    ∧ match Pipeline.parse_args w argv with
      | SysExit code => final.1 = code ∧ run = []
      | Returns _ =>
          (final.1 = 0%Z ∨ final.1 = 1%Z)
          ∧ (final.1 = 0%Z ->
             run ≠ []
             ∧ Forall (λ line, Pipeline.os_system w line = 0%Z) run
             ∧ Forall (λ f, Pipeline.path_exists w f = true)
                      Pipeline.required_files)
      end.
Proof.
  cbn zeta. unfold Pipeline.main.
  destruct (Pipeline.parse_args w argv) as [a|code].
  2:{ exists []. split_and!; [done|simpl; lia|done|done]. }
  destruct (Pipeline.check_files (Pipeline.path_exists w)) eqn:Hc; simpl.
  2:{ exists []. split_and!; [done|simpl; lia|by right|done]. }
  apply check_files_true in Hc.
  assert (Hrefuse :
            ∃ run, Pipeline.commands st = run ++ Pipeline.commands st
                   ∧ (length run <= 2)%nat
                   ∧ (1%Z = 0%Z ∨ 1%Z = 1%Z)
                   ∧ (1%Z = 0%Z -> run ≠ []
                      ∧ Forall (λ line, Pipeline.os_system w line = 0%Z) run
                      ∧ Forall (λ f, Pipeline.path_exists w f = true)
                               Pipeline.required_files)).
  { exists []. split_and!; [done|simpl; lia|by right|done]. }
  assert (Hone : ∀ line : str,
            Pipeline.os_system w line = 0%Z ->
            ∃ run, line :: Pipeline.commands st = run ++ Pipeline.commands st
                   ∧ (length run <= 2)%nat
                   ∧ (0%Z = 0%Z ∨ 0%Z = 1%Z)
                   ∧ (0%Z = 0%Z -> run ≠ []
                      ∧ Forall (λ l, Pipeline.os_system w l = 0%Z) run
                      ∧ Forall (λ f, Pipeline.path_exists w f = true)
                               Pipeline.required_files)).
  { intros line H0. exists [line].
    split_and!; [done|simpl; lia|by left|]. intros _.
    split_and!; [done| |done]. by repeat constructor. }
  assert (Hfail : ∀ run : list str,
            (length run <= 2)%nat ->
            ∃ run', run ++ Pipeline.commands st
                    = run' ++ Pipeline.commands st
                    ∧ (length run' <= 2)%nat
                    ∧ (1%Z = 0%Z ∨ 1%Z = 1%Z)
                    ∧ (1%Z = 0%Z -> run' ≠ []
                       ∧ Forall (λ l, Pipeline.os_system w l = 0%Z) run'
                       ∧ Forall (λ f, Pipeline.path_exists w f = true)
                                Pipeline.required_files)).
  { intros run Hlen. exists run. split_and!; [done|done|by right|done]. }
  destruct (Pipeline.arg_phase a).
  - destruct (run_compression_effect w (Pipeline.arg_num_examples a) st)
      as (line & out & ->).
    destruct (Z.eqb_spec (Pipeline.os_system w line) 0) as [H0|H0]; simpl.
    + by apply Hone.
    + apply (Hfail [line]). simpl. lia.
  - destruct (Pipeline.arg_compression_results a) as [[|c file]|];
      [done| |done].
    destruct (Pipeline.path_exists w (c :: file)); simpl; [|done].
    destruct (run_evaluation_effect w (c :: file) st) as (line & out & ->).
    destruct (Z.eqb_spec (Pipeline.os_system w line) 0) as [H0|H0]; simpl.
    + by apply Hone.
    + apply (Hfail [line]). simpl. lia.
  - destruct (run_compression_effect w (Pipeline.arg_num_examples a) st)
      as (line & out & ->).
    destruct (Z.eqb_spec (Pipeline.os_system w line) 0) as [H0|H0]; simpl.
    + destruct (run_evaluation_effect w out
                  (Pipeline.State (S (Pipeline.clock_reads st))
                                  (line :: Pipeline.commands st)))
        as (line' & out' & ->).
      destruct (Z.eqb_spec (Pipeline.os_system w line') 0) as [H1|H1]; simpl.
      * exists [line'; line].
        split_and!; [done|simpl; lia|by left|]. intros _.
        split_and!; [done| |done]. by repeat constructor.
      * apply (Hfail [line'; line]). simpl. lia.
    + apply (Hfail [line]). simpl. lia.
Qed.

Lemma pipeline_exit_status_witness :
  ∃ run,
    Pipeline.commands
      (Pipeline.main good_world [txt "--num_examples"; txt "5"]
                     (Pipeline.State 0 [])).2
    = run ++ []
    ∧ (length run <= 2)%nat
    ∧ ((Pipeline.main good_world [txt "--num_examples"; txt "5"]
                      (Pipeline.State 0 [])).1 = 0%Z
       ∨ (Pipeline.main good_world [txt "--num_examples"; txt "5"]
                        (Pipeline.State 0 [])).1 = 1%Z)
    ∧ ((Pipeline.main good_world [txt "--num_examples"; txt "5"]
                      (Pipeline.State 0 [])).1 = 0%Z ->
       run ≠ []
       ∧ Forall (λ line, Pipeline.os_system good_world line = 0%Z) run
       ∧ Forall (λ f, Pipeline.path_exists good_world f = true)
                Pipeline.required_files).
Proof.
  apply (pipeline_exit_status good_world [txt "--num_examples"; txt "5"]
           (Pipeline.State 0 [])).
Defined.

(** X22: in the full phase, with the required files in place, the
    evaluator is run only after the compressor has returned status 0,
    and then on the very file that the compressor was told to write;
    when the compressor fails the runner exits with 1 after that single
    command. *)
Theorem pipeline_full_sequence (w : Pipeline.world) (argv : list str)
    (a : Pipeline.args) (st : Pipeline.state) :
  Pipeline.parse_args w argv = Returns a ->
  Forall (λ f, Pipeline.path_exists w f = true) Pipeline.required_files ->
  Pipeline.arg_phase a = Pipeline.Full ->
  let output_file :=
    txt "compression_results_"
    ++ Pipeline.timestamp w (Pipeline.clock_reads st) ++ txt ".json" in
  let limit :=
    match Pipeline.arg_num_examples a with
    | Some n => if (n =? 0)%Z then []
                else [txt "--num_examples"; Py.str_of_int n]
    | None => []
    end in
  let compress :=
    Py.join (txt " ")
      ([Pipeline.executable w; txt "llmlingua_compressor.py"; txt "--output";
        output_file] ++ limit) in
  let evaluate :=
    Py.join (txt " ")
      [Pipeline.executable w; txt "msmarco_evaluator.py";
       txt "--results_file"; output_file; txt "--output_dir";
       txt "msmarco_eval_"
       ++ Pipeline.timestamp w (S (Pipeline.clock_reads st))] in
  Pipeline.main w argv st
  = if (Pipeline.os_system w compress =? 0)%Z
    then (if (Pipeline.os_system w evaluate =? 0)%Z then 0%Z else 1%Z,
          Pipeline.State (S (S (Pipeline.clock_reads st)))
            (evaluate :: compress :: Pipeline.commands st))
    else (1%Z, Pipeline.State (S (Pipeline.clock_reads st))
                 (compress :: Pipeline.commands st)).
Proof.
  intros Hparse Hfiles%check_files_true Hphase. cbn zeta.
  unfold Pipeline.main. rewrite Hparse, Hfiles, Hphase. simpl negb. cbn iota.
  unfold Pipeline.run_compression.
  assert (Hcmd :
    match Pipeline.arg_num_examples a with
    | Some n =>
        if (n =? 0)%Z
        then [Pipeline.executable w; txt "llmlingua_compressor.py";
              txt "--output";
              txt "compression_results_"
              ++ Pipeline.timestamp w (Pipeline.clock_reads st)
              ++ txt ".json"]
        else [Pipeline.executable w; txt "llmlingua_compressor.py";
              txt "--output";
              txt "compression_results_"
              ++ Pipeline.timestamp w (Pipeline.clock_reads st)
              ++ txt ".json"]
             ++ [txt "--num_examples"; Py.str_of_int n]
    | None =>
        [Pipeline.executable w; txt "llmlingua_compressor.py"; txt "--output";
         txt "compression_results_"
         ++ Pipeline.timestamp w (Pipeline.clock_reads st) ++ txt ".json"]
    end
    = [Pipeline.executable w; txt "llmlingua_compressor.py"; txt "--output";
       txt "compression_results_"
       ++ Pipeline.timestamp w (Pipeline.clock_reads st) ++ txt ".json"]
      ++ match Pipeline.arg_num_examples a with
         | Some n => if (n =? 0)%Z then []
                     else [txt "--num_examples"; Py.str_of_int n]
         | None => []
         end).
  { destruct (Pipeline.arg_num_examples a) as [n|]; [|done].
    by destruct (n =? 0)%Z. }
  cbv zeta. rewrite Hcmd.
  destruct (Pipeline.os_system w _ =? 0)%Z; [|done].
  unfold Pipeline.run_evaluation. cbv zeta. cbn [Pipeline.clock_reads
    Pipeline.commands].
  by destruct (Pipeline.os_system w _ =? 0)%Z.
Qed.

Lemma pipeline_full_sequence_witness :
  Pipeline.main demo_world [txt "--num_examples"; txt "5"]
                (Pipeline.State 0 [])
  = (1%Z,
     Pipeline.State 1
       [txt "python3 llmlingua_compressor.py --output compression_results_20250101_000000.json --num_examples 5"]).
Proof.
  refine (eq_trans (pipeline_full_sequence demo_world
                      [txt "--num_examples"; txt "5"]
                      (Pipeline.Args Pipeline.Full (Some 5%Z) None)
                      (Pipeline.State 0 []) _ _ _) _).
  - reflexivity.
  - repeat constructor.
  - reflexivity.
  - reflexivity.
Defined.
